(** * EDUNET study planner: credential store, task store, derived fields

    A shallow embedding of [edunet_auth.py] and of the task logic of
    [edunet_study_planner.py].

    Conventions of the embedding.
    - A Python [str] is a [string] of ASCII characters; [lower], [strip] and
      the regular expressions below are the ASCII fragment of Python's.
    - A pandas cell is a [cell]; [None], [NaN] and [NaT] are the one missing
      value [NaN].
    - A CSV file is the table of its text fields ([csv_file]): quoting and line
      splitting are below the level of the model, and every line is taken to
      carry one field per header column, as [DataFrame.to_csv] writes it.
      Two things are outside the table: a file without a header line, on
      which [pd.read_csv] raises, and a field with a control character (a
      bare carriage return is written unquoted and read as the end of a
      line). [Csv.read_csv] is the reading of a file that has a header
      line, and [Csv.to_csv] the writing of fields without control
      characters.
    - The file system is a finite map from file names to files.
    - An exception is the [None] of an [option] result.
    - What pandas and the standard library decide and the program does not
      (the type a column is read with, the parsing of dates, the rounding of
      a float) is a [Platform]; the properties hold on every platform, and
      [Reference.platform] is the one the sample data are evaluated on.
    - The widgets, the charts and the sending of mail are not modelled; a
      form is the function from what the user chose to what is saved, and
      a figure of the dashboard a function of the frame. *)

From Stdlib Require Import ZArith QArith Qcanon Qabs Ascii String List Lia Lqa.
From stdpp Require Import base option list strings gmap.

Local Open Scope Z_scope.

(** ** Text *)

Module Text.

Definition code (c : ascii) : N := N_of_ascii c.

Definition is_upper (c : ascii) : bool := (65 <=? code c)%N && (code c <=? 90)%N.
Definition is_lower (c : ascii) : bool := (97 <=? code c)%N && (code c <=? 122)%N.
Definition is_digit (c : ascii) : bool := (48 <=? code c)%N && (code c <=? 57)%N.

(** [str.isspace] on ASCII: TAB LF VT FF CR, FS GS RS US, and the space. *)
Definition is_space (c : ascii) : bool :=
  ((9 <=? code c)%N && (code c <=? 13)%N)
  || ((28 <=? code c)%N && (code c <=? 32)%N).

(** [\w] of the [re] module on ASCII text. *)
Definition is_word (c : ascii) : bool :=
  is_lower c || is_upper c || is_digit c || (code c =? 95)%N.

Definition lower_char (c : ascii) : ascii :=
  if is_upper c then ascii_of_N (code c + 32) else c.

(** [s.lower()] *)
Fixpoint lower (s : string) : string :=
  match s with
  | EmptyString => EmptyString
  | String c s' => String (lower_char c) (lower s')
  end.

Fixpoint lstrip (s : string) : string :=
  match s with
  | EmptyString => EmptyString
  | String c s' => if is_space c then lstrip s' else s
  end.

Fixpoint rstrip (s : string) : string :=
  match s with
  | EmptyString => EmptyString
  | String c s' =>
      match rstrip s' with
      | EmptyString => if is_space c then EmptyString else String c EmptyString
      | r => String c r
      end
  end.

(** [s.strip()] *)
Definition strip (s : string) : string := rstrip (lstrip s).

(** The longest prefix whose characters satisfy [p], and what follows it. *)
Fixpoint span (p : ascii -> bool) (s : string) : string * string :=
  match s with
  | String c s' =>
      if p c then let '(run, rest) := span p s' in (String c run, rest)
      else (EmptyString, s)
  | EmptyString => (EmptyString, EmptyString)
  end.

(** Every character satisfies [p]. *)
Fixpoint all (p : ascii -> bool) (s : string) : bool :=
  match s with
  | String c s' => p c && all p s'
  | EmptyString => true
  end.

(** [sep.join(parts)] *)
Fixpoint join (sep : string) (parts : list string) : string :=
  match parts with
  | [] => EmptyString
  | [p] => p
  | p :: rest => p +:+ sep +:+ join sep rest
  end.

Definition digit_char (n : Z) : ascii := ascii_of_N (48 + Z.to_N n).

(** The last [k] decimal digits of [n], most significant first. *)
Fixpoint digits (k : nat) (n : Z) : string :=
  match k with
  | O => EmptyString
  | S k' => digits k' (n / 10) +:+ String (digit_char (n mod 10)) EmptyString
  end.

Fixpoint nb_digits (fuel : nat) (n : Z) : nat :=
  match fuel with
  | O => 1%nat
  | S f => if n <? 10 then 1%nat else S (nb_digits f (n / 10))
  end.

(** [str(n)] for an integer. *)
Definition of_Z (n : Z) : string :=
  let a := Z.abs n in
  let body := digits (nb_digits (Z.to_nat (Z.log2 a)) a) a in
  if n <? 0 then String "-"%char body else body.

End Text.

(** ** SHA-256 ([hashlib.sha256]), on the bytes of an ASCII text *)

Module Sha256.

Definition w32 (x : Z) : Z := x mod 4294967296.
Definition add (x y : Z) : Z := w32 (x + y).
Definition rotr (n x : Z) : Z := w32 (Z.lor (Z.shiftr x n) (Z.shiftl x (32 - n))).
Definition shr (n x : Z) : Z := Z.shiftr x n.

Definition ch (x y z : Z) := Z.lxor (Z.land x y) (Z.land (w32 (Z.lnot x)) z).
Definition maj (x y z : Z) := Z.lxor (Z.lxor (Z.land x y) (Z.land x z)) (Z.land y z).
Definition bsig0 x := Z.lxor (Z.lxor (rotr 2 x) (rotr 13 x)) (rotr 22 x).
Definition bsig1 x := Z.lxor (Z.lxor (rotr 6 x) (rotr 11 x)) (rotr 25 x).
Definition ssig0 x := Z.lxor (Z.lxor (rotr 7 x) (rotr 18 x)) (shr 3 x).
Definition ssig1 x := Z.lxor (Z.lxor (rotr 17 x) (rotr 19 x)) (shr 10 x).

(** The first [n] primes, by trial division. *)
Definition is_prime (p : Z) : bool :=
forallb (fun d => negb (p mod Z.of_nat d =? 0)) (seq 2 (Z.to_nat p - 2)).

Definition primes (n : nat) : list Z :=
firstn n (List.filter is_prime (map Z.of_nat (seq 2 310))).

(** The integer cube root of [n], bit by bit from bit 34 down. *)
Definition cube_root (n : Z) : Z :=
fold_left (fun r b => let r' := r + 2 ^ Z.of_nat b in if r' * r' * r' <=? n then r' else r)
          (rev (seq 0 35)) 0.

(** The round constants: the first 32 bits of the fractional parts of the
    cube roots of the first 64 primes. *)
Definition K : list Z :=
Eval vm_compute in map (fun p => w32 (cube_root (p * 2 ^ 96))) (primes 64).

(** The initial hash value: the same of the square roots of the first 8
    primes. *)
Definition H0 : list Z :=
Eval vm_compute in map (fun p => w32 (Z.sqrt (p * 2 ^ 64))) (primes 8).

(** The message, the bit 1, zeros up to 56 modulo 64, the bit length on 8 bytes. *)
Definition pad (msg : list Z) : list Z :=
  let n := Z.of_nat (length msg) in
  let zeros := Z.to_nat ((55 - n) mod 64) in
  let bits := 8 * n in
  msg ++ [128] ++ repeat 0 zeros
      ++ map (fun i => (bits / 2 ^ (8 * (7 - Z.of_nat i))) mod 256) (seq 0 8).

Fixpoint words (fuel : nat) (bytes : list Z) : list Z :=
  match fuel, bytes with
  | S f, a :: b :: c :: d :: rest => (((a * 256 + b) * 256 + c) * 256 + d) :: words f rest
  | _, _ => []
  end.

(** The message schedule, latest word first. *)
Fixpoint schedule (n : nat) (w : list Z) : list Z :=
  match n with
  | O => w
  | S n' =>
      match w with
      | w1 :: w2 :: _ :: _ :: _ :: _ :: w7 :: _ :: _ :: _ :: _ :: _ :: _ :: _ :: w15 :: w16 :: _ =>
          schedule n' (add (add (ssig1 w2) w7) (add (ssig0 w15) w16) :: w)
      | _ => w
      end
  end.

Definition round (st : list Z) (kw : Z * Z) : list Z :=
  match st with
  | [a; b; c; d; e; f; g; h] =>
      let t1 := add (add (add h (bsig1 e)) (add (ch e f g) (fst kw))) (snd kw) in
      let t2 := add (bsig0 a) (maj a b c) in
      [add t1 t2; a; b; c; add d t1; e; f; g]
  | _ => st
  end.

Definition compress (h : list Z) (block : list Z) : list Z :=
  let w := rev (schedule 48 (rev block)) in
  let st := fold_left round (combine K w) h in
  map (fun p => add (fst p) (snd p)) (combine h st).

Fixpoint blocks (fuel : nat) (ws : list Z) : list (list Z) :=
  match fuel with
  | O => []
  | S f => match ws with [] => [] | _ => firstn 16 ws :: blocks f (skipn 16 ws) end
  end.

Definition hex_digit (n : Z) : ascii :=
  ascii_of_N (Z.to_N (if n <? 10 then 48 + n else 87 + n)).

Fixpoint hex (k : nat) (n : Z) (acc : string) : string :=
  match k with
  | O => acc
  | S k' => hex k' (n / 16) (String (hex_digit (n mod 16)) acc)
  end.

Definition hexdigest (msg : string) : string :=
  let bytes := map (fun c => Z.of_N (N_of_ascii c)) (list_ascii_of_string msg) in
  let padded := pad bytes in
  let ws := words (length padded) padded in
  let h := fold_left compress (blocks (length ws) ws) H0 in
  fold_right (fun w acc => hex 8 w acc) EmptyString h.

End Sha256.
(** ** Calendar dates and timestamps *)

(** A [datetime.date] is its proleptic Gregorian ordinal ([date.toordinal()]):
    subtraction and comparison of dates are those of [Z]. *)
Definition date := Z.

Module Calendar.

(** Year, month and day of an ordinal (day 1 is 0001-01-01). *)
Definition civil (d : date) : Z * Z * Z :=
  let z := d + 305 in
  let era := z / 146097 in
  let doe := z mod 146097 in
  let yoe := (doe - doe / 1460 + doe / 36524 - doe / 146096) / 365 in
  let doy := doe - (365 * yoe + yoe / 4 - yoe / 100) in
  let mp := (5 * doy + 2) / 153 in
  let day := doy - (153 * mp + 2) / 5 + 1 in
  let month := if mp <? 10 then mp + 3 else mp - 9 in
  let year := yoe + era * 400 + (if month <=? 2 then 1 else 0) in
  (year, month, day).

(** The inverse of [civil]. *)
Definition ordinal (y m d : Z) : date :=
  let y' := if m <=? 2 then y - 1 else y in
  let era := y' / 400 in
  let yoe := y' mod 400 in
  let mp := if m <=? 2 then m + 9 else m - 3 in
  let doy := (153 * mp + 2) / 5 + d - 1 in
  let doe := yoe * 365 + yoe / 4 - yoe / 100 + doy in
  era * 146097 + doe - 305.

(** [d.isoformat()], which is also [str(d)]: YYYY-MM-DD. *)
Definition isoformat (d : date) : string :=
  let '(y, m, dd) := civil d in
  Text.digits 4 y +:+ "-" +:+ Text.digits 2 m +:+ "-" +:+ Text.digits 2 dd.

End Calendar.

(** A naive [datetime.datetime]: the ordinal of its day and the microseconds
    elapsed since midnight, [0 <= dt_usec < usec_per_day]. *)
Record datetime := { dt_day : date; dt_usec : Z }.

Definition usec_per_day : Z := 86400000000.

(** [datetime.combine(d, datetime.min.time())] *)
Definition midnight (d : date) : datetime := {| dt_day := d; dt_usec := 0 |}.

(** [(a - b).days]: a [timedelta] is normalised so that its seconds and
    microseconds are not negative, hence the floor. *)
Definition delta_days (a b : datetime) : Z :=
  ((dt_day a - dt_day b) * usec_per_day + (dt_usec a - dt_usec b)) / usec_per_day.


(** ** Cells and data frames *)

(** A value held in a pandas cell. *)
Inductive cell :=
| NaN                        (* None, NaN, NaT: a missing value *)
| Str (s : string)           (* str *)
| Int (z : Z)                (* int, int64 *)
| Other (repr : string)      (* a float64 or bool scalar, by the text [to_csv] prints *)
| Date (d : date).           (* datetime.date *)

Global Instance cell_eq_dec : EqDecision cell.
Proof. solve_decision. Defined.

(** [a == b] on scalars: a missing value equals nothing, itself included, and
    values of different types differ. (Python has [3 == 3.0]; an [Int] is
    never compared with an [Other] here: the values compared come from one
    column of a frame, or are texts.) *)
Definition cell_eqb (a b : cell) : bool :=
  match a, b with
  | Str x, Str y => bool_decide (x = y)
  | Int x, Int y => bool_decide (x = y)
  | Other x, Other y => bool_decide (x = y)
  | Date x, Date y => bool_decide (x = y)
  | _, _ => false
  end.

(** [pd.isna] *)
Definition isna (c : cell) : bool :=
  match c with NaN => true | _ => false end.

(** What the program takes from its libraries and does not define itself. *)
Class Platform := {
  (** Type inference of [pd.read_csv] for one column, from its fields that are
      not missing-value markers and whether some field is one: [Some conv]
      when the column is read as numbers or booleans, [conv] giving the cell
      of a field; [None] when the column stays text. *)
  infer_dtype : list string -> bool -> option (string -> cell);
  (** [pd.to_datetime(column).dt.date]; [None] when it raises. *)
  to_datetime_date : list cell -> option (list cell);
  (** [datetime.fromisoformat]; [None] when it raises. *)
  fromisoformat : string -> option datetime;
  (** [round(x, 1)] of the float quotient [x]. *)
  round1 : Qc -> Qc
}.

(** A [pd.DataFrame] with the default integer index: column labels and rows,
    each row holding one cell per column. *)
Record DataFrame := { columns : list string; rows : list (list cell) }.

(** Every row has a cell for every column. *)
Definition well_formed (df : DataFrame) : Prop :=
  Forall (fun r => length r = length (columns df)) (rows df).

Module Frame.

(** Position of a label among the columns. *)
Fixpoint index_of (c : string) (cs : list string) : option nat :=
  match cs with
  | [] => None
  | c' :: cs' => if bool_decide (c = c') then Some 0%nat else S <$> index_of c cs'
  end.

(** [c in df.columns] *)
Definition has_column (df : DataFrame) (c : string) : bool :=
  bool_decide (is_Some (index_of c (columns df))).

(** The cell of a row under a label known to be at position [j]. *)
Definition at_pos (j : nat) (r : list cell) : cell := nth j r NaN.

(** [df[c]]: the column as a list, [None] for a [KeyError]. *)
Definition column (df : DataFrame) (c : string) : option (list cell) :=
  j ← index_of c (columns df); Some (map (at_pos j) (rows df)).

(** [df.empty]: no rows or no columns. *)
Definition empty (df : DataFrame) : bool :=
  match rows df, columns df with
  | [], _ | _, [] => true
  | _, _ => false
  end.

(** [pd.DataFrame(columns=cs)] *)
Definition of_columns (cs : list string) : DataFrame :=
  {| columns := cs; rows := [] |}.

(** [df[c] = None] for a label that is not a column: a new last column. *)
Definition add_column (df : DataFrame) (c : string) : DataFrame :=
  {| columns := columns df ++ [c]; rows := map (fun r => r ++ [NaN]) (rows df) |}.

(** [df[c] = values] for an existing column: the values are aligned on the
    index, a row without a value gets a missing one. *)
Definition assign (df : DataFrame) (c : string) (values : list cell) : DataFrame :=
  match index_of c (columns df) with
  | Some j =>
      {| columns := columns df;
         rows := imap (fun i r => <[j := nth i values NaN]> r) (rows df) |}
  | None => df
  end.

(** [df[cs]]: the listed columns in the listed order, [None] for a
    [KeyError]. *)
Definition select (df : DataFrame) (cs : list string) : option DataFrame :=
  js ← mapM (fun c => index_of c (columns df)) cs;
  Some {| columns := cs; rows := map (fun r => map (fun j => at_pos j r) js) (rows df) |}.

(** The rows a boolean mask selects. *)
Fixpoint keep (mask : list bool) (rs : list (list cell)) : list (list cell) :=
  match mask, rs with
  | b :: mask', r :: rs' => if b then r :: keep mask' rs' else keep mask' rs'
  | _, _ => []
  end.

(** [df[mask]] for a boolean series on the index of [df]. *)
Definition boolean_index (df : DataFrame) (mask : list bool) : DataFrame :=
  {| columns := columns df; rows := keep mask (rows df) |}.

(** [series.index[0]] after [df[mask]]: the first label the mask selects,
    [None] for an [IndexError]. *)
Fixpoint first_true (mask : list bool) : option nat :=
  match mask with
  | [] => None
  | b :: mask' => if b then Some 0%nat else S <$> first_true mask'
  end.

(** [df.loc[i, c] = v] for an existing row label [i]; a label that is not
    a column is added as one (setting with enlargement). *)
Definition loc_set (df : DataFrame) (i : nat) (c : string) (v : cell) : DataFrame :=
  let df := if has_column df c then df else add_column df c in
  match index_of c (columns df) with
  | Some j =>
      {| columns := columns df; rows := alter (fun r => <[j := v]> r) i (rows df) |}
  | None => df
  end.

(** [pd.concat([df, pd.DataFrame([row], columns=df.columns)],
    ignore_index=True)]: one row appended under the same columns. *)
Definition append_row (df : DataFrame) (r : list cell) : DataFrame :=
  {| columns := columns df; rows := rows df ++ [r] |}.

End Frame.

(** ** CSV files and the file system *)

(** The text table of a CSV file: the header line and the data lines. *)
Record csv_file := { header : list string; lines : list (list string) }.

(** [os.path.exists] is [is_Some (fs !! name)]. *)
Abbreviation file_system := (gmap string csv_file).

Module Csv.

(** The fields [pd.read_csv] reads as missing by default
    ([keep_default_na=True], no [na_values]). *)
Definition NA_VALUES : list string :=
  [ ""; "#N/A"; "#N/A N/A"; "#NA"; "-1.#IND"; "-1.#QNAN"; "-NaN"; "-nan";
    "1.#IND"; "1.#QNAN"; "<NA>"; "N/A"; "NA"; "NULL"; "NaN"; "None"; "n/a";
    "nan"; "null" ].

Definition is_na (field : string) : bool := bool_decide (field ∈ NA_VALUES).

(** What [df.to_csv(path, index=False)] prints for a cell ([na_rep] is the
    empty text). *)
Definition to_csv_cell (c : cell) : string :=
  match c with
  | NaN => ""
  | Str s => s
  | Int z => Text.of_Z z
  | Other repr => repr
  | Date d => Calendar.isoformat d
  end.

(** [df.to_csv(path, index=False)] *)
Definition to_csv (df : DataFrame) : csv_file :=
  {| header := columns df; lines := map (map to_csv_cell) (rows df) |}.

Section Read.
Context `{Platform}.

(** The cell read from a field, given all the fields of its column. *)
Definition column_conv (fields : list string) : string -> cell :=
  let present := List.filter (fun f => negb (is_na f)) fields in
  let conv := default Str (infer_dtype present (existsb is_na fields)) in
  fun f => if is_na f then NaN else conv f.

Definition field_at (j : nat) (line : list string) : string := nth j line "".

(** [pd.read_csv(path)] *)
Definition read_csv (f : csv_file) : DataFrame :=
  let conv j := column_conv (map (field_at j) (lines f)) in
  {| columns := header f;
     rows := map (fun line => map (fun j => conv j (field_at j line))
                                  (seq 0 (length (header f))))
                 (lines f) |}.
End Read.

End Csv.

(** ** Credential store ([edunet_auth.py]) *)

Section Auth.
Context `{Platform}.

Definition USER_DB : string := "users.csv".

(** [hashlib.sha256(password.encode("utf-8")).hexdigest()] *)
Definition hash_password (password : string) : string :=
  Sha256.hexdigest password.

Definition load_users (fs : file_system) : option DataFrame :=
  match fs !! USER_DB with
  | Some f =>
      let df := Csv.read_csv f in
      if negb (Frame.has_column df "email") || negb (Frame.has_column df "password")
      then Some (Frame.of_columns ["email"; "password"])
      else Frame.select df ["email"; "password"]
  | None => Some (Frame.of_columns ["email"; "password"])
  end.

Definition save_users (fs : file_system) (df : DataFrame) : file_system :=
  <[USER_DB := Csv.to_csv df]> fs.

(** [email.strip().lower()] *)
Definition normalize_email (email : string) : string :=
  Text.lower (Text.strip email).

(** The result [(success, message)] and the file system afterwards. *)
Definition register_user (fs : file_system) (email password : string)
  : option ((bool * string) * file_system) :=
  users ← load_users fs;
  let email := normalize_email email in
  emails ← Frame.column users "email";
  if existsb (fun c => cell_eqb c (Str email)) emails
  then Some ((false, "User already exists."), fs)
  else
    let hashed := hash_password password in
    let users := Frame.append_row users [Str email; Str hashed] in
    Some ((true, "Registered successfully."), save_users fs users).

Definition login_user (fs : file_system) (email password : string) : option bool :=
  users ← load_users fs;
  let email := normalize_email email in
  let hashed := hash_password password in
  emails ← Frame.column users "email";
  passwords ← Frame.column users "password";
  let mask := zip_with (fun e p => cell_eqb e (Str email) && cell_eqb p (Str hashed))
                       emails passwords in
  let matched := Frame.boolean_index users mask in
  Some (negb (Frame.empty matched)).

End Auth.

(** ** Task store ([edunet_study_planner.py]) *)

Definition STOPWORDS : list string :=
  [ "the"; "is"; "in"; "at"; "to"; "and"; "a"; "of"; "on"; "for"; "with"; "that";
    "this"; "as"; "it"; "by"; "from"; "an"; "be"; "are"; "or"; "was" ].

(** The columns of a task file, [cols] in [load_tasks_for_user]. *)
Definition cols : list string :=
  [ "Task Name"; "Course"; "Due Date"; "Effort"; "Type"; "User Priority";
    "AI Priority"; "Status"; "Keywords"; "Days Until Due"; "Actual_AI_Priority";
    "Actual_Effort_Rating"; "Completed Date" ].

(** [re.sub(r"[^0-9A-Za-z\-_.]", "_", email.lower())] *)
Definition sanitize_char (c : ascii) : ascii :=
  if Text.is_digit c || Text.is_upper c || Text.is_lower c
     || bool_decide (c ∈ ["-"; "_"; "."]%char)
  then c else "_"%char.

Fixpoint sanitize (s : string) : string :=
  match s with
  | EmptyString => EmptyString
  | String c s' => String (sanitize_char c) (sanitize s')
  end.

Definition sanitize_email_for_filename (email : string) : string :=
  sanitize (Text.lower email).

Definition get_tasks_filename_for_user (email : string) : string :=
  "tasks_" +:+ sanitize_email_for_filename email +:+ ".csv".

Section Tasks.
Context `{Platform}.

(** One pass of the loop "Ensure columns exist". *)
Definition ensure_column (df : DataFrame) (c : string) : DataFrame :=
  if Frame.has_column df c then df else Frame.add_column df c.

(** One of the two blocks "Normalize date columns": the assignment, or the
    frame as it was when the conversion raises. *)
Definition normalize_date_column (df : DataFrame) (c : string) : DataFrame :=
  if Frame.has_column df c then
    match Frame.column df c ≫= to_datetime_date with
    | Some values => Frame.assign df c values
    | None => df
    end
  else df.

Definition load_tasks_for_user (fs : file_system) (email : string) : option DataFrame :=
  let filename := get_tasks_filename_for_user email in
  match fs !! filename with
  | Some f =>
      let df := Csv.read_csv f in
      let df := foldl ensure_column df cols in
      let df := normalize_date_column df "Due Date" in
      let df := normalize_date_column df "Completed Date" in
      Frame.select df cols
  | None => Some (Frame.of_columns cols)
  end.

Definition save_tasks_for_user (fs : file_system) (email : string) (df : DataFrame)
  : file_system :=
  <[get_tasks_filename_for_user email := Csv.to_csv df]> fs.

(** *** The action center *)

(** What a press on a button of the action center leads to. *)
Inductive action :=
| Info (message : string)            (* [st.info]: the form is not shown *)
| NotOffered                         (* the select box does not offer the choice *)
| Saved (df : DataFrame) (fs : file_system).

(** [series == value] and [series != value] *)
Definition eq_mask (values : list cell) (v : cell) : list bool :=
  map (fun c => cell_eqb c v) values.
Definition ne_mask (values : list cell) (v : cell) : list bool :=
  map (fun c => negb (cell_eqb c v)) values.

(** "Mark Task as Complete": [choice] is what the select box returns, one of
    the names it was given; the form is submitted on [today]. *)
Definition complete_form (fs : file_system) (user_email : string)
    (df_tasks : DataFrame) (choice : cell)
    (actual_priority actual_effort : string) (today : date) : option action :=
  pending ← (if negb (Frame.empty df_tasks)
             then status ← Frame.column df_tasks "Status";
                  Some (Frame.boolean_index df_tasks (eq_mask status (Str "Pending")))
             else Some {| columns := []; rows := [] |});
  if negb (Frame.empty pending) then
    options ← Frame.column pending "Task Name";
    if bool_decide (choice ∈ options) then
      names ← Frame.column df_tasks "Task Name";
      idx ← Frame.first_true (eq_mask names choice);
      let df := Frame.loc_set df_tasks idx "Status" (Str "Completed") in
      let df := Frame.loc_set df idx "Actual_AI_Priority" (Str actual_priority) in
      let df := Frame.loc_set df idx "Actual_Effort_Rating" (Str actual_effort) in
      let df := Frame.loc_set df idx "Completed Date" (Date today) in
      Some (Saved df (save_tasks_for_user fs user_email df))
    else Some NotOffered
  else Some (Info "No pending tasks to complete.").

(** "Delete Task": [delete_choice] is what the select box returns. *)
Definition delete_task (fs : file_system) (user_email : string)
    (df_tasks : DataFrame) (delete_choice : cell) : option action :=
  if negb (Frame.empty df_tasks) then
    options ← Frame.column df_tasks "Task Name";
    if bool_decide (delete_choice ∈ options) then
      names ← Frame.column df_tasks "Task Name";
      let df := Frame.boolean_index df_tasks (ne_mask names delete_choice) in
      Some (Saved df (save_tasks_for_user fs user_email df))
    else Some NotOffered
  else Some (Info "No tasks to delete.").

End Tasks.

(** ** Derived fields *)

(** *** [re.findall(r'\b[a-z]{2,}\b', text)] *)

Module Regex.

Definition word_at (c : option ascii) : bool :=
  match c with Some c => Text.is_word c | None => false end.

(** [\b] between two neighbouring positions; [None] is an end of the text. *)
Definition boundary (before after : option ascii) : bool :=
  xorb (word_at before) (word_at after).

Definition head (s : string) : option ascii :=
  match s with String c _ => Some c | EmptyString => None end.

(** The longest prefix that [[a-z]*] matches, and what follows it. *)
Definition span_lower (s : string) : string * string := Text.span Text.is_lower s.

(** The last character of [run], or [before] when it is empty. *)
Fixpoint last_char (before : option ascii) (run : string) : option ascii :=
  match run with
  | EmptyString => before
  | String c run' => last_char (Some c) run'
  end.

(** Split [run] after [k] characters. *)
Fixpoint split_at (k : nat) (run : string) : string * string :=
  match k, run with
  | S k', String c run' => let '(a, b) := split_at k' run' in (String c a, b)
  | _, _ => (EmptyString, run)
  end.

(** The greedy quantifier gives characters back one at a time: the first
    length [k], from [k] down to two, at whose end [\b] holds. *)
Fixpoint backtrack (k : nat) (run rest : string) : option (string * string) :=
  match k with
  | S (S _ as k') =>
      let '(tok, given_back) := split_at k run in
      let after := given_back +:+ rest in
      if boundary (last_char None tok) (head after)
      then Some (tok, after)
      else backtrack k' run rest
  | _ => None
  end.

(** One attempt to match the pattern where the text [s] starts, the
    character before it being [before]: the match and the text after it. *)
Definition match_here (before : option ascii) (s : string) : option (string * string) :=
  if boundary before (head s) then
    let '(run, rest) := span_lower s in
    backtrack (String.length run) run rest
  else None.

(** The scan of [findall]: after a match it goes on where the match ended,
    after a failure one character further. *)
Fixpoint scan (fuel : nat) (before : option ascii) (s : string) : list string :=
  match fuel with
  | O => []
  | S fuel' =>
      match match_here before s with
      | Some (tok, after) => tok :: scan fuel' (last_char before tok) after
      | None =>
          match s with
          | String c s' => scan fuel' (Some c) s'
          | EmptyString => []
          end
      end
  end.

Definition findall (text : string) : list string :=
  scan (S (String.length text)) None text.

End Regex.

(** [w.isalnum()] on ASCII text *)
Definition isalnum (w : string) : bool :=
  match w with
  | EmptyString => false
  | _ => Text.all (fun c => Text.is_lower c || Text.is_upper c || Text.is_digit c) w
  end.

(** [isinstance(text, str)] fails for every cell that is not a [Str]. *)
Definition extract_keywords_simple (text : cell) : string :=
  match text with
  | Str text =>
      let text := Text.lower text in
      let words := Regex.findall text in
      let filtered :=
        List.filter (fun w => isalnum w && negb (bool_decide (w ∈ STOPWORDS))) words in
      Text.join ", " filtered
  | _ => ""
  end.

(** *** Days until due *)

(** What [calculate_days_until_due] is called with: a cell of the "Due Date"
    column, or a [datetime] ([pd.Timestamp] included). *)
Inductive due_value :=
| DueCell (c : cell)
| DueDatetime (dt : datetime).

Section Derived.
Context `{Platform}.

(** The outer [None] is an exception, the inner one the result [None];
    [now] is [datetime.now()]. A number is neither missing, nor a string,
    nor a date: the subtraction raises [TypeError]. *)
Definition calculate_days_until_due (now : datetime) (due_date : due_value)
  : option (option Z) :=
  match due_date with
  | DueCell NaN => Some None
  | DueCell (Str s) =>
      match fromisoformat s with
      | Some dt => Some (Some (Z.max 0 (delta_days dt now)))
      | None => Some None
      end
  | DueCell (Date d) => Some (Some (Z.max 0 (delta_days (midnight d) now)))
  | DueDatetime dt => Some (Some (Z.max 0 (delta_days dt now)))
  | DueCell (Int _) | DueCell (Other _) => None
  end.

(** *** Study time *)

Definition effort_map : list (string * Qc) :=
  [ ("Low", Q2Qc 1); ("Medium", Q2Qc (5 # 2)); ("High", Q2Qc 5) ].

(** [d.get(key)] for a dictionary with text keys. *)
Fixpoint dict_get {V} (d : list (string * V)) (key : string) : option V :=
  match d with
  | [] => None
  | (k, v) :: d' => if bool_decide (key = k) then Some v else dict_get d' key
  end.

(** [series.map(d)]: a value that is not a key maps to [NaN]. *)
Definition map_dict (d : list (string * Qc)) (values : list cell) : list (option Qc) :=
  map (fun c => match c with Str s => dict_get d s | _ => None end) values.

(** [series.sum()], which skips the missing values. *)
Definition sum_skipna (values : list (option Qc)) : Qc :=
  foldr (fun v acc => match v with Some q => (q + acc)%Qc | None => acc end)
        (Q2Qc 0) values.

(** [a < b]; [None] is a [TypeError]. The order of two floats is that of
    their texts here: it is only used to pick a number, which nothing can
    be done with afterwards. *)
Definition py_lt (a b : cell) : option bool :=
  match a, b with
  | Date x, Date y => Some (x <? y)
  | Int x, Int y => Some (x <? y)
  | Str x, Str y => Some (String.ltb x y)
  | Other x, Other y => Some (String.ltb x y)
  | Int x, Other y => Some (String.ltb (Text.of_Z x) y)
  | Other x, Int y => Some (String.ltb x (Text.of_Z y))
  | _, _ => None
  end.

(** [min(values)]: [ValueError] on an empty list, [TypeError] on values
    that do not compare. *)
Definition py_min (values : list cell) : option cell :=
  match values with
  | [] => None
  | v :: rest =>
      foldl (fun best item =>
               b ← best; lt ← py_lt item b; Some (if lt : bool then item else b))
            (Some v) rest
  end.

(** [(a - b).days] for a cell [a] and a date [b]; only a date can be
    subtracted from. *)
Definition days_between (a : cell) (b : date) : option Z :=
  match a with Date d => Some (d - b) | _ => None end.

(** The [try] block: [None] when it raises. *)
Definition days_to_nearest (pending : DataFrame) (today : date) : option Z :=
  dues ← Frame.column pending "Due Date";
  nearest_due ← py_min (List.filter (fun d => negb (isna d)) dues);
  days ← days_between nearest_due today;
  Some (Z.max 1 days).

(** [today] is [date.today()]. The outer [None] is an exception, the inner
    one the result [None]; the argument is a frame, never [None]. *)
Definition study_time_suggestions (df : DataFrame) (today : date)
  : option (option Qc) :=
  if Frame.empty df then Some None
  else
    status ← Frame.column df "Status";
    let pending := Frame.boolean_index df (eq_mask status (Str "Pending")) in
    if Frame.empty pending then Some (Some (Q2Qc 0))
    else
      efforts ← Frame.column pending "Effort";
      let total_hours := sum_skipna (map_dict effort_map efforts) in
      let days_remaining := default 7 (days_to_nearest pending today) in
      Some (Some (round1 (total_hours / Q2Qc (inject_Z days_remaining))%Qc)).

End Derived.

(** ** The pages ([edunet_study_planner.py]) *)

Definition PROCRASTINATION_KEYWORDS : list string :=
  [ "start"; "research"; "plan"; "think about"; "figure out"; "conceptualize" ].

Definition ALL_EFFORTS : list string := [ "Low"; "Medium"; "High" ].
Definition ALL_TYPES : list string :=
  [ "Reading"; "Assignment"; "Revision"; "Project"; "Other" ].
Definition ALL_USER_PRIORITIES : list string := [ "Low"; "Medium"; "High" ].

(** [str(s).strip().lower()], for a text [s] *)
Definition hashable_lower (s : string) : string := Text.lower (Text.strip s).

(** *** [re.search(r'\b' + re.escape(kw) + r'\b', s)] *)

Module Search.

(** What follows [kw] in [s], when [s] starts with [kw]. *)
Fixpoint after_prefix (kw s : string) : option string :=
  match kw, s with
  | EmptyString, _ => Some s
  | String a kw', String b s' =>
      if bool_decide (a = b) then after_prefix kw' s' else None
  | String _ _, EmptyString => None
  end.

(** One attempt where the text [s] starts, the character before it being
    [before]: [\b], the characters of [kw] as they are (what [re.escape]
    makes of them), [\b]. *)
Definition match_here (before : option ascii) (kw s : string) : bool :=
  Regex.boundary before (Regex.head s)
  && match after_prefix kw s with
     | Some rest => Regex.boundary (Regex.last_char before kw) (Regex.head rest)
     | None => false
     end.

(** The attempts of [re.search], from the left; the last one is made at the
    end of the text. *)
Fixpoint search (before : option ascii) (kw s : string) : bool :=
  match_here before kw s
  || match s with
     | String c s' => search (Some c) kw s'
     | EmptyString => false
     end.

End Search.

Definition check_for_procrastination (task_name : cell) : bool :=
  match task_name with
  | Str task_name =>
      let s := Text.lower task_name in
      existsb (fun kw => Search.search None kw s) PROCRASTINATION_KEYWORDS
  | _ => false
  end.

(** *** The form "Add New Study Task" *)

(** [pd.concat([df, pd.DataFrame([record])], ignore_index=True)]: the
    labels of [df], then those of the record that [df] lacks; a cell that
    a row has no value for is missing. (Cells are joined as they are. Where
    pandas widens a column of integers that a missing value or a float
    joins, the numbers are the same and their texts are not; the frames of
    [task_frame] below are out of that case.) *)
Definition concat_record (df : DataFrame) (record : list (string * cell)) : DataFrame :=
  let added := List.filter (fun c => negb (Frame.has_column df c)) (map fst record) in
  let labels := columns df ++ added in
  {| columns := labels;
     rows := map (fun r => r ++ replicate (length added) NaN) (rows df)
             ++ [map (fun c => default NaN (dict_get record c)) labels] |}.

(** What a press on "Add Task" leads to. *)
Inductive submission :=
| Added (df : DataFrame) (fs : file_system)
| Refused (message : string).            (* [st.error] *)

Section Pages.
Context `{Platform}.

(** The body of [if add_submitted:]. The fields are what the widgets
    return: texts, a [datetime.date] (never [None], and true as every date
    is), and one of the options of each select box; [now] is
    [datetime.now()]. *)
Definition add_task (fs : file_system) (user_email : string) (df_tasks : DataFrame)
    (task_name course : string) (due_date : date)
    (effort task_type user_priority : string) (now : datetime) : option submission :=
  if negb (bool_decide (task_name = "")) && negb (bool_decide (course = "")) then
    days_until ← calculate_days_until_due now (DueCell (Date due_date));
    let keywords := extract_keywords_simple (Str task_name) in
    let new_task :=
      [ ("Task Name", Str task_name);
        ("Course", Str course);
        ("Due Date", Date due_date);
        ("Effort", Str effort);
        ("Type", Str task_type);
        ("User Priority", Str user_priority);
        ("AI Priority", Str user_priority);
        ("Status", Str "Pending");
        ("Keywords", Str keywords);
        ("Days Until Due", from_option Int NaN days_until);
        ("Actual_AI_Priority", NaN);
        ("Actual_Effort_Rating", NaN);
        ("Completed Date", NaN) ] in
    let df_tasks := concat_record df_tasks new_task in
    Some (Added df_tasks (save_tasks_for_user fs user_email df_tasks))
  else Some (Refused "Please fill in all task details.").

(** *** The mail and the metrics *)

(** The frame handed to [send_task_email]: the labels of the listing that
    the frame has. *)
Definition df_for_email (df_tasks : DataFrame) : option DataFrame :=
  let shown :=
    List.filter (Frame.has_column df_tasks)
      [ "Task Name"; "Course"; "Due Date"; "Effort"; "Type"; "User Priority";
        "AI Priority"; "Status" ] in
  if negb (Frame.empty df_tasks) then Frame.select df_tasks shown
  else Some {| columns := []; rows := [] |}.

(** [int((df_tasks['Status'] == status).sum()) if not df_tasks.empty else 0] *)
Definition count_status (df_tasks : DataFrame) (status : string) : option nat :=
  if negb (Frame.empty df_tasks) then
    values ← Frame.column df_tasks "Status";
    Some (length (List.filter id (eq_mask values (Str status))))
  else Some 0%nat.

(** The metrics "Total Tasks", "Pending" and "Completed". *)
Definition metrics (df_tasks : DataFrame) : option (nat * nat * nat) :=
  let total := length (rows df_tasks) in
  pending ← count_status df_tasks "Pending";
  completed ← count_status df_tasks "Completed";
  Some (total, pending, completed).

End Pages.

(** ** A reference platform

    The library functions of [Platform] on the inputs this development
    evaluates them on: integer and boolean columns for the type inference
    (a column of decimal fractions is left as text), ISO dates for the two
    parsers, and binary64 arithmetic in its normal range for the rounding of
    [numpy.float64], which is what the sum of a series is. *)

Module Reference.

Definition digit_val (c : ascii) : option Z :=
  if Text.is_digit c then Some (Z.of_N (Text.code c) - 48) else None.

Fixpoint parse_digits (acc : Z) (s : string) : option Z :=
  match s with
  | EmptyString => Some acc
  | String c s' => d ← digit_val c; parse_digits (10 * acc + d) s'
  end.

(** A non-empty run of decimal digits. *)
Definition parse_nat (s : string) : option Z :=
  match s with EmptyString => None | _ => parse_digits 0 s end.

(** An integer literal that fits [int64]. *)
Definition parse_int64 (s : string) : option Z :=
  z ← match s with
      | String "-" s' => Z.opp <$> parse_nat s'
      | String "+" s' => parse_nat s'
      | _ => parse_nat s
      end;
  if (- 2 ^ 63 <=? z) && (z <? 2 ^ 63) then Some z else None.

Definition parse_bool (s : string) : option bool :=
  if bool_decide (s ∈ ["True"; "TRUE"; "true"]) then Some true
  else if bool_decide (s ∈ ["False"; "FALSE"; "false"]) then Some false
  else None.

(** [int64] when every field is an integer literal, [float64] when some
    field is missing besides; [bool] when every field is a boolean and none
    is missing (a boolean column with missing fields holds objects, which
    print the same). *)
Definition infer (present : list string) (has_missing : bool)
  : option (string -> cell) :=
  match present with
  | [] => None
  | _ =>
      if forallb (fun f => bool_decide (is_Some (parse_int64 f))) present then
        Some (fun f =>
                match parse_int64 f with
                | Some z => if has_missing then Other (Text.of_Z z +:+ ".0") else Int z
                | None => Str f
                end)
      else if forallb (fun f => bool_decide (is_Some (parse_bool f))) present then
        Some (fun f =>
                match parse_bool f with
                | Some b => Other (if b then "True" else "False")
                | None => Str f
                end)
      else None
  end.

(** "YYYY-MM-DD" for a date of the calendar. *)
Definition parse_iso_date (s : string) : option date :=
  match s with
  | String y1 (String y2 (String y3 (String y4 (String "-"
      (String m1 (String m2 (String "-" (String d1 (String d2 EmptyString))))))))) =>
      y ← parse_nat (String y1 (String y2 (String y3 (String y4 EmptyString))));
      m ← parse_nat (String m1 (String m2 EmptyString));
      d ← parse_nat (String d1 (String d2 EmptyString));
      let o := Calendar.ordinal y m d in
      if bool_decide (Calendar.civil o = (y, m, d)) && (1 <=? y) then Some o else None
  | _ => None
  end.

Definition ns_per_day : Z := 86400000000000.

(** A missing value stays missing, an ISO date is parsed, an integer counts
    nanoseconds from 1970-01-01; anything else raises here. *)
Definition to_date (c : cell) : option cell :=
  match c with
  | NaN => Some NaN
  | Date d => Some (Date d)
  | Str s => Date <$> parse_iso_date s
  | Int n => Some (Date (719163 + n / ns_per_day))
  | Other _ => None
  end.

Definition to_dates (column : list cell) : option (list cell) :=
  mapM to_date column.

Definition date_fromisoformat (s : string) : option datetime :=
  midnight <$> parse_iso_date s.

(** The integer nearest to [a / b], ties to even, for [0 < b]. *)
Definition round_half_even (a b : Z) : Z :=
  let q := a / b in
  let r := a mod b in
  match 2 * r ?= b with
  | Lt => q
  | Gt => q + 1
  | Eq => if Z.even q then q else q + 1
  end.

(** The binary64 number nearest to [n / d], as the fraction [m * 2 ^ e],
    for [0 < n] and [0 < d]. *)
Definition binary64 (n d : Z) : Z * Z :=
  let l := Z.log2 n - Z.log2 d in
  let l := if (if 0 <=? l then d * 2 ^ l <=? n else d <=? n * 2 ^ (- l))
           then l else l - 1 in
  let e := l - 52 in
  let m := if 0 <=? e then round_half_even n (d * 2 ^ e)
           else round_half_even (n * 2 ^ (- e)) d in
  (m, e).

(** The fraction of a binary64 number [m * 2 ^ e]. *)
Definition fraction (x : Z * Z) : Z * Z :=
let '(m, e) := x in if 0 <=? e then (m * 2 ^ e, 1) else (m, 2 ^ (- e)).

(** [round(x, 1)] for the [numpy.float64] quotient [x] nearest to [n / d]:
    the tenths in [rint(x * 10) / 10], the product being rounded to binary64
    before [rint] takes the nearest integer, ties to even. *)
Definition round1_pos (n d : Z) : Z :=
let '(xn, xd) := fraction (binary64 n d) in
let '(yn, yd) := fraction (binary64 (10 * xn) xd) in
round_half_even yn yd.

Definition round_tenth (q : Qc) : Qc :=
let n := Qnum q in
let d := Z.pos (Qden q) in
let tenths := match n ?= 0 with
              | Eq => 0
              | Gt => round1_pos n d
              | Lt => - round1_pos (- n) d
              end in
Q2Qc (tenths # 10).

#[export] Instance platform : Platform :=
  {| infer_dtype := infer;
     to_datetime_date := to_dates;
     fromisoformat := date_fromisoformat;
     round1 := round_tenth |}.

End Reference.


(** ** Vocabulary of the properties *)

(** The credential frame: the two columns, a cell for each in every row. *)
Definition credentials (users : DataFrame) : Prop :=
  columns users = ["email"; "password"]
  /\ Forall (fun r => length r = 2%nat) (rows users).

(** No credentials yet. *)
Definition no_users : DataFrame := Frame.of_columns ["email"; "password"].

Section Stability.
Context `{Platform}.

(** The frame that [register_user] writes for a new user. *)
Definition with_credential (users : DataFrame) (email password : string) : DataFrame :=
  Frame.append_row users [Str (normalize_email email); Str (hash_password password)].

End Stability.

(** The file [users.csv] after a first registration. *)
Definition ada_registered : file_system :=
  save_users ∅ (with_credential no_users " Ada@Example.org" "password").

(** The file [users.csv] after the empty email was registered. *)
Definition blank_user_file : file_system :=
  save_users ∅ (with_credential no_users "" "secret").

(** The cell of row [i] under the label [c], when both exist. *)
Definition cell_at (df : DataFrame) (i : nat) (c : string) : option cell :=
  r ← rows df !! i; j ← Frame.index_of c (columns df); r !! j.

(** The labels [complete_form] writes under. *)
Definition completion_fields : list string :=
  [ "Status"; "Actual_AI_Priority"; "Actual_Effort_Rating"; "Completed Date" ].

(** The four assignments of [complete_form] on the row of label [idx]. *)
Definition stamp_completed (df : DataFrame) (idx : nat)
    (actual_priority actual_effort : string) (today : date) : DataFrame :=
  let df := Frame.loc_set df idx "Status" (Str "Completed") in
  let df := Frame.loc_set df idx "Actual_AI_Priority" (Str actual_priority) in
  let df := Frame.loc_set df idx "Actual_Effort_Rating" (Str actual_effort) in
  Frame.loc_set df idx "Completed Date" (Date today).

(** The cell of a task row under "Task Name" and under "Status". *)
Definition task_name (r : list cell) : cell := Frame.at_pos 0 r.
Definition task_status (r : list cell) : cell := Frame.at_pos 7 r.

(** The rows whose status is "Pending". *)
Definition pending_rows (df : DataFrame) : list (list cell) :=
  List.filter (fun r => cell_eqb (task_status r) (Str "Pending")) (rows df).

(** ** Sample data *)

Definition ada : string := "ada@example.org".

(** A task that was completed on 2025-03-02. *)
Definition notes_done : list cell :=
  [ Str "Read notes"; Str "Math"; Date (Calendar.ordinal 2025 3 3); Str "Low";
    Str "Reading"; Str "Low"; Str "Low"; Str "Completed"; Str "read, notes"; Int 0;
    Str "Low"; Str "Shorter"; Date (Calendar.ordinal 2025 3 2) ].

(** A later task of the same name, still pending. *)
Definition notes_pending : list cell :=
  [ Str "Read notes"; Str "Physics"; Date (Calendar.ordinal 2025 3 20); Str "High";
    Str "Reading"; Str "High"; Str "High"; Str "Pending"; Str "read, notes"; Int 9;
    NaN; NaN; NaN ].

Definition essay_pending : list cell :=
  [ Str "Write essay"; Str "History"; Date (Calendar.ordinal 2025 3 13); Str "Medium";
    Str "Project"; Str "Medium"; Str "Medium"; Str "Pending"; Str "write, essay"; Int 2;
    NaN; NaN; NaN ].

Definition study_plan : DataFrame :=
  {| columns := cols; rows := [notes_done; essay_pending; notes_pending] |}.

(** 2025-03-10 *)
Definition a_monday : date := Calendar.ordinal 2025 3 10.

(** Noon of a day. *)
Definition noon (d : date) : datetime := {| dt_day := d; dt_usec := usec_per_day / 2 |}.

(** ** The suggestion of section 4.4, in the words of the specification *)

(** Low = 1.0, Medium = 2.5, High = 5.0; any other effort counts for nothing. *)
Definition effort_hours (r : list cell) : Qc :=
  match Frame.at_pos 3 r with
  | Str effort =>
      if bool_decide (effort = "Low") then Q2Qc 1
      else if bool_decide (effort = "Medium") then Q2Qc (5 # 2)
      else if bool_decide (effort = "High") then Q2Qc 5
      else Q2Qc 0
  | _ => Q2Qc 0
  end.

(** The sum of the hours of the pending tasks. *)
Definition pending_hours (df : DataFrame) : Qc :=
  foldr (fun r acc => (effort_hours r + acc)%Qc) (Q2Qc 0) (pending_rows df).

Definition as_date (c : cell) : option date :=
  match c with Date d => Some d | _ => None end.

(** The earliest due date of the pending tasks, the missing ones left out:
    there is none when no pending task has a due date, or when one of the
    due dates is not a date (it could not be parsed). *)
Definition nearest_pending_due (df : DataFrame) : option date :=
  let dues := List.filter (fun c => negb (isna c)) (map (Frame.at_pos 2) (pending_rows df)) in
  ds ← mapM as_date dues;
  match ds with
  | [] => None
  | d :: ds' => Some (foldr Z.min d ds')
  end.

(** One step of [min], and a state of it that no number of days comes from. *)
Definition min_step (best : option cell) (item : cell) : option cell :=
  b ← best; lt ← py_lt item b; Some (if lt : bool then item else b).

Definition dateless (best : option cell) : Prop :=
  best ≫= as_date = None.

(** The divisor: the days to the nearest pending due date, one at least,
    and seven when no pending due date can be used. *)
Definition days_remaining (df : DataFrame) (today : date) : Z :=
  match nearest_pending_due df with
  | Some d => Z.max 1 (d - today)
  | None => 7
  end.

(** The hours a day, before they are rounded. *)
Definition daily_hours (df : DataFrame) (today : date) : Qc :=
  (pending_hours df / Q2Qc (inject_Z (days_remaining df today)))%Qc.

(** [r] is [x] rounded to one decimal: a whole number of tenths, half a
    tenth away from [x] at most, up to the precision of a float (one part in
    2^50 of [x]). *)
Definition one_decimal (x r : Qc) : Prop :=
  exists t : Z,
    r = Q2Qc (t # 10)
    /\ (Qabs ((t # 10) - x) <= (1 # 20) + x * (1 # 2 ^ 50))%Q.

(** What is asked of the suggestion: nothing for no task, zero for no
    pending task, and otherwise the hours a day rounded to one decimal. *)
Definition suggested (df : DataFrame) (today : date) (result : option Qc) : Prop :=
  match rows df with
  | [] => result = None
  | _ =>
      match pending_rows df with
      | [] => result = Some (Q2Qc 0)
      | _ => exists r, result = Some r /\ one_decimal (daily_hours df today) r
      end
  end.

(** ** Keywords, in the words of the specification *)

Module Words.

(** The maximal runs of characters that satisfy [p], in their order; [cur]
    is the run under way. *)
Fixpoint runs_go (p : ascii -> bool) (cur : option string) (s : string) : list string :=
  match s with
  | EmptyString => option_list cur
  | String c s' =>
      if p c
      then runs_go p (Some (default EmptyString cur +:+ String c EmptyString)) s'
      else option_list cur ++ runs_go p None s'
  end.

Definition runs (p : ascii -> bool) (s : string) : list string := runs_go p None s.

Definition is_alpha (c : ascii) : bool := Text.is_lower c || Text.is_upper c.

Definition stop_word (w : string) : bool := bool_decide (w ∈ STOPWORDS).

(** Two or more letters, and nothing else. *)
Definition two_letters (w : string) : bool :=
  Text.all Text.is_lower w && (2 <=? String.length w)%nat.

(** The claim as stated: the runs of two or more alphabetic characters of
    the lowercased title, the stop words left out, joined. *)
Definition as_stated (title : string) : string :=
  Text.join ", "
    (List.filter (fun w => negb (stop_word w))
       (List.filter (fun w => (2 <=? String.length w)%nat)
          (runs is_alpha (Text.lower title)))).

(** The words of the lowercased title, a word being a maximal run of
    letters, digits and underscores; those of two or more letters and
    nothing else, the stop words left out, joined. *)
Definition of_words (title : string) : string :=
  Text.join ", "
    (List.filter (fun w => negb (stop_word w))
       (List.filter two_letters (runs Text.is_word (Text.lower title)))).

End Words.

(** ** The loader, step by step *)

Section Loaded.
Context `{Platform}.


End Loaded.



(** A plan with a task named like a missing-value marker. *)
Definition plan_with_na : DataFrame :=
  {| columns := cols; rows := [<[0%nat := Str "NA"]> essay_pending] |}.

(** ** Vocabulary of the further properties *)

(** A character that [sanitize_email_for_filename] keeps, in a lowercased
    text: a digit, a lowercase letter, a hyphen, an underscore or a dot. *)
Definition is_safe (c : ascii) : bool :=
  Text.is_digit c || Text.is_lower c || bool_decide (c ∈ ["-"; "_"; "."]%char).

(** A digit of a hexadecimal text in lowercase. *)
Definition is_hex (c : ascii) : bool :=
  Text.is_digit c || ((97 <=? Text.code c)%N && (Text.code c <=? 102)%N).

(** The text is empty or starts with a character that is no whitespace. *)
Definition starts_clean (s : string) : Prop :=
  match s with String c _ => Text.is_space c = false | EmptyString => True end.

(** [kw] stands in [s] with no character of a word next to it on either
    side. *)
Definition stands_in (kw s : string) : Prop :=
  exists a b,
    s = a +:+ kw +:+ b
    /\ Regex.word_at (Regex.last_char None a) = false
    /\ Regex.word_at (Regex.head b) = false.

(** ** Task frames as the forms write them *)

(** What a task column holds: a text, a date, or a whole number. *)
Inductive kind := Text | Day | Count.

(** The kinds of the thirteen columns, in the order of [cols]. *)
Definition kinds : list kind :=
  [ Text; Text; Day; Text; Text; Text; Text; Text; Text; Count; Text; Text; Day ].

(** A text or a date may be missing; the number of days is an integer. *)
Definition of_kind (k : kind) (c : cell) : bool :=
  match k, c with
  | Text, (Str _ | NaN) => true
  | Day, (Date _ | NaN) => true
  | Count, Int _ => true
  | _, _ => false
  end.

Definition task_row (r : list cell) : bool :=
  bool_decide (length r = 13%nat) && forallb id (zip_with of_kind kinds r).

(** The thirteen columns, and in every row a cell of the kind of each. *)
Definition task_frame (df : DataFrame) : Prop :=
  columns df = cols /\ Forall (fun r => task_row r = true) (rows df).

(** The rows whose status is "Completed". *)
Definition completed_rows (df : DataFrame) : list (list cell) :=
  List.filter (fun r => cell_eqb (task_status r) (Str "Completed")) (rows df).

(** The row of a new task, [days] being its "Days Until Due". *)
Definition new_task_row (task_name course : string) (due_date : date)
    (effort task_type user_priority : string) (days : Z) : list cell :=
  [ Str task_name; Str course; Date due_date; Str effort; Str task_type;
    Str user_priority; Str user_priority; Str "Pending";
    Str (extract_keywords_simple (Str task_name)); Int days; NaN; NaN; NaN ].

(** The days from the day of [now] to [due_date], less one past midnight,
    and not below zero. *)
Definition whole_days_left (now : datetime) (due_date : date) : Z :=
  Z.max 0 (due_date - dt_day now - (if dt_usec now =? 0 then 0 else 1)).

(** The row [complete_form] makes of a row. *)
Definition stamped (r : list cell) (actual_priority actual_effort : string)
    (today : date) : list cell :=
  <[12%nat := Date today]>
    (<[11%nat := Str actual_effort]>
       (<[10%nat := Str actual_priority]> (<[7%nat := Str "Completed"]> r))).

(** The plan with the task named "NA", as it is loaded again: the task has
    no name. *)
Definition nameless_plan : DataFrame :=
  {| columns := cols; rows := [<[0%nat := NaN]> essay_pending] |}.

(** ** Files that are read back as they were written *)

(** A character that is no control character. *)
Definition is_print (c : ascii) : bool :=
  (32 <=? Text.code c)%N && negb (Text.code c =? 127)%N.

(** A text without control characters: [to_csv] writes it so that it is
    read back as one field. *)
Definition printable (s : string) : bool := Text.all is_print s.

(** The file written for the frame has a header line, and its labels and
    fields hold no control character. *)
Definition written_whole (df : DataFrame) : Prop :=
  columns df <> []
  /\ Forall (fun s => printable s = true) (columns df)
  /\ Forall (Forall (fun s => printable s = true)) (lines (Csv.to_csv df)).

(** The file of the credentials, when there is one, has a header line. *)
Definition users_file_parses (fs : file_system) : Prop :=
  forall f, fs !! USER_DB = Some f -> header f <> [].

(** * Properties *)

(** ** The hash *)

(** The digests of the standard test vectors, as [hashlib] gives them. *)
Example sha256_vectors :
  Sha256.hexdigest "" = "e3b0c44298fc1c149afbf4c8996fb92427ae41e4649b934ca495991b7852b855"
  /\ Sha256.hexdigest "abc" = "ba7816bf8f01cfea414140de5dae2223b00361a396177a9cb410ff61f20015ad"
  /\ hash_password "password" = "5e884898da28047151d0e56f8dc6292773603d0d6aabbdd62a11ef721d1542d8".
Proof. split; [|split]; vm_compute; reflexivity. Qed.

(** ** Frames *)

Lemma cell_eqb_eq (a b : cell) : cell_eqb a b = true -> a = b.
Proof.
  destruct a, b; simpl; try discriminate; intros Hb;
    apply bool_decide_eq_true in Hb; congruence.
Qed.

Lemma cell_eqb_Str (c : cell) (s : string) : cell_eqb c (Str s) = true <-> c = Str s.
Proof.
  split; [apply cell_eqb_eq|]. intros ->. simpl. by apply bool_decide_eq_true.
Qed.

Lemma existsb_cell_eqb_Str (cells : list cell) (s : string) :
  existsb (fun c => cell_eqb c (Str s)) cells = true <-> Str s ∈ cells.
Proof.
  rewrite existsb_exists. split.
  - intros (c & Hin & Heq). apply cell_eqb_Str in Heq as ->. by apply list_elem_of_In.
  - intros Hin. exists (Str s). split; [by apply list_elem_of_In|by apply cell_eqb_Str].
Qed.

(** The rows a mask keeps are rows of the frame. *)
Lemma keep_zip_with {A B} (f : A -> B -> bool) (g : list cell -> A) (h : list cell -> B)
    (rs : list (list cell)) :
  Frame.keep (zip_with f (map g rs) (map h rs)) rs
  = List.filter (fun r => f (g r) (h r)) rs.
Proof.
  induction rs as [|r rs IH]; simpl; [done|]. rewrite IH. by destruct (f _ _).
Qed.

Lemma keep_map {A} (f : A -> bool) (g : list cell -> A) (rs : list (list cell)) :
  Frame.keep (map f (map g rs)) rs = List.filter (fun r => f (g r)) rs.
Proof.
  induction rs as [|r rs IH]; simpl; [done|]. rewrite IH. by destruct (f _).
Qed.

Section AuthFacts.
Context `{Platform}.

Lemma select_credentials (df : DataFrame) (users : DataFrame) :
  Frame.select df ["email"; "password"] = Some users -> credentials users.
Proof.
  unfold Frame.select. simpl.
  destruct (Frame.index_of "email" _) as [je|]; [|done].
  destruct (Frame.index_of "password" _) as [jp|]; [|done].
  simpl. intros [= <-]. split; [done|]. simpl.
  apply Forall_forall. intros r Hr.
  apply list_elem_of_In, in_map_iff in Hr as (r' & <- & _). done.
Qed.

(** [load_users] never raises, and returns a credential frame. *)
Lemma load_users_credentials (fs : file_system) :
  exists users, load_users fs = Some users /\ credentials users.
Proof.
  unfold load_users. destruct (fs !! USER_DB) as [f|].
  2:{ eexists; split; [done|]. split; [done|]. constructor. }
  destruct (negb _ || negb _) eqn:Hcols.
  { eexists; split; [done|]. split; [done|]. constructor. }
  apply orb_false_elim in Hcols as [He Hp].
  apply negb_false_iff, bool_decide_eq_true in He as [je He].
  apply negb_false_iff, bool_decide_eq_true in Hp as [jp Hp].
  destruct (Frame.select _ _) as [users|] eqn:Hsel.
  - exists users. split; [done|]. by eapply select_credentials.
  - unfold Frame.select in Hsel. simpl in He, Hp, Hsel. rewrite He, Hp in Hsel. done.
Qed.

Lemma credentials_columns (users : DataFrame) :
  credentials users ->
  Frame.column users "email" = Some (map (Frame.at_pos 0) (rows users))
  /\ Frame.column users "password" = Some (map (Frame.at_pos 1) (rows users)).
Proof. intros [Hc _]. unfold Frame.column. rewrite Hc. done. Qed.

Lemma credentials_row (users : DataFrame) (r : list cell) :
  credentials users -> r ∈ rows users ->
  r = [Frame.at_pos 0 r; Frame.at_pos 1 r].
Proof.
  intros [_ Hr] Hin. rewrite Forall_forall in Hr. specialize (Hr r Hin).
  destruct r as [|a [|b [|? ?]]]; done.
Qed.

(** Selecting the two columns of a credential frame changes nothing. *)
Lemma select_credentials_id (users : DataFrame) :
  credentials users -> Frame.select users ["email"; "password"] = Some users.
Proof.
  intros Hu. destruct Hu as [Hc Hr]. unfold Frame.select. rewrite Hc. simpl.
  destruct users as [cs rs]. simpl in *. subst cs. do 2 f_equal.
  induction Hr as [|r rs Hlen _ IH]; simpl; [done|]. rewrite IH. f_equal.
  destruct r as [|a [|b [|? ?]]]; done.
Qed.

(** What [login_user] computes, on the loaded frame. *)
Lemma login_user_spec (fs : file_system) (users : DataFrame) (email password : string) :
  load_users fs = Some users -> credentials users ->
  login_user fs email password
  = Some (bool_decide
            ([Str (normalize_email email); Str (hash_password password)] ∈ rows users)).
Proof.
  intros Hload Hu. unfold login_user. rewrite Hload. simpl.
  destruct (credentials_columns _ Hu) as [-> ->]. simpl. f_equal.
  unfold Frame.boolean_index, Frame.empty. simpl.
  rewrite (keep_zip_with
             (fun e p => cell_eqb e (Str (normalize_email email))
                         && cell_eqb p (Str (hash_password password)))).
  destruct Hu as [Hc Hu]. rewrite Hc.
  set (P := fun r : list cell => _ && _).
  destruct (List.filter P (rows users)) as [|r rs] eqn:Hf; simpl; symmetry.
  - apply bool_decide_eq_false. intros Hin.
    assert (In [Str (normalize_email email); Str (hash_password password)]
               (List.filter P (rows users))) as Hin'.
    { apply filter_In. split; [by apply list_elem_of_In|].
      unfold P. simpl. by rewrite !bool_decide_eq_true_2. }
    by rewrite Hf in Hin'.
  - apply bool_decide_eq_true.
    assert (In r (List.filter P (rows users))) as Hin by (rewrite Hf; left; done).
    apply filter_In in Hin as [Hin HP]. apply list_elem_of_In in Hin.
    unfold P in HP. apply andb_true_iff in HP as [He Hp].
    apply cell_eqb_Str in He, Hp.
    rewrite Forall_forall in Hu. specialize (Hu r Hin).
    destruct r as [|a [|b [|? ?]]]; try done. unfold Frame.at_pos in He, Hp.
    simpl in He, Hp. by subst.
Qed.

End AuthFacts.

Section AuthTheorems.
Context `{Platform}.

Lemma with_credential_credentials (users : DataFrame) (email password : string) :
  credentials users -> credentials (with_credential users email password).
Proof.
  intros [Hc Hr]. split; [done|]. simpl. apply Forall_app. split; [done|].
  by repeat constructor.
Qed.

Lemma register_user_spec (fs : file_system) (users : DataFrame) (email password : string) :
  load_users fs = Some users -> credentials users ->
  register_user fs email password
  = Some (if bool_decide (Str (normalize_email email) ∈ map (Frame.at_pos 0) (rows users))
          then ((false, "User already exists."), fs)
          else ((true, "Registered successfully."),
                save_users fs (with_credential users email password))).
Proof.
  intros Hload Hu. unfold register_user. rewrite Hload. simpl.
  destruct (credentials_columns _ Hu) as [-> _]. simpl.
  destruct (existsb _ _) eqn:Hex.
  - apply existsb_cell_eqb_Str in Hex. by rewrite bool_decide_eq_true_2.
  - rewrite bool_decide_eq_false_2; [done|]. intros Hin.
    apply existsb_cell_eqb_Str in Hin. congruence.
Qed.

End AuthTheorems.

(** A registration and the logins after it, on the reference platform. *)
Example register_then_login :
  match register_user (H := Reference.platform) ∅ " Ada@Example.org" "password" with
  | Some ((ok, _), fs') =>
      ok = true
      /\ login_user (H := Reference.platform) fs' "ADA@example.ORG  " "password" = Some true
      /\ login_user (H := Reference.platform) fs' "ada@example.org" "Password" = Some false
      /\ login_user (H := Reference.platform) fs' "bob@example.org" "password" = Some false
      /\ register_user (H := Reference.platform) fs' "ADA@example.org  " "other"
         = Some ((false, "User already exists."), fs')
  | None => False
  end.
Proof. vm_compute. repeat split. Qed.

Section BlankEmail.
Context `{Platform}.

(** What is loaded after the empty email was registered: a record without
    an email, on every platform. *)
Lemma load_users_blank (password : string) :
  exists c,
    load_users (save_users ∅ (with_credential no_users "" password))
    = Some {| columns := ["email"; "password"]; rows := [[NaN; c]] |}.
Proof.
  unfold load_users, save_users. rewrite lookup_insert_eq.
  eexists. unfold Csv.read_csv, Frame.has_column, Frame.select. cbn. reflexivity.
Qed.

(** C1. The empty email is registered, whatever the password, and the user
    is told so; the login with the same email and the same password is
    then refused: the email is written as an empty field, which is read
    back as a missing value and equals no email. *)
Theorem login_after_register_rejected (password : string) :
  register_user ∅ "" password
  = Some ((true, "Registered successfully."),
          save_users ∅ (with_credential no_users "" password))
  /\ login_user (save_users ∅ (with_credential no_users "" password)) "" password
     = Some false.
Proof.
  split; [reflexivity|].
  destruct (load_users_blank password) as [c Hload].
  unfold login_user. rewrite Hload. reflexivity.
Qed.

(** C2. A blank email is registered twice: after the first registration
    the credentials that are loaded hold a record without an email, the
    check for an existing user finds nothing, and the second registration
    succeeds as the first did. *)
Theorem register_twice_accepted (password : string) :
  register_user ∅ "  " password
  = Some ((true, "Registered successfully."),
          save_users ∅ (with_credential no_users "" password))
  /\ (exists c,
        load_users (save_users ∅ (with_credential no_users "" password))
        = Some {| columns := ["email"; "password"]; rows := [[NaN; c]] |})
  /\ fst <$> register_user (save_users ∅ (with_credential no_users "" password))
               "  " password
     = Some (true, "Registered successfully.").
Proof.
  split; [reflexivity|]. split; [apply load_users_blank|].
  destruct (load_users_blank password) as [c Hload].
  unfold register_user. rewrite Hload. reflexivity.
Qed.

End BlankEmail.

(** ** Cells of a frame *)

Lemma index_of_lookup (c : string) (cs : list string) (j : nat) :
  Frame.index_of c cs = Some j -> cs !! j = Some c.
Proof.
  revert j. induction cs as [|c' cs IH]; intros j; simpl; [done|].
  case_bool_decide as Hc.
  - intros [= <-]. by subst.
  - destruct (Frame.index_of c cs) as [j'|]; simpl; [|done].
    intros [= <-]. by apply IH.
Qed.

Lemma index_of_lt (c : string) (cs : list string) (j : nat) :
  Frame.index_of c cs = Some j -> (j < length cs)%nat.
Proof. intros Hj. eapply lookup_lt_Some, index_of_lookup, Hj. Qed.

Lemma index_of_inj (c c' : string) (cs : list string) (j : nat) :
  Frame.index_of c cs = Some j -> Frame.index_of c' cs = Some j -> c = c'.
Proof. intros H1%index_of_lookup H2%index_of_lookup. congruence. Qed.

Lemma has_column_index (df : DataFrame) (c : string) (j : nat) :
  Frame.index_of c (columns df) = Some j -> Frame.has_column df c = true.
Proof. intros Hj. apply bool_decide_eq_true. by rewrite Hj. Qed.

Lemma at_pos_lookup (j : nat) (r : list cell) (c : cell) :
  r !! j = Some c -> Frame.at_pos j r = c.
Proof. intros Hj. unfold Frame.at_pos. by apply nth_lookup_Some with (d := NaN) in Hj. Qed.

(** [df.loc[i, c] = v] on an existing column keeps the shape of the frame. *)
Lemma loc_set_rows (df : DataFrame) (i j : nat) (c : string) (v : cell) :
  Frame.index_of c (columns df) = Some j ->
  Frame.loc_set df i c v
  = {| columns := columns df; rows := alter (fun r => <[j := v]> r) i (rows df) |}.
Proof.
  intros Hj. unfold Frame.loc_set. rewrite (has_column_index _ _ _ Hj). by rewrite Hj.
Qed.

Lemma loc_set_well_formed (df : DataFrame) (i j : nat) (c : string) (v : cell) :
  Frame.index_of c (columns df) = Some j ->
  well_formed df -> well_formed (Frame.loc_set df i c v).
Proof.
  intros Hj Hwf. rewrite (loc_set_rows _ _ _ _ _ Hj). unfold well_formed in *. simpl.
  apply Forall_lookup. intros k r Hk.
  destruct (decide (k = i)) as [->|Hne].
  - rewrite list_lookup_alter_eq in Hk.
    destruct (rows df !! i) as [r0|] eqn:Hr0; simpl in Hk; [|done].
    injection Hk as <-. rewrite length_insert.
    by eapply Forall_lookup in Hwf.
  - rewrite list_lookup_alter_ne in Hk by done. by eapply Forall_lookup in Hwf.
Qed.

(** The frame rule of [df.loc[i, c] = v]: the cell written, and every other
    cell as it was. *)
Lemma loc_set_cell_at (df : DataFrame) (i j : nat) (c : string) (v : cell)
    (i' : nat) (c' : string) :
  Frame.index_of c (columns df) = Some j ->
  well_formed df ->
  cell_at (Frame.loc_set df i c v) i' c'
  = if decide (i' = i /\ c' = c)
    then (if decide (i < length (rows df))%nat then Some v else None)
    else cell_at df i' c'.
Proof.
  intros Hj Hwf. rewrite (loc_set_rows _ _ _ _ _ Hj). unfold cell_at. simpl.
  destruct (decide (i' = i)) as [->|Hi].
  - rewrite list_lookup_alter_eq.
    destruct (rows df !! i) as [r|] eqn:Hr; simpl.
    + assert (length r = length (columns df)) as Hlen
        by (by eapply Forall_lookup in Hwf).
      pose proof (index_of_lt _ _ _ Hj) as Hlt.
      apply lookup_lt_Some in Hr as Hi.
      destruct (decide (c' = c)) as [->|Hc].
      * rewrite decide_True by done. rewrite decide_True by done.
        rewrite Hj. simpl. apply list_lookup_insert_eq. lia.
      * rewrite decide_False by tauto.
        destruct (Frame.index_of c' (columns df)) as [j'|] eqn:Hj'; simpl; [|done].
        apply list_lookup_insert_ne. intros ->. apply Hc. by eapply index_of_inj.
    + apply lookup_ge_None in Hr.
      case_decide as Hd; [|done]. rewrite decide_False by lia. done.
  - rewrite list_lookup_alter_ne by done. rewrite decide_False by tauto. done.
Qed.

(** ** The action center *)

Section ActionFacts.
Lemma first_true_lt (mask : list bool) (i : nat) :
  Frame.first_true mask = Some i -> mask !! i = Some true.
Proof.
  revert i. induction mask as [|b mask IH]; intros i; simpl; [done|].
  destruct b; [by intros [= <-]|].
  destruct (Frame.first_true mask) as [i'|]; simpl; [|done].
  intros [= <-]. by apply IH.
Qed.

(** Nothing before the first label a mask selects is selected. *)
Lemma first_true_first (mask : list bool) (i k : nat) :
  Frame.first_true mask = Some i -> (k < i)%nat -> mask !! k = Some false.
Proof.
  revert i k. induction mask as [|b mask IH]; intros i k; simpl; [done|].
  destruct b; [intros [= <-]; lia|].
  destruct (Frame.first_true mask) as [i'|] eqn:Hi'; simpl; [|done].
  intros [= <-] Hk. destruct k as [|k]; [done|]. simpl. eapply IH; [done|lia].
Qed.

Lemma first_true_None (mask : list bool) :
  Frame.first_true mask = None <-> Forall (fun b => b = false) mask.
Proof.
  induction mask as [|b mask IH]; simpl; [by split; [constructor|]|].
  destruct b.
  - split; [done|]. by intros [? ?]%Forall_cons.
  - destruct (Frame.first_true mask) as [i'|]; simpl.
    + split; [done|]. intros [_ Hf]%Forall_cons. by apply IH in Hf.
    + split; [|done]. intros _. constructor; [done|]. by apply IH.
Qed.

Lemma keep_eq_mask (g : list cell -> cell) (v : cell) (rs : list (list cell)) :
  Frame.keep (eq_mask (map g rs) v) rs = List.filter (fun r => cell_eqb (g r) v) rs.
Proof. apply (keep_map (fun c => cell_eqb c v)). Qed.

Lemma keep_ne_mask (g : list cell -> cell) (v : cell) (rs : list (list cell)) :
  Frame.keep (ne_mask (map g rs) v) rs
  = List.filter (fun r => negb (cell_eqb (g r) v)) rs.
Proof. apply (keep_map (fun c => negb (cell_eqb c v))). Qed.

(** [complete_form] on a task frame, step by step. *)
Lemma complete_form_unfold (fs : file_system) (user_email : string)
    (df : DataFrame) (choice : cell) (ap ae : string) (today : date) :
  columns df = cols ->
  complete_form fs user_email df choice ap ae today
  = match pending_rows df with
    | [] => Some (Info "No pending tasks to complete.")
    | _ =>
        if bool_decide (choice ∈ map task_name (pending_rows df)) then
          idx ← Frame.first_true (eq_mask (map task_name (rows df)) choice);
          let df' := stamp_completed df idx ap ae today in
          Some (Saved df' (save_tasks_for_user fs user_email df'))
        else Some NotOffered
    end.
Proof.
  intros Hc. destruct df as [cs rs]. simpl in Hc. subst cs.
  unfold complete_form, pending_rows, stamp_completed.
  destruct rs as [|r rs]; [done|].
  change (Frame.empty {| columns := cols; rows := r :: rs |}) with false.
  cbn [rows columns cols negb].
  unfold Frame.column. cbn [columns cols rows].
  change (Frame.index_of "Status" cols) with (Some 7%nat).
  change (Frame.index_of "Task Name" cols) with (Some 0%nat).
  cbn [mbind option_bind]. unfold Frame.boolean_index. cbn [rows columns].
  rewrite keep_eq_mask.
  change (fun r0 => cell_eqb (Frame.at_pos 7 r0) (Str "Pending"))
    with (fun r0 => cell_eqb (task_status r0) (Str "Pending")).
  destruct (List.filter _ (r :: rs)) as [|p ps] eqn:Hp; [done|].
  cbn [negb]. change (Frame.index_of "Task Name" cols) with (Some 0%nat).
  cbn [mbind option_bind]. done.
Qed.

End ActionFacts.

Section ActionClaims.
(** The four assignments, as one update of the row. *)
Lemma stamp_completed_rows (df : DataFrame) (idx : nat) (ap ae : string) (today : date) :
  columns df = cols ->
  stamp_completed df idx ap ae today
  = {| columns := cols;
       rows := alter (fun r => <[12%nat := Date today]>
                                 (<[11%nat := Str ae]>
                                    (<[10%nat := Str ap]>
                                       (<[7%nat := Str "Completed"]> r))))
                     idx (rows df) |}.
Proof.
  intros Hc. unfold stamp_completed.
  rewrite (loc_set_rows df idx 7 "Status") by (by rewrite Hc).
  rewrite (loc_set_rows _ idx 10 "Actual_AI_Priority") by (by simpl; rewrite Hc).
  rewrite (loc_set_rows _ idx 11 "Actual_Effort_Rating") by (by simpl; rewrite Hc).
  rewrite (loc_set_rows _ idx 12 "Completed Date") by (by simpl; rewrite Hc).
  simpl. rewrite Hc. f_equal. by rewrite !list_alter_alter_eq.
Qed.

Lemma not_completion_field (c : string) (j : nat) :
  Frame.index_of c cols = Some j -> c ∉ completion_fields ->
  j ≠ 7%nat /\ j ≠ 10%nat /\ j ≠ 11%nat /\ j ≠ 12%nat.
Proof.
  intros Hj Hc. repeat split; intros ->; apply Hc;
    [ rewrite (index_of_inj c "Status" cols 7 Hj eq_refl)
    | rewrite (index_of_inj c "Actual_AI_Priority" cols 10 Hj eq_refl)
    | rewrite (index_of_inj c "Actual_Effort_Rating" cols 11 Hj eq_refl)
    | rewrite (index_of_inj c "Completed Date" cols 12 Hj eq_refl) ];
    unfold completion_fields; set_solver.
Qed.

(** C10. When [complete_form] saves, one row alone was written to, under
    the four labels of the completion alone: the frame keeps its columns
    and the number of its rows, every other row is the row it was, and
    the cells of the selected row under every other label are the cells
    they were. *)
Theorem complete_form_frame (fs : file_system) (user_email : string)
    (df : DataFrame) (choice : cell) (ap ae : string) (today : date)
    (df' : DataFrame) (fs' : file_system) :
  columns df = cols ->
  complete_form fs user_email df choice ap ae today = Some (Saved df' fs') ->
  exists idx,
    (idx < length (rows df))%nat
    /\ columns df' = columns df
    /\ length (rows df') = length (rows df)
    /\ (forall i, i ≠ idx -> rows df' !! i = rows df !! i)
    /\ (forall c, c ∉ completion_fields -> cell_at df' idx c = cell_at df idx c).
Proof.
  intros Hc Hrun. rewrite complete_form_unfold in Hrun by done.
  destruct (pending_rows df) as [|p ps]; [done|].
  case_bool_decide; [|done].
  destruct (Frame.first_true _) as [idx|] eqn:Hidx; [|done].
  simpl in Hrun. injection Hrun as <- <-.
  exists idx. rewrite stamp_completed_rows by done. simpl.
  split.
  { apply first_true_lt, lookup_lt_Some in Hidx.
    unfold eq_mask in Hidx. by rewrite !length_map in Hidx. }
  split; [done|]. split; [by rewrite length_alter|].
  split; [intros i Hi; by rewrite list_lookup_alter_ne|].
  intros c Hnot. unfold cell_at. cbn [rows columns].
  rewrite Hc, list_lookup_alter_eq.
  destruct (rows df !! idx) as [r|]; cbn [fmap option_fmap option_map mbind option_bind]; [|done].
  destruct (Frame.index_of c cols) as [j|] eqn:Hj; cbn [mbind option_bind]; [|done].
  destruct (not_completion_field c j Hj Hnot) as (? & ? & ? & ?).
  by rewrite !list_lookup_insert_ne.
Qed.

(** What [complete_form] selects and writes: the first row of the whole
    frame whose name is the choice. *)
Lemma complete_form_selected (fs : file_system) (user_email : string)
    (df : DataFrame) (choice : cell) (ap ae : string) (today : date)
    (df' : DataFrame) (fs' : file_system) :
  columns df = cols -> well_formed df ->
  complete_form fs user_email df choice ap ae today = Some (Saved df' fs') ->
  exists idx r,
    rows df !! idx = Some r
    /\ cell_eqb (task_name r) choice = true
    /\ (forall k r', (k < idx)%nat -> rows df !! k = Some r' ->
                     cell_eqb (task_name r') choice = false)
    /\ cell_at df' idx "Status" = Some (Str "Completed")
    /\ cell_at df' idx "Actual_AI_Priority" = Some (Str ap)
    /\ cell_at df' idx "Actual_Effort_Rating" = Some (Str ae)
    /\ cell_at df' idx "Completed Date" = Some (Date today)
    /\ fs' = save_tasks_for_user fs user_email df'.
Proof.
  intros Hc Hwf Hrun. rewrite complete_form_unfold in Hrun by done.
  destruct (pending_rows df) as [|p ps]; [done|].
  case_bool_decide; [|done].
  destruct (Frame.first_true _) as [idx|] eqn:Hidx; [|done].
  simpl in Hrun. injection Hrun as <- <-.
  pose proof (first_true_lt _ _ Hidx) as Hat.
  unfold eq_mask in Hat. rewrite !list_lookup_fmap in Hat.
  destruct (rows df !! idx) as [r|] eqn:Hr; [|done]. simpl in Hat.
  exists idx, r. split; [done|]. split; [congruence|].
  split.
  { intros k r' Hk Hr'. pose proof (first_true_first _ _ k Hidx Hk) as Hf.
    unfold eq_mask in Hf. rewrite !list_lookup_fmap, Hr' in Hf. simpl in Hf.
    congruence. }
  assert (length r = 13%nat) as Hlen.
  { eapply Forall_lookup in Hwf; [|done]. by rewrite Hwf, Hc. }
  rewrite stamp_completed_rows by done. unfold cell_at. cbn [rows columns].
  rewrite list_lookup_alter_eq, Hr.
  cbn [fmap option_fmap option_map mbind option_bind].
  change (Frame.index_of "Status" cols) with (Some 7%nat).
  change (Frame.index_of "Actual_AI_Priority" cols) with (Some 10%nat).
  change (Frame.index_of "Actual_Effort_Rating" cols) with (Some 11%nat).
  change (Frame.index_of "Completed Date" cols) with (Some 12%nat).
  cbn [mbind option_bind].
  repeat split.
  - rewrite !list_lookup_insert_ne by done. apply list_lookup_insert_eq. lia.
  - rewrite !list_lookup_insert_ne by done. apply list_lookup_insert_eq.
    rewrite !length_insert. lia.
  - rewrite !list_lookup_insert_ne by done. apply list_lookup_insert_eq.
    rewrite !length_insert. lia.
  - apply list_lookup_insert_eq. rewrite !length_insert. lia.
Qed.

(** No pending task of that name: nothing is written and nothing raises. *)
Lemma complete_form_not_found (fs : file_system) (user_email : string)
    (df : DataFrame) (choice : cell) (ap ae : string) (today : date) :
  columns df = cols ->
  choice ∉ map task_name (pending_rows df) ->
  complete_form fs user_email df choice ap ae today
    = Some (Info "No pending tasks to complete.")
  \/ complete_form fs user_email df choice ap ae today = Some NotOffered.
Proof.
  intros Hc Hnot. rewrite complete_form_unfold by done.
  destruct (pending_rows df) as [|p ps]; [by left|].
  rewrite bool_decide_eq_false_2 by done. by right.
Qed.

(** C9. With the name among those of the frame, [delete_task] keeps the
    rows whose name differs from it, in their order and whatever their
    status, and persists that frame: afterwards the task file of the user
    holds the columns of the frame and the printed cells of the rows that
    were kept, and every other file is as it was. With a name that no row
    bears nothing raises and nothing is written: the outcome holds no
    frame and no file system. *)
Theorem delete_task_correct (fs : file_system) (user_email : string)
    (df : DataFrame) (delete_choice : cell) (j : nat) :
  Frame.index_of "Task Name" (columns df) = Some j ->
  let named r := cell_eqb (Frame.at_pos j r) delete_choice in
  let kept := List.filter (fun r => negb (named r)) (rows df) in
  (delete_choice ∈ map (Frame.at_pos j) (rows df) ->
     exists fs',
       delete_task fs user_email df delete_choice
       = Some (Saved {| columns := columns df; rows := kept |} fs')
       /\ fs' !! get_tasks_filename_for_user user_email
          = Some {| header := columns df; lines := map (map Csv.to_csv_cell) kept |}
       /\ (forall file, file <> get_tasks_filename_for_user user_email ->
                        fs' !! file = fs !! file)
       /\ (forall r, r ∈ kept <-> r ∈ rows df /\ named r = false))
  /\ (delete_choice ∉ map (Frame.at_pos j) (rows df) ->
     delete_task fs user_email df delete_choice = Some NotOffered
     \/ delete_task fs user_email df delete_choice = Some (Info "No tasks to delete.")).
Proof.
  intros Hj named kept. unfold delete_task, Frame.column.
  rewrite Hj. cbn [mbind option_bind].
  split.
  - intros Hin. destruct df as [cs [|r rs]]; [by apply elem_of_nil in Hin|].
    destruct cs as [|c cs]; [done|]. cbn [Frame.empty rows columns negb] in *.
    rewrite bool_decide_eq_true_2 by done.
    unfold Frame.boolean_index. cbn [rows columns]. rewrite keep_ne_mask.
    eexists. split; [reflexivity|]. unfold save_tasks_for_user. split_and!.
    + by rewrite lookup_insert_eq.
    + intros file Hfile. by rewrite lookup_insert_ne.
    + intros r'. subst kept. rewrite !list_elem_of_In, filter_In.
      cbn [rows]. by rewrite negb_true_iff.
  - intros Hnot. destruct (negb (Frame.empty df)); [|by right].
    rewrite bool_decide_eq_false_2 by done. by left.
Qed.

End ActionClaims.

(** The theorem on the sample plan, the essay being completed. *)
Lemma complete_form_frame_witness :
  exists idx,
    (idx < length (rows study_plan))%nat
    /\ columns (stamp_completed study_plan 1 "High" "Longer" a_monday) = columns study_plan
    /\ length (rows (stamp_completed study_plan 1 "High" "Longer" a_monday))
       = length (rows study_plan)
    /\ (forall i, i ≠ idx ->
          rows (stamp_completed study_plan 1 "High" "Longer" a_monday) !! i
          = rows study_plan !! i)
    /\ (forall c, c ∉ completion_fields ->
          cell_at (stamp_completed study_plan 1 "High" "Longer" a_monday) idx c
          = cell_at study_plan idx c).
Proof.
  apply (complete_form_frame ∅ ada study_plan (Str "Write essay") "High" "Longer" a_monday
           (stamp_completed study_plan 1 "High" "Longer" a_monday)
           (save_tasks_for_user ∅ ada
              (stamp_completed study_plan 1 "High" "Longer" a_monday))).
  - reflexivity.
  - vm_compute. reflexivity.
Defined.

(** The theorem on the sample plan: the name is offered, both tasks of that
    name go, and the file of the user holds the task that is left. *)
Lemma delete_task_correct_witness :
  exists fs',
    delete_task ∅ ada study_plan (Str "Read notes")
    = Some (Saved {| columns := cols; rows := [essay_pending] |} fs')
    /\ fs' !! get_tasks_filename_for_user ada
       = Some {| header := cols; lines := [map Csv.to_csv_cell essay_pending] |}
    /\ (forall file, file <> get_tasks_filename_for_user ada ->
                     fs' !! file = (∅ : file_system) !! file)
    /\ (forall r, r ∈ [essay_pending]
                  <-> r ∈ rows study_plan
                      /\ cell_eqb (Frame.at_pos 0 r) (Str "Read notes") = false).
Proof.
  assert (Frame.index_of "Task Name" (columns study_plan) = Some 0%nat) as Hname
    by reflexivity.
  pose proof (delete_task_correct ∅ ada study_plan (Str "Read notes") 0 Hname) as Hdel.
  cbv zeta in Hdel. destruct Hdel as [Hoffered _].
  apply Hoffered. vm_compute. apply list_elem_of_here.
Defined.

(** Deleting by name removes the completed and the pending task of that name. *)
Example delete_read_notes :
  delete_task ∅ ada study_plan (Str "Read notes")
  = Some (Saved {| columns := cols; rows := [essay_pending] |}
                (save_tasks_for_user ∅ ada {| columns := cols; rows := [essay_pending] |})).
Proof. vm_compute. reflexivity. Qed.

(** C4 on the sample plan: the pending "Read notes" is chosen, the row that
    is written to is the completed "Read notes" before it, and the pending
    one stays pending. *)
Theorem complete_form_restamps_completed :
  pending_rows study_plan = [essay_pending; notes_pending]
  /\ match complete_form ∅ ada study_plan (Str "Read notes") "High" "Longer" a_monday with
     | Some (Saved df' _) =>
         rows df' = [ <[12%nat := Date a_monday]>
                        (<[11%nat := Str "Longer"]> (<[10%nat := Str "High"]> notes_done));
                      essay_pending; notes_pending ]
         /\ pending_rows df' = [essay_pending; notes_pending]
     | _ => False
     end.
Proof. split; [reflexivity|]. vm_compute. split; reflexivity. Qed.

(** ** Days until due *)

Section DaysFacts.
Context `{Platform}.

(** The result is never negative. *)
Lemma calculate_days_until_due_nonneg (now : datetime) (v : due_value) (z : Z) :
  calculate_days_until_due now v = Some (Some z) -> 0 <= z.
Proof.
  destruct v as [[| s | | |d]|dt]; simpl; try done.
  - destruct (fromisoformat s); intros [= <-]; lia.
  - intros [= <-]; lia.
  - intros [= <-]; lia.
Qed.

(** A missing value, and a text that does not parse, give [None] and no
    exception. *)
Lemma calculate_days_until_due_absent (now : datetime) (s : string) :
  calculate_days_until_due now (DueCell NaN) = Some None
  /\ (fromisoformat s = None ->
      calculate_days_until_due now (DueCell (Str s)) = Some None).
Proof. split; [done|]. simpl. by intros ->. Qed.

(** For a date: the days between the two dates, less one as soon as the
    clock is past midnight. *)
Lemma calculate_days_until_due_date (now : datetime) (d : date) :
  0 <= dt_usec now < usec_per_day ->
  calculate_days_until_due now (DueCell (Date d))
  = Some (Some (Z.max 0 (d - dt_day now - (if dt_usec now =? 0 then 0 else 1)))).
Proof.
  intros Hus. simpl. do 3 f_equal. unfold delta_days, midnight. simpl.
  unfold usec_per_day in *.
  destruct (Z.eqb_spec (dt_usec now) 0) as [->|Hne].
  - rewrite Z.sub_0_r, Z.add_0_r, Z.div_mul by done. lia.
  - symmetry. apply Z.div_unique with (r := 86400000000 - dt_usec now); lia.
Qed.

End DaysFacts.

(** C5 at noon: a task due today or yesterday is zero days away, and a task
    due in five days is four days away, not five; so it is for the date as
    a text, and for the timestamp taken five days ahead of a clock that has
    moved on by a microsecond since. *)
Theorem calculate_days_until_due_at_noon :
  calculate_days_until_due (H := Reference.platform) (noon a_monday) (DueCell (Date a_monday))
    = Some (Some 0)
  /\ calculate_days_until_due (H := Reference.platform) (noon a_monday)
       (DueCell (Date (a_monday - 1))) = Some (Some 0)
  /\ calculate_days_until_due (H := Reference.platform) (noon a_monday)
       (DueCell (Date (a_monday + 5))) = Some (Some 4)
  /\ calculate_days_until_due (H := Reference.platform) (noon a_monday)
       (DueCell (Str "2025-03-15")) = Some (Some 4)
  /\ calculate_days_until_due (H := Reference.platform)
       {| dt_day := a_monday; dt_usec := usec_per_day / 2 + 1 |}
       (DueDatetime (noon (a_monday + 5))) = Some (Some 4).
Proof. repeat split; vm_compute; reflexivity. Qed.

(** ** Study time *)

Section StudyFacts.
Context `{Platform}.

(** [series.sum()] over the mapped efforts is the sum of the hours. *)
Lemma sum_skipna_cons (v : option Qc) (vs : list (option Qc)) :
  sum_skipna (v :: vs)
  = match v with Some q => (q + sum_skipna vs)%Qc | None => sum_skipna vs end.
Proof. done. Qed.

Lemma sum_skipna_effort_hours (rs : list (list cell)) :
  sum_skipna (map_dict effort_map (map (Frame.at_pos 3) rs))
  = foldr (fun r acc => (effort_hours r + acc)%Qc) (Q2Qc 0) rs.
Proof.
  unfold map_dict. induction rs as [|r rs IH]; [done|].
  cbn [map foldr]. rewrite sum_skipna_cons, IH. unfold effort_hours.
  destruct (Frame.at_pos 3 r) as [|s| | |]; try by rewrite Qcplus_0_l.
  cbn [dict_get effort_map].
  repeat case_bool_decide; try done. by rewrite Qcplus_0_l.
Qed.

Lemma min_step_dateless (best : option cell) (item : cell) :
  dateless best -> dateless (min_step best item).
Proof.
  unfold dateless, min_step. destruct best as [b|]; [|done]. simpl.
  destruct b, item; simpl; try done; intros _;
    match goal with |- context [if ?c then _ else _] => by destruct c end.
Qed.

Lemma foldl_min_step_dateless (best : option cell) (items : list cell) :
  dateless best -> dateless (foldl min_step best items).
Proof.
  revert best. induction items as [|c items IH]; intros best Hb; simpl; [done|].
  by apply IH, min_step_dateless.
Qed.

Lemma min_step_not_date (best : option cell) (item : cell) :
  as_date item = None -> dateless (min_step best item).
Proof.
  unfold dateless, min_step. destruct best as [b|]; [|done]. simpl.
  destruct b, item; simpl; try done; intros _;
    match goal with |- context [if ?c then _ else _] => by destruct c end.
Qed.

(** [min] of dates is the least of them ... *)
Lemma foldl_min_step_dates (d : date) (ds : list date) :
  foldl min_step (Some (Date d)) (map Date ds) = Some (Date (foldr Z.min d ds)).
Proof.
  revert d. induction ds as [|y ds IH]; intros d; simpl; [done|].
  destruct (Z.ltb_spec y d).
  - rewrite IH. do 2 f_equal. clear IH. revert y d H0.
    induction ds as [|z ds IH]; intros y d Hyd; simpl; [lia|].
    rewrite (IH y d Hyd). lia.
  - rewrite IH. do 2 f_equal. clear IH. revert y d H0.
    induction ds as [|z ds IH]; intros y d Hyd; simpl; [lia|].
    rewrite (IH y d Hyd). lia.
Qed.

(** ... and [min] of a list that holds anything else gives no date, if it
    does not raise. *)
Lemma foldl_min_step_other (best : option cell) (items : list cell) :
  Exists (fun c => as_date c = None) items -> dateless (foldl min_step best items).
Proof.
  intros Hex. revert best. induction Hex as [c items Hc|c items _ IH]; intros best; simpl.
  - by apply foldl_min_step_dateless, min_step_not_date.
  - apply IH.
Qed.

Lemma mapM_as_date_Some (items : list cell) (ds : list date) :
  mapM as_date items = Some ds -> items = map Date ds.
Proof.
  revert ds. induction items as [|c items IH]; intros ds; simpl.
  - by intros [= <-].
  - destruct c; simpl; try done.
    destruct (mapM as_date items) as [ds'|]; simpl; [|done].
    intros [= <-]. simpl. f_equal. by apply IH.
Qed.

(** The [try] block computes the days to the nearest pending due date, and
    raises when there is none. *)
Lemma nearest_due_days (dues : list cell) (today : date) :
  py_min (List.filter (fun d => negb (isna d)) dues) ≫= (fun c => days_between c today)
  = (ds ← mapM as_date (List.filter (fun d => negb (isna d)) dues);
     match ds with
     | [] => None
     | d :: ds' => Some (foldr Z.min d ds' - today)
     end).
Proof.
  set (present := List.filter _ dues). clearbody present.
  match goal with |- _ = ?m ≫= _ => destruct m as [ds|] eqn:Hm end; simpl.
  - apply mapM_as_date_Some in Hm as ->.
    destruct ds as [|d ds]; simpl; [done|].
    change (foldl _ (Some (Date d)) (map Date ds))
      with (foldl min_step (Some (Date d)) (map Date ds)).
    by rewrite foldl_min_step_dates.
  - destruct present as [|c items]; simpl; [done|].
    change (foldl _ (Some c) items) with (foldl min_step (Some c) items).
    assert (dateless (foldl min_step (Some c) items)) as Hd.
    { apply mapM_None in Hm. apply Exists_cons in Hm as [Hc|Hex].
      - by apply foldl_min_step_dateless.
      - by apply foldl_min_step_other. }
    unfold dateless in Hd. destruct (foldl min_step (Some c) items) as [[]|]; done.
Qed.

End StudyFacts.

(** ** Rounding to one decimal on the reference platform *)

Lemma round_half_even_near (a b : Z) :
  0 < b -> - b <= 2 * (Reference.round_half_even a b * b - a) <= b.
Proof.
  intros Hb. unfold Reference.round_half_even.
  pose proof (Z.div_mod a b ltac:(lia)) as Hdiv.
  pose proof (Z.mod_pos_bound a b Hb) as Hmod.
  destruct (Z.compare_spec (2 * (a mod b)) b); [destruct (Z.even _)|..]; nia.
Qed.

(** The exponent that [binary64] settles on is not above the quotient. *)
Lemma exponent_below (n d : Z) :
  0 < n -> 0 < d ->
  let l0 := Z.log2 n - Z.log2 d in
  let l := if (if 0 <=? l0 then d * 2 ^ l0 <=? n else d <=? n * 2 ^ (- l0))
           then l0 else l0 - 1 in
  (0 <= l -> d * 2 ^ l <= n) /\ (l < 0 -> d <= n * 2 ^ (- l)).
Proof.
  intros Hn Hd l0 l.
  destruct (Z.log2_spec n Hn) as [Hn1 Hn2]. destruct (Z.log2_spec d Hd) as [Hd1 Hd2].
  pose proof (Z.log2_nonneg n) as Ha. pose proof (Z.log2_nonneg d) as Hb.
  subst l. destruct (0 <=? l0) eqn:Hl0.
  - apply Z.leb_le in Hl0. destruct (d * 2 ^ l0 <=? n) eqn:Hc.
    + apply Z.leb_le in Hc. split; [done|lia].
    + split.
      * intros Hl. replace (Z.log2 n) with (Z.succ (Z.log2 d) + (l0 - 1)) in Hn1 by lia.
        rewrite Z.pow_add_r in Hn1 by lia.
        assert (0 < 2 ^ (l0 - 1)) by (apply Z.pow_pos_nonneg; lia). nia.
      * intros Hl. assert (l0 = 0) as Hz by lia. rewrite Hz. simpl.
        assert (Z.log2 n = Z.log2 d) as Heq by lia. rewrite Heq in Hn1.
        replace (Z.succ (Z.log2 d)) with (Z.log2 d + 1) in Hd2 by lia.
        rewrite Z.pow_add_r in Hd2 by lia. lia.
  - apply Z.leb_gt in Hl0. destruct (d <=? n * 2 ^ (- l0)) eqn:Hc.
    + apply Z.leb_le in Hc. split; [lia|done].
    + split; [lia|]. intros _.
      replace (- (l0 - 1)) with (1 - l0) by lia.
      replace (Z.succ (Z.log2 d)) with (Z.log2 n + (1 - l0)) in Hd2 by lia.
      rewrite Z.pow_add_r in Hd2 by lia.
      assert (0 < 2 ^ (1 - l0)) by (apply Z.pow_pos_nonneg; lia). nia.
Qed.

(** The binary64 number nearest to [n / d] is within one part in 2^53 of it. *)
Lemma binary64_near (n d xn xd : Z) :
  0 < n -> 0 < d ->
  Reference.fraction (Reference.binary64 n d) = (xn, xd) ->
  0 < xd /\ - (n * xd) <= (xn * d - n * xd) * 2 ^ 53 <= n * xd.
Proof.
  intros Hn Hd. unfold Reference.binary64.
  pose proof (exponent_below n d Hn Hd) as Hl. cbv zeta in Hl.
  cbv zeta.
  match goal with |- context [0 <=? ?x - 52] => set (l := x) in * end.
  destruct Hl as [Hl1 Hl2]. unfold Reference.fraction.
  destruct (0 <=? l - 52) eqn:He.
  - apply Z.leb_le in He. intros [= <- <-]. split; [lia|].
    assert (0 < 2 ^ (l - 52)) as Hp by (apply Z.pow_pos_nonneg; lia).
    pose proof (round_half_even_near n (d * 2 ^ (l - 52)) ltac:(nia)) as Hr.
    specialize (Hl1 ltac:(lia)).
    replace l with ((l - 52) + 52) in Hl1 by lia.
    rewrite Z.pow_add_r in Hl1 by lia.
    change (2 ^ 53) with (2 * 2 ^ 52). change (2 ^ 52) with 4503599627370496 in *.
    nia.
  - apply Z.leb_gt in He. intros [= <- <-].
    assert (0 < 2 ^ (- (l - 52))) as Hp by (apply Z.pow_pos_nonneg; lia).
    split; [done|].
    pose proof (round_half_even_near (n * 2 ^ (- (l - 52))) d Hd) as Hr.
    assert (d * 2 ^ 52 <= n * 2 ^ (- (l - 52))) as Hk.
    { destruct (Z_lt_le_dec l 0) as [Hneg|Hpos].
      - specialize (Hl2 Hneg). replace (- (l - 52)) with (52 + - l) by lia.
        rewrite Z.pow_add_r by lia.
        assert (0 < 2 ^ (- l)) by (apply Z.pow_pos_nonneg; lia).
        change (2 ^ 52) with 4503599627370496. nia.
      - specialize (Hl1 Hpos). replace 52 with ((- (l - 52)) + l) at 1 by lia.
        rewrite Z.pow_add_r by lia. nia. }
    change (2 ^ 53) with (2 * 2 ^ 52). change (2 ^ 52) with 4503599627370496 in *.
    nia.
Qed.

Section Rounding.
Local Open Scope Q_scope.

Lemma inject_Z_pos (z : Z) : (0 < z)%Z -> 0 < inject_Z z.
Proof. intros Hz. change 0 with (inject_Z 0). by rewrite <- Zlt_Qlt. Qed.

(** A relative error between fractions of integers, between their quotients. *)
Lemma near_quotients (n d xn xd p : Z) :
  (0 < d)%Z -> (0 < xd)%Z -> (0 < p)%Z ->
  (- (n * xd) <= (xn * d - n * xd) * p <= n * xd)%Z ->
  let q := inject_Z n / inject_Z d in
  let x := inject_Z xn / inject_Z xd in
  - q <= (x - q) * inject_Z p /\ (x - q) * inject_Z p <= q.
Proof.
  intros Hd Hxd Hp [Hlo Hhi] q x.
  pose proof (inject_Z_pos d Hd) as HD. pose proof (inject_Z_pos xd Hxd) as HXD.
  assert (0 < inject_Z xd * inject_Z d) as HK by (by apply Qmult_lt_0_compat).
  assert (- (inject_Z n * inject_Z xd)
          <= (inject_Z xn * inject_Z d + - (inject_Z n * inject_Z xd)) * inject_Z p) as Hlo'.
  { rewrite <- !inject_Z_mult, <- !inject_Z_opp, <- inject_Z_plus, <- inject_Z_mult.
    rewrite <- Zle_Qle. lia. }
  assert ((inject_Z xn * inject_Z d + - (inject_Z n * inject_Z xd)) * inject_Z p
          <= inject_Z n * inject_Z xd) as Hhi'.
  { rewrite <- !inject_Z_mult, <- !inject_Z_opp, <- inject_Z_plus, <- inject_Z_mult.
    rewrite <- Zle_Qle. lia. }
  assert ((x - q) * inject_Z p * (inject_Z xd * inject_Z d)
          == (inject_Z xn * inject_Z d + - (inject_Z n * inject_Z xd)) * inject_Z p) as E1.
  { unfold x, q. field. split; lra. }
  assert (q * (inject_Z xd * inject_Z d) == inject_Z n * inject_Z xd) as E2.
  { unfold q. field. lra. }
  assert (- q * (inject_Z xd * inject_Z d) == - (inject_Z n * inject_Z xd)) as E3.
  { rewrite <- E2. ring. }
  split.
  - apply (Qmult_le_r _ _ _ HK). rewrite E1, E3. exact Hlo'.
  - apply (Qmult_le_r _ _ _ HK). rewrite E1, E2. exact Hhi'.
Qed.

Lemma half_near (t yn yd : Z) :
  (0 < yd)%Z -> (- yd <= 2 * (t * yd - yn) <= yd)%Z ->
  - (1 # 2) <= inject_Z t - inject_Z yn / inject_Z yd <= 1 # 2.
Proof.
  intros Hyd [Hlo Hhi]. pose proof (inject_Z_pos yd Hyd) as HY.
  assert (- inject_Z yd <= 2 * (inject_Z t * inject_Z yd + - inject_Z yn)) as Hlo'.
  { change 2 with (inject_Z 2).
    rewrite <- inject_Z_mult, <- !inject_Z_opp, <- inject_Z_plus, <- inject_Z_mult.
    rewrite <- Zle_Qle. lia. }
  assert (2 * (inject_Z t * inject_Z yd + - inject_Z yn) <= inject_Z yd) as Hhi'.
  { change 2 with (inject_Z 2).
    rewrite <- inject_Z_mult, <- !inject_Z_opp, <- inject_Z_plus, <- inject_Z_mult.
    rewrite <- Zle_Qle. lia. }
  assert ((inject_Z t - inject_Z yn / inject_Z yd) * inject_Z yd
          == inject_Z t * inject_Z yd + - inject_Z yn) as E.
  { field. lra. }
  split; apply (Qmult_le_r _ _ _ HY); rewrite E; lra.
Qed.

(** The tenths that [round1_pos] gives are within a half of ten times the
    quotient, up to ten times one part in 2^50 of it. *)
Lemma round1_pos_near (n d : Z) :
  (0 < n)%Z -> (0 < d)%Z ->
  let q := inject_Z n / inject_Z d in
  let t := inject_Z (Reference.round1_pos n d) in
  - ((1 # 2) + 10 * q * (1 # 2 ^ 50)) <= t - 10 * q <= (1 # 2) + 10 * q * (1 # 2 ^ 50).
Proof.
  intros Hn Hd q t. subst t. unfold Reference.round1_pos.
  destruct (Reference.fraction (Reference.binary64 n d)) as [xn xd] eqn:Hx.
  destruct (binary64_near n d xn xd Hn Hd Hx) as [Hxd Hxn].
  assert (0 < xn)%Z as Hxpos.
  { change (2 ^ 53)%Z with 9007199254740992%Z in Hxn. nia. }
  destruct (Reference.fraction (Reference.binary64 (10 * xn) xd)) as [yn yd] eqn:Hy.
  destruct (binary64_near (10 * xn) xd yn yd ltac:(lia) Hxd Hy) as [Hyd Hyn].
  pose proof (round_half_even_near yn yd Hyd) as Ht.
  pose proof (near_quotients n d xn xd (2 ^ 53) Hd Hxd ltac:(done) Hxn) as F1.
  pose proof (near_quotients (10 * xn) xd yn yd (2 ^ 53) Hxd Hyd ltac:(done) Hyn) as F2.
  pose proof (half_near _ yn yd Hyd Ht) as F3.
  cbv zeta in F1, F2. fold q in F1.
  pose proof (inject_Z_pos xd Hxd) as HXD.
  assert (inject_Z (10 * xn) / inject_Z xd == 10 * (inject_Z xn / inject_Z xd)) as E.
  { rewrite inject_Z_mult. change (inject_Z 10) with 10. field. lra. }
  rewrite E in F2.
  assert (0 <= q) as Hq.
  { unfold q. apply Qle_shift_div_l; [by apply inject_Z_pos|].
    rewrite Qmult_0_l. change 0 with (inject_Z 0). rewrite <- Zle_Qle. lia. }
  set (x := inject_Z xn / inject_Z xd) in *.
  set (y := inject_Z yn / inject_Z yd) in *.
  set (tau := inject_Z (Reference.round_half_even yn yd)) in *.
  change (inject_Z (2 ^ 53)) with (9007199254740992 # 1) in F1, F2.
  change (1 # 2 ^ 50) with (1 # 1125899906842624).
  lra.
Qed.

Lemma round_tenth_one_decimal (x : Qc) :
  (0 <= x)%Qc -> one_decimal x (Reference.round_tenth x).
Proof.
  intros Hx. unfold Reference.round_tenth.
  destruct x as [[n d] Hcanon]. unfold Qcle in Hx. cbn [this Qnum Qden] in *.
  assert (0 <= n)%Z as Hn.
  { unfold Qle in Hx. simpl in Hx. lia. }
  destruct (Z.compare_spec n 0) as [-> | Hneg | Hpos]; [|lia|].
  - exists 0%Z. split; [done|]. cbn [this]. apply Qabs_Qle_condition.
    assert (0 # d == 0) as -> by done. assert (0 # 10 == 0) as -> by done.
    split; lra.
  - exists (Reference.round1_pos n (Z.pos d)). split; [done|]. cbn [this].
    pose proof (round1_pos_near n (Z.pos d) Hpos ltac:(done)) as Hnear.
    cbv zeta in Hnear. rewrite <- Qmake_Qdiv in Hnear.
    set (t := Reference.round1_pos n (Z.pos d)) in *.
    assert (t # 10 == inject_Z t * (1 # 10)) as ->.
    { unfold Qeq. simpl. lia. }
    apply Qabs_Qle_condition.
    change (1 # 2 ^ 50) with (1 # 1125899906842624) in *.
    split; lra.
Qed.

End Rounding.

Section StudyClaims.
Context `{Platform}.

Lemma column_at (df : DataFrame) (c : string) (j : nat) :
  Frame.index_of c (columns df) = Some j ->
  Frame.column df c = Some (map (Frame.at_pos j) (rows df)).
Proof. intros Hj. unfold Frame.column. by rewrite Hj. Qed.

Lemma days_to_nearest_spec (df : DataFrame) (today : date) :
  columns df = cols ->
  default 7 (days_to_nearest
               {| columns := columns df; rows := pending_rows df |} today)
  = match nearest_pending_due df with
    | Some d => Z.max 1 (d - today)
    | None => 7
    end.
Proof.
  intros Hc. unfold days_to_nearest, Frame.column. cbn [columns rows]. rewrite Hc.
  change (Frame.index_of "Due Date" cols) with (Some 2%nat).
  cbn [mbind option_bind].
  pose proof (nearest_due_days (map (Frame.at_pos 2) (pending_rows df)) today) as Hn.
  unfold nearest_pending_due.
  match type of Hn with _ = ?m ≫= _ => set (found := m) in * end.
  destruct (py_min _) as [nearest|]; cbn [mbind option_bind] in Hn |- *.
  - destruct (days_between nearest today) as [days|];
      destruct found as [[|d ds]|]; simpl in Hn |- *; congruence.
  - destruct found as [[|d ds]|]; simpl in Hn |- *; congruence.
Qed.

Lemma effort_hours_nonneg (r : list cell) : (0 <= effort_hours r)%Qc.
Proof.
  unfold effort_hours. destruct (Frame.at_pos 3 r); try done.
  repeat case_bool_decide; done.
Qed.

Lemma pending_hours_nonneg (df : DataFrame) : (0 <= pending_hours df)%Qc.
Proof.
  unfold pending_hours. induction (pending_rows df) as [|r rs IH]; [done|].
  cbn [foldr]. apply (Qcle_trans _ (0 + 0)%Qc); [done|].
  apply Qcplus_le_compat; [apply effort_hours_nonneg|done].
Qed.

Lemma daily_hours_nonneg (df : DataFrame) (today : date) :
  (0 <= daily_hours df today)%Qc.
Proof.
  unfold daily_hours. pose proof (pending_hours_nonneg df) as Hh.
  assert (1 <= days_remaining df today) as Hd.
  { unfold days_remaining. destruct (nearest_pending_due df); lia. }
  unfold Qcle, Qcdiv, Qcmult, Qcinv in *. cbn [this Q2Qc] in *.
  rewrite !Qred_correct. change (this (Q2Qc 0)) with 0%Q in *.
  apply Qmult_le_0_compat; [done|]. apply Qinv_le_0_compat.
  change 0%Q with (inject_Z 0). rewrite <- Zle_Qle. lia.
Qed.

(** C7. [study_time_suggestions] returns nothing for a frame without rows,
    zero when no row is pending, and otherwise the hours of the pending
    tasks (Low 1.0, Medium 2.5, High 5.0) divided by the days to the
    nearest pending due date, at least one, and rounded to one decimal;
    the divisor is seven when no pending due date can be used. It never
    raises on a task frame. The rounding is that of the platform, which is
    taken to round to one decimal; the reference platform is proved to. *)
Theorem study_time_suggestions_correct (df : DataFrame) (today : date) :
  columns df = cols ->
  (forall x : Qc, (0 <= x)%Qc -> one_decimal x (round1 x)) ->
  exists result,
    study_time_suggestions df today = Some result /\ suggested df today result.
Proof.
  intros Hc Hround. unfold study_time_suggestions, suggested.
  pose proof (days_to_nearest_spec df today Hc) as Hdays.
  pose proof (Hround _ (daily_hours_nonneg df today)) as Hrounded.
  unfold daily_hours, days_remaining, pending_hours, pending_rows in *.
  destruct df as [cs rs]. simpl in Hc. subst cs. cbn [rows columns] in *.
  destruct rs as [|r rs]; [by eexists|].
  change (Frame.empty {| columns := cols; rows := r :: rs |}) with false.
  cbv iota. rewrite (column_at _ "Status" 7) by done.
  cbn [mbind option_bind]. unfold Frame.boolean_index. cbn [columns rows].
  rewrite keep_eq_mask.
  change (fun r0 => cell_eqb (Frame.at_pos 7 r0) (Str "Pending"))
    with (fun r0 => cell_eqb (task_status r0) (Str "Pending")).
  destruct (List.filter _ (r :: rs)) as [|p ps] eqn:Hp; [by eexists|].
  change (Frame.empty {| columns := cols; rows := p :: ps |}) with false.
  cbv iota. rewrite (column_at _ "Effort" 3) by done.
  cbn [mbind option_bind rows]. rewrite sum_skipna_effort_hours, Hdays.
  eexists. split; [reflexivity|]. eexists. split; [reflexivity|]. exact Hrounded.
Qed.

End StudyClaims.

(** The theorem on the sample plan, on the eve of the Monday: 7.5 hours, four
    days to the essay, 1.875 hours a day, rounded by the reference platform
    to 1.9. *)
Lemma study_time_suggestions_correct_witness :
  exists result,
    study_time_suggestions (H := Reference.platform) study_plan (a_monday - 1)
    = Some result
    /\ suggested study_plan (a_monday - 1) result.
Proof.
  apply (study_time_suggestions_correct (H := Reference.platform) study_plan
           (a_monday - 1)).
  - reflexivity.
  - exact round_tenth_one_decimal.
Defined.

(** On the sample plan: 2.5 + 5.0 hours, three days to the essay, 2.5 hours a
    day; nothing for no tasks, zero for completed tasks alone, and seven days
    when the due dates are texts that were not parsed. *)
Example study_time_examples :
  study_time_suggestions (H := Reference.platform) study_plan a_monday
    = Some (Some (Q2Qc (5 # 2)))
  /\ study_time_suggestions (H := Reference.platform) study_plan (a_monday - 1)
     = Some (Some (Q2Qc (19 # 10)))
  /\ study_time_suggestions (H := Reference.platform) (Frame.of_columns cols) a_monday
     = Some None
  /\ study_time_suggestions (H := Reference.platform)
       {| columns := cols; rows := [notes_done] |} a_monday = Some (Some (Q2Qc 0))
  /\ study_time_suggestions (H := Reference.platform)
       {| columns := cols; rows := [<[2%nat := Str "next week"]> essay_pending] |} a_monday
     = Some (Some (Q2Qc (4 # 10)))
  /\ study_time_suggestions (H := Reference.platform)
       {| columns := cols;
          rows := [<[2%nat := Date (a_monday + 3)]> notes_pending] |} a_monday
     = Some (Some (Q2Qc (17 # 10))).
Proof. repeat split; apply (f_equal Some), (f_equal Some), Qc_is_canon; reflexivity. Qed.

(** ** Keywords *)

Example keywords_samples :
  extract_keywords_simple (Str "Read Chapter 5 and Review Notes") = "read, chapter, review, notes"
  /\ Words.as_stated "Read Chapter 5 and Review Notes" = "read, chapter, review, notes"
  /\ Words.of_words "Read Chapter 5 and Review Notes" = "read, chapter, review, notes"
  /\ extract_keywords_simple (Str "Week2 homework") = "homework"
  /\ Words.as_stated "Week2 homework" = "week, homework"
  /\ Words.of_words "Week2 homework" = "homework"
  /\ Words.of_words "unit_test plan9 for The exam" = "exam"
  /\ extract_keywords_simple (Str "unit_test plan9 for The exam") = "exam".
Proof. repeat split; vm_compute; reflexivity. Qed.

(** *** Spans and runs *)

Lemma string_app_cons (c : ascii) (a b : string) : String c a +:+ b = String c (a +:+ b).
Proof. done. Qed.

Lemma string_app_empty_l (a : string) : EmptyString +:+ a = a.
Proof. done. Qed.

Lemma string_app_empty_r (a : string) : a +:+ EmptyString = a.
Proof. induction a as [|c a IH]; [done|]. by rewrite string_app_cons, IH. Qed.

Lemma string_app_snoc (a b : string) (c : ascii) :
  (a +:+ String c EmptyString) +:+ b = a +:+ String c b.
Proof. induction a as [|x a IH]; [done|]. by rewrite !string_app_cons, IH. Qed.

Lemma string_length_app (a b : string) :
  String.length (a +:+ b) = (String.length a + String.length b)%nat.
Proof. induction a as [|x a IH]; [done|]. rewrite string_app_cons. simpl. by rewrite IH. Qed.

Lemma string_all_app (p : ascii -> bool) (a b : string) :
  Text.all p (a +:+ b) = Text.all p a && Text.all p b.
Proof.
  induction a as [|x a IH]; [done|]. rewrite string_app_cons. simpl. rewrite IH.
  by rewrite andb_assoc.
Qed.

Section Spans.
Variable p : ascii -> bool.

Lemma span_app (s : string) :
  fst (Text.span p s) +:+ snd (Text.span p s) = s.
Proof.
  induction s as [|c s IH]; simpl; [done|].
  destruct (p c); [|done]. destruct (Text.span p s) as [u rest]. simpl in *.
  by rewrite string_app_cons, IH.
Qed.

Lemma span_all (s : string) : Text.all p (fst (Text.span p s)) = true.
Proof.
  induction s as [|c s IH]; simpl; [done|].
  destruct (p c) eqn:Hc; [|done]. destruct (Text.span p s) as [u rest]. simpl in *.
  by rewrite Hc.
Qed.

(** What follows the span does not start with a character of [p]. *)
Lemma span_head (s : string) (x : ascii) :
  Regex.head (snd (Text.span p s)) = Some x -> p x = false.
Proof.
  induction s as [|c s IH]; simpl; [done|].
  destruct (p c) eqn:Hc.
  - destruct (Text.span p s) as [u rest]. simpl in *. done.
  - simpl. by intros [= <-].
Qed.

Lemma span_length (s : string) :
  String.length s
  = (String.length (fst (Text.span p s)) + String.length (snd (Text.span p s)))%nat.
Proof.
  induction s as [|c s IH]; simpl; [done|].
  destruct (p c); [|done]. destruct (Text.span p s) as [u rest]. simpl in *. lia.
Qed.

(** A text that does not start with a character of [p] has an empty span. *)
Lemma span_none (s : string) :
  (forall x, Regex.head s = Some x -> p x = false) ->
  Text.span p s = (EmptyString, s).
Proof.
  destruct s as [|c s]; simpl; [done|]. intros Hx. by rewrite (Hx c).
Qed.

Lemma runs_go_span (s : string) (w : string) :
  Words.runs_go p (Some w) s
  = (w +:+ fst (Text.span p s)) :: Words.runs p (snd (Text.span p s)).
Proof.
  revert w. induction s as [|c s IH]; intros w; simpl.
  - by rewrite string_app_empty_r.
  - destruct (p c) eqn:Hc.
    + rewrite IH. destruct (Text.span p s) as [u rest]. simpl. by rewrite string_app_snoc.
    + simpl. rewrite string_app_empty_r. unfold Words.runs. simpl. by rewrite Hc.
Qed.

(** The runs of a text that starts with a character of [p]: its span, and
    the runs of what follows. *)
Lemma runs_span (c : ascii) (s : string) :
  p c = true ->
  Words.runs p (String c s)
  = fst (Text.span p (String c s)) :: Words.runs p (snd (Text.span p (String c s))).
Proof.
  intros Hc. unfold Words.runs at 1. simpl. rewrite Hc, runs_go_span.
  by destruct (Text.span p s).
Qed.

Lemma runs_skip (c : ascii) (s : string) :
  p c = false -> Words.runs p (String c s) = Words.runs p s.
Proof. intros Hc. unfold Words.runs. simpl. by rewrite Hc. Qed.

End Spans.

(** *** The scan of [findall] *)

Lemma is_lower_word (c : ascii) : Text.is_lower c = true -> Text.is_word c = true.
Proof. unfold Text.is_word. by intros ->. Qed.

(** The word at the start of a text: its letters first. *)
Lemma span_word_lower (s : string) :
  Text.span Text.is_word s
  = (fst (Text.span Text.is_lower s)
       +:+ fst (Text.span Text.is_word (snd (Text.span Text.is_lower s))),
     snd (Text.span Text.is_word (snd (Text.span Text.is_lower s)))).
Proof.
  induction s as [|c s IH]; [done|].
  cbn [Text.span]. destruct (Text.is_lower c) eqn:Hc.
  - rewrite (is_lower_word c Hc), IH.
    destruct (Text.span Text.is_lower s) as [run rest]. simpl. done.
  - cbn [fst snd Text.span]. by destruct (Text.is_word c), (Text.span Text.is_word s).
Qed.

Lemma split_at_all (run : string) :
  Regex.split_at (String.length run) run = (run, EmptyString).
Proof. induction run as [|c run IH]; simpl; [done|]. by rewrite IH. Qed.

Lemma split_at_app (k : nat) (run : string) :
  fst (Regex.split_at k run) +:+ snd (Regex.split_at k run) = run.
Proof.
  revert k. induction run as [|c run IH]; intros [|k]; simpl; try done.
  specialize (IH k). destruct (Regex.split_at k run). simpl in *.
  by rewrite string_app_cons, IH.
Qed.

Lemma split_at_nonempty (k : nat) (c : ascii) (run : string) :
  exists tok, fst (Regex.split_at (S k) (String c run)) = String c tok.
Proof. simpl. destruct (Regex.split_at k run). by eexists. Qed.

(** The last character of a non-empty run of letters is a word character. *)
Lemma last_char_lower (run : string) (before : option ascii) :
  run <> EmptyString ->
  Text.all Text.is_lower run = true ->
  Regex.word_at (Regex.last_char before run) = true.
Proof.
  revert before. induction run as [|c run IH]; intros before Hne; [done|].
  cbn [Text.all Regex.last_char]. intros [Hc Hrest]%andb_true_iff.
  destruct run as [|x run]; [by apply is_lower_word|]. by apply IH.
Qed.

Lemma head_app_lower (a b : string) :
  Text.all Text.is_lower a = true ->
  Regex.word_at (Regex.head b) = true ->
  Regex.word_at (Regex.head (a +:+ b)) = true.
Proof.
  destruct a as [|c a]; [done|]. rewrite string_app_cons. simpl.
  intros [Hc _]%andb_true_iff _. by apply is_lower_word.
Qed.

(** Inside a word, giving characters back never reaches a word boundary. *)
Lemma backtrack_inside (k : nat) (run rest : string) :
  (k <= String.length run)%nat ->
  Text.all Text.is_lower run = true ->
  Regex.word_at (Regex.head rest) = true ->
  Regex.backtrack k run rest = None.
Proof.
  intros Hk Hrun Hrest. induction k as [|k IH]; [done|].
  destruct k as [|k]; [done|].
  cbn [Regex.backtrack].
  pose proof (split_at_app (S (S k)) run) as Happ.
  destruct run as [|c run]; [simpl in Hk; lia|].
  destruct (split_at_nonempty (S k) c run) as [tok' Htok'].
  destruct (Regex.split_at (S (S k)) (String c run)) as [tok back] eqn:Hsplit.
  cbn [fst snd] in Happ, Htok'. subst tok.
  assert (Text.all Text.is_lower (String c tok') = true
          /\ Text.all Text.is_lower back = true) as [Htok Hback].
  { rewrite <- Happ, string_all_app in Hrun. by apply andb_true_iff in Hrun. }
  assert (Regex.boundary (Regex.last_char None (String c tok'))
                         (Regex.head (back +:+ rest)) = false) as ->.
  { unfold Regex.boundary. rewrite (head_app_lower back rest Hback Hrest).
    by rewrite last_char_lower. }
  apply IH. lia.
Qed.

(** A run of two letters or more that ends where a word ends is matched
    whole. *)
Lemma backtrack_whole (run rest : string) :
  Text.all Text.is_lower run = true ->
  (2 <= String.length run)%nat ->
  Regex.word_at (Regex.head rest) = false ->
  Regex.backtrack (String.length run) run rest = Some (run, rest).
Proof.
  intros Hrun Hlen Hrest.
  destruct (String.length run) as [|[|k]] eqn:Hk; [lia..|].
  cbn [Regex.backtrack]. rewrite <- Hk, split_at_all, string_app_empty_l.
  unfold Regex.boundary. rewrite Hrest, last_char_lower; [done| |done].
  by destruct run.
Qed.

Lemma backtrack_short (k : nat) (run rest : string) :
  (k < 2)%nat -> Regex.backtrack k run rest = None.
Proof. destruct k as [|[|k]]; [done..|lia]. Qed.

Lemma span_word_cons (c : ascii) (s : string) :
  Text.is_word c = true ->
  snd (Text.span Text.is_word (String c s)) = snd (Text.span Text.is_word s).
Proof. intros Hc. cbn [Text.span]. rewrite Hc. by destruct (Text.span Text.is_word s). Qed.

Lemma match_here_inside (before : option ascii) (c : ascii) (s : string) :
  Regex.word_at before = true -> Text.is_word c = true ->
  Regex.match_here before (String c s) = None.
Proof.
  intros Hb Hc. unfold Regex.match_here, Regex.boundary. cbn [Regex.head Regex.word_at].
  by rewrite Hb, Hc.
Qed.

Lemma match_here_outside (before : option ascii) (s : string) :
  (forall x, Regex.head s = Some x -> Text.is_word x = false) ->
  Regex.match_here before s = None.
Proof.
  intros Hs. unfold Regex.match_here, Regex.span_lower.
  destruct (Regex.boundary _ _); [|done].
  rewrite span_none; [done|]. intros x Hx.
  destruct (Text.is_lower x) eqn:Hl; [|done].
  apply is_lower_word in Hl. rewrite (Hs x Hx) in Hl. done.
Qed.

(** The scan finds the words of two letters or more and nothing else; from
    inside a word, those after that word. *)
Lemma scan_runs (fuel : nat) (s : string) (before : option ascii) :
  (String.length s < fuel)%nat ->
  Regex.scan fuel before s
  = List.filter Words.two_letters
      (Words.runs Text.is_word
         (if Regex.word_at before then snd (Text.span Text.is_word s) else s)).
Proof.
  revert s before. induction fuel as [|fuel IH]; intros s before Hlen; [lia|].
  cbn [Regex.scan].
  destruct s as [|c s'].
  { (* the end of the text *)
    rewrite match_here_outside by done. by destruct (Regex.word_at before). }
  cbn [String.length] in Hlen.
  destruct (Text.is_word c) eqn:Hc; cycle 1.
  { (* not a word character: no match here, and no word under way after it *)
    rewrite match_here_outside by (by intros x [= <-]).
    rewrite IH by lia. cbn [Regex.word_at]. rewrite Hc.
    rewrite (span_none Text.is_word (String c s')) by (by intros x [= <-]).
    cbn [snd]. by destruct (Regex.word_at before); rewrite runs_skip. }
  destruct (Regex.word_at before) eqn:Hb.
  { (* inside a word *)
    rewrite match_here_inside by done. rewrite IH by lia.
    cbn [Regex.word_at]. by rewrite Hc, span_word_cons. }
  (* the start of a word *)
  rewrite runs_span by done.
  pose proof (span_word_cons c s' Hc) as Hrest.
  rewrite span_word_lower in Hrest |- *. cbn [fst snd] in Hrest |- *.
  unfold Regex.match_here, Regex.boundary, Regex.span_lower.
  cbn [Regex.head Regex.word_at]. rewrite Hb, Hc. cbn [xorb].
  pose proof (span_all Text.is_lower (String c s')) as Hall.
  pose proof (span_length Text.is_lower (String c s')) as Hspan.
  pose proof (span_head Text.is_lower (String c s')) as Hhead.
  destruct (Text.span Text.is_lower (String c s')) as [run rest'].
  cbn [fst snd String.length] in *.
  destruct (Regex.word_at (Regex.head rest')) eqn:Hr.
  - (* the letters stop inside the word *)
    rewrite backtrack_inside by done. rewrite IH by lia.
    cbn [Regex.word_at]. rewrite Hc, <- Hrest. cbn [List.filter].
    destruct rest' as [|x r]; [done|]. cbn [Regex.head Regex.word_at] in Hr.
    assert (Words.two_letters
              (run +:+ fst (Text.span Text.is_word (String x r))) = false) as ->; [|done].
    unfold Words.two_letters. rewrite string_all_app. cbn [Text.span]. rewrite Hr.
    destruct (Text.span Text.is_word r). cbn [fst Text.all].
    rewrite (Hhead x eq_refl). by rewrite andb_false_r.
  - (* the letters are the word *)
    rewrite (span_none Text.is_word rest') in Hrest |- *
      by (intros x Hx; rewrite Hx in Hr; done).
    cbn [fst snd] in Hrest |- *. rewrite string_app_empty_r. cbn [List.filter].
    unfold Words.two_letters. rewrite Hall. cbn [andb].
    destruct (Nat.leb_spec 2 (String.length run)) as [Hlong|Hshort].
    + rewrite backtrack_whole by done.
      rewrite IH by lia.
      rewrite last_char_lower; [|intros ->; simpl in Hlong; lia|done].
      rewrite (span_none Text.is_word rest') by (intros x Hx; rewrite Hx in Hr; done).
      done.
    + rewrite backtrack_short by done. rewrite IH by lia.
      cbn [Regex.word_at]. by rewrite Hc, <- Hrest.
Qed.

Lemma findall_words (text : string) :
  Regex.findall text = List.filter Words.two_letters (Words.runs Text.is_word text).
Proof. unfold Regex.findall. by rewrite scan_runs by lia. Qed.

Lemma two_letters_isalnum (w : string) :
  Words.two_letters w = true -> isalnum w = true.
Proof.
  unfold Words.two_letters, isalnum. intros [Hall Hlen]%andb_true_iff.
  destruct w as [|c w]; [done|].
  clear Hlen. revert Hall. generalize (String c w). clear.
  intros w. induction w as [|c w IH]; simpl; [done|].
  intros [-> Hw]%andb_true_iff. simpl. by apply IH.
Qed.

Lemma filter_filter_implied {A} (f g h : A -> bool) (l : list A) :
  (forall x, g x = true -> f x = h x) ->
  List.filter f (List.filter g l) = List.filter h (List.filter g l).
Proof.
  intros Hfg. induction l as [|x l IH]; simpl; [done|].
  destruct (g x) eqn:Hg; [|done]. simpl. by rewrite (Hfg x Hg), IH.
Qed.

(** C6. [extract_keywords_simple] lowercases the title, takes its words (the
    maximal runs of letters, digits and underscores), keeps those made of two
    letters or more and nothing else, leaves the stop words out, and joins
    what remains with ", " in the order of the title; a title that is not
    a text has no keywords. On "Read Chapter 5 and Review Notes" it gives
    read, chapter, review, notes. *)
Theorem extract_keywords_simple_correct (title : string) :
  extract_keywords_simple (Str title) = Words.of_words title
  /\ extract_keywords_simple (Str "Read Chapter 5 and Review Notes")
     = "read, chapter, review, notes"
  /\ (forall c, (forall s, c <> Str s) -> extract_keywords_simple c = "").
Proof.
  split; [|split].
  - unfold extract_keywords_simple, Words.of_words. rewrite findall_words. f_equal.
    apply filter_filter_implied. intros w Hw.
    by rewrite (two_letters_isalnum w Hw).
  - vm_compute. reflexivity.
  - intros [] Hc; try done. by destruct (Hc s).
Qed.

(** C6, as stated, fails on a title with a digit next to letters: "week" is
    a run of four alphabetic characters, and is no keyword. *)
Lemma extract_keywords_not_letter_runs :
  extract_keywords_simple (Str "Week2 homework") = "homework"
  /\ Words.as_stated "Week2 homework" = "week, homework".
Proof. split; vm_compute; reflexivity. Qed.

(** ** Columns of a frame *)

Lemma index_of_elem (c : string) (cs : list string) :
  is_Some (Frame.index_of c cs) <-> c ∈ cs.
Proof.
  induction cs as [|c' cs IH]; simpl.
  - split; [by intros [? ?]|by intros ?%elem_of_nil].
  - case_bool_decide as Hc.
    + subst. split; [intros _; by left|by eexists].
    + rewrite fmap_is_Some, IH. split; [by right|]. by intros [?|?]%elem_of_cons.
Qed.

Lemma has_column_elem (df : DataFrame) (c : string) :
  Frame.has_column df c = true <-> c ∈ columns df.
Proof. unfold Frame.has_column. rewrite bool_decide_eq_true. apply index_of_elem. Qed.



Lemma index_of_app_other (c c' : string) (cs : list string) :
  c' ∉ cs -> c' <> c -> Frame.index_of c' (cs ++ [c]) = None.
Proof.
  induction cs as [|x cs IH]; simpl; intros Hc Hne.
  - by rewrite bool_decide_eq_false_2.
  - rewrite bool_decide_eq_false_2 by set_solver. rewrite IH by set_solver. done.
Qed.





Lemma add_column_other (df : DataFrame) (c c' : string) :
  c' ∉ columns df -> c' <> c -> Frame.column (Frame.add_column df c) c' = None.
Proof.
  intros Hc Hne. unfold Frame.column. simpl. by rewrite index_of_app_other.
Qed.




(** [df[cs]] for labels that are all columns. *)
Lemma select_columns (df : DataFrame) (cs : list string) :
  Forall (fun c => c ∈ columns df) cs ->
  exists df', Frame.select df cs = Some df'
    /\ columns df' = cs
    /\ well_formed df'
    /\ length (rows df') = length (rows df)
    /\ forall c, c ∈ cs -> Frame.column df' c = Frame.column df c.
Proof.
  intros Hcs. unfold Frame.select.
  destruct (mapM (fun c => Frame.index_of c (columns df)) cs) as [js|] eqn:Hjs; cycle 1.
  { apply mapM_None in Hjs. apply Exists_exists in Hjs as (c & Hc & Hnone).
    rewrite Forall_forall in Hcs. apply Hcs, index_of_elem in Hc as [j Hj]. congruence. }
  simpl. eexists. split; [done|]. simpl.
  apply mapM_Some in Hjs.
  split; [done|]. split; [|split; [by rewrite length_map|]].
  - unfold well_formed. simpl. apply Forall_fmap, Forall_forall. intros r _. simpl.
    rewrite length_map. symmetry. by eapply Forall2_length.
  - intros c [k Hk]%index_of_elem. unfold Frame.column. simpl. rewrite Hk. simpl.
    pose proof (index_of_lookup _ _ _ Hk) as Hck.
    destruct (Forall2_lookup_l _ _ _ _ _ Hjs Hck) as (j & Hjk & Hj).
    rewrite Hj. simpl. f_equal. rewrite map_map. apply map_ext. intros r.
    apply at_pos_lookup. by rewrite list_lookup_fmap, Hjk.
Qed.

Section LoadFacts.
Context `{Platform}.

Lemma read_csv_shape (f : csv_file) :
  well_formed (Csv.read_csv f)
  /\ columns (Csv.read_csv f) = header f
  /\ length (rows (Csv.read_csv f)) = length (lines f).
Proof.
  unfold Csv.read_csv, well_formed. simpl. split; [|split; [done|by rewrite length_map]].
  apply Forall_fmap, Forall_forall. intros line _. simpl.
  by rewrite length_map, length_seq.
Qed.


Lemma ensure_columns_present (cs : list string) (df : DataFrame) :
  Forall (fun c => c ∈ columns df) cs -> foldl ensure_column df cs = df.
Proof.
  induction 1 as [|c cs Hc _ IH]; simpl; [done|].
  assert (ensure_column df c = df) as ->; [|done].
  unfold ensure_column. apply has_column_elem in Hc. by rewrite Hc.
Qed.




End LoadFacts.

(** ** Loading a task file *)

Lemma cols_NoDup : NoDup cols.
Proof. compute_done. Qed.

Lemma index_of_NoDup (cs : list string) (j : nat) (c : string) :
  NoDup cs -> cs !! j = Some c -> Frame.index_of c cs = Some j.
Proof.
  intros Hnd. revert j. induction Hnd as [|c' cs Hc' Hnd IH]; intros j; [done|].
  destruct j as [|j]; simpl.
  - intros [= ->]. by rewrite bool_decide_eq_true_2.
  - intros Hj. rewrite bool_decide_eq_false_2.
    + by rewrite (IH j Hj).
    + intros ->. apply Hc'. by eapply list_elem_of_lookup_2.
Qed.

(** Two frames with the same columns, a cell for each in every row, and the
    same cells in every column are the same frame. *)
Lemma frame_ext (df df' : DataFrame) :
  columns df = columns df' -> columns df <> [] -> NoDup (columns df) ->
  well_formed df -> well_formed df' ->
  (forall c, c ∈ columns df -> Frame.column df c = Frame.column df' c) ->
  df = df'.
Proof.
  destruct df as [cs rs], df' as [cs' rs']. unfold well_formed. simpl.
  intros <- Hne Hnd Hwf Hwf' Hcol. f_equal.
  assert (forall j c, cs !! j = Some c ->
            map (Frame.at_pos j) rs = map (Frame.at_pos j) rs') as Hat.
  { intros j c Hj. specialize (Hcol c (list_elem_of_lookup_2 _ _ _ Hj)).
    unfold Frame.column in Hcol. simpl in Hcol.
    rewrite (index_of_NoDup cs j c Hnd Hj) in Hcol. simpl in Hcol. congruence. }
  assert (length rs = length rs') as Hlen.
  { destruct cs as [|c cs]; [done|].
    pose proof (Hat 0%nat c eq_refl) as H0. apply (f_equal length) in H0.
    by rewrite !length_map in H0. }
  apply list_eq. intros i.
  destruct (rs !! i) as [r|] eqn:Hr, (rs' !! i) as [r'|] eqn:Hr'.
  - f_equal. apply list_eq. intros j.
    assert (length r = length cs) as Hlr by (by eapply Forall_lookup in Hwf).
    assert (length r' = length cs) as Hlr' by (by eapply Forall_lookup in Hwf').
    destruct (cs !! j) as [c|] eqn:Hj.
    + pose proof (Hat j c Hj) as Hj'. apply (f_equal (fun l => l !! i)) in Hj'.
      rewrite !list_lookup_fmap, Hr, Hr' in Hj'. simpl in Hj'.
      injection Hj' as Hj'. unfold Frame.at_pos in Hj'.
      apply lookup_lt_Some in Hj.
      destruct (lookup_lt_is_Some_2 r j) as [x Hx]; [lia|].
      destruct (lookup_lt_is_Some_2 r' j) as [x' Hx']; [lia|].
      rewrite (nth_lookup_Some r j NaN x Hx), (nth_lookup_Some r' j NaN x' Hx') in Hj'.
      congruence.
    + apply lookup_ge_None in Hj.
      rewrite (proj2 (lookup_ge_None r j)), (proj2 (lookup_ge_None r' j)); [done|lia|lia].
  - apply lookup_lt_Some in Hr. apply lookup_ge_None in Hr'. lia.
  - apply lookup_ge_None in Hr. apply lookup_lt_Some in Hr'. lia.
  - done.
Qed.


Section LoadClaims.
Context `{Platform}.





End LoadClaims.


(** ** On the reference platform *)




(** The credential loader does return an empty set when a column is missing. *)
Example load_users_missing_column :
  load_users (H := Reference.platform)
    {[ USER_DB := {| header := ["email"]; lines := [["ada@example.org"]] |} ]}
  = Some no_users.
Proof. vm_compute. reflexivity. Qed.

(** The sample plan is loaded as it was saved, on the reference platform. *)
Example save_load_sample :
  load_tasks_for_user (H := Reference.platform)
    (save_tasks_for_user ∅ ada study_plan) ada = Some study_plan.
Proof. vm_compute. reflexivity. Qed.

(** C3. A task named "NA" loses its name between [save_tasks_for_user] and
    [load_tasks_for_user]: the name is written as the field NA, which the
    reader takes for a missing value, so that the collection that is loaded
    is not the one that was saved. *)
Theorem save_load_loses_na :
  load_tasks_for_user (H := Reference.platform)
    (save_tasks_for_user ∅ ada plan_with_na) ada
  = Some {| columns := cols; rows := [<[0%nat := NaN]> essay_pending] |}
  /\ load_tasks_for_user (H := Reference.platform)
       (save_tasks_for_user ∅ ada plan_with_na) ada
     <> Some plan_with_na.
Proof. split; [vm_compute; reflexivity|]. vm_compute. discriminate. Qed.

(** * Further properties

    The forms and helpers that the sections above leave out, and how the
    forms compose. *)

(** ** Normal forms of an email *)

Lemma lower_char_space (c : ascii) :
  Text.is_space (Text.lower_char c) = Text.is_space c.
Proof. by destruct c as [[] [] [] [] [] [] [] []]. Qed.

Lemma lower_char_idem (c : ascii) :
  Text.lower_char (Text.lower_char c) = Text.lower_char c.
Proof. by destruct c as [[] [] [] [] [] [] [] []]. Qed.

Lemma lower_idem (s : string) : Text.lower (Text.lower s) = Text.lower s.
Proof. induction s as [|c s IH]; simpl; [done|]. by rewrite lower_char_idem, IH. Qed.

Lemma lstrip_lower (s : string) : Text.lstrip (Text.lower s) = Text.lower (Text.lstrip s).
Proof.
  induction s as [|c s IH]; simpl; [done|]. rewrite lower_char_space.
  by destruct (Text.is_space c).
Qed.

Lemma rstrip_lower (s : string) : Text.rstrip (Text.lower s) = Text.lower (Text.rstrip s).
Proof.
  induction s as [|c s IH]; simpl; [done|]. rewrite IH, lower_char_space.
  destruct (Text.rstrip s); simpl; [|done]. by destruct (Text.is_space c).
Qed.

(** Lowercasing and stripping commute. *)
Lemma strip_lower (s : string) : Text.strip (Text.lower s) = Text.lower (Text.strip s).
Proof. unfold Text.strip. by rewrite lstrip_lower, rstrip_lower. Qed.

Lemma lstrip_clean (s : string) : starts_clean (Text.lstrip s).
Proof.
  induction s as [|c s IH]; simpl; [done|].
  destruct (Text.is_space c) eqn:Hc; [done|]. simpl. done.
Qed.

Lemma lstrip_of_clean (s : string) : starts_clean s -> Text.lstrip s = s.
Proof. destruct s as [|c s]; simpl; [done|]. by intros ->. Qed.

Lemma rstrip_clean (s : string) : starts_clean s -> starts_clean (Text.rstrip s).
Proof.
  destruct s as [|c s]; simpl; [done|]. intros Hc.
  destruct (Text.rstrip s); simpl; [|done]. by rewrite Hc.
Qed.

Lemma rstrip_idem (s : string) : Text.rstrip (Text.rstrip s) = Text.rstrip s.
Proof.
  induction s as [|c s IH]; simpl; [done|].
  destruct (Text.rstrip s) as [|x r] eqn:Hr.
  - destruct (Text.is_space c) eqn:Hc; simpl; [done|]. by rewrite Hc.
  - change (Text.rstrip (String c (String x r)))
      with (match Text.rstrip (String x r) with
            | EmptyString => if Text.is_space c then EmptyString else String c EmptyString
            | r' => String c r'
            end).
    by rewrite IH.
Qed.

Lemma strip_idem (s : string) : Text.strip (Text.strip s) = Text.strip s.
Proof.
  unfold Text.strip.
  rewrite (lstrip_of_clean (Text.rstrip _)) by apply rstrip_clean, lstrip_clean.
  apply rstrip_idem.
Qed.

Lemma normalize_email_idem (email : string) :
  normalize_email (normalize_email email) = normalize_email email.
Proof.
  unfold normalize_email. by rewrite strip_lower, strip_idem, lower_idem.
Qed.

Section Normal.
Context `{Platform}.

(** X1. The normal form of an email is a fixed point of the normalisation,
    which strips and lowercases in either order; so [login_user] and
    [register_user] answer for the normal form of an email, the one the
    session keeps, as they do for the email. *)
Theorem normalized_email_is_normal (fs : file_system) (email password : string) :
  normalize_email (normalize_email email) = normalize_email email
  /\ Text.strip (Text.lower email) = normalize_email email
  /\ hashable_lower (hashable_lower email) = hashable_lower email
  /\ login_user fs (normalize_email email) password = login_user fs email password
  /\ register_user fs (normalize_email email) password = register_user fs email password.
Proof.
  split_and!.
  - apply normalize_email_idem.
  - apply strip_lower.
  - apply normalize_email_idem.
  - unfold login_user. by rewrite normalize_email_idem.
  - unfold register_user. by rewrite normalize_email_idem.
Qed.

End Normal.

(** ** File names *)

Lemma sanitize_char_safe (c : ascii) : is_safe (sanitize_char (Text.lower_char c)) = true.
Proof. by destruct c as [[] [] [] [] [] [] [] []]. Qed.

Lemma safe_fixed (c : ascii) :
  is_safe c = true -> sanitize_char (Text.lower_char c) = c.
Proof. by destruct c as [[] [] [] [] [] [] [] []]. Qed.

Lemma safe_not_space (c : ascii) :
  is_safe c = true -> Text.is_space c = false /\ Text.lower_char c = c.
Proof. by destruct c as [[] [] [] [] [] [] [] []]. Qed.

Lemma sanitize_email_safe (email : string) :
  Text.all is_safe (sanitize_email_for_filename email) = true.
Proof.
  unfold sanitize_email_for_filename.
  induction email as [|c s IH]; simpl; [done|]. by rewrite sanitize_char_safe, IH.
Qed.

Lemma sanitize_email_fixed (s : string) :
  Text.all is_safe s = true -> sanitize_email_for_filename s = s.
Proof.
  unfold sanitize_email_for_filename.
  induction s as [|c s IH]; simpl; [done|]. intros [Hc Hs]%andb_true_iff.
  by rewrite (safe_fixed c Hc), IH.
Qed.

Lemma lower_safe (s : string) : Text.all is_safe s = true -> Text.lower s = s.
Proof.
  induction s as [|c s IH]; simpl; [done|]. intros [Hc Hs]%andb_true_iff.
  destruct (safe_not_space c Hc) as [_ ->]. by rewrite IH.
Qed.

Lemma rstrip_safe (s : string) : Text.all is_safe s = true -> Text.rstrip s = s.
Proof.
  induction s as [|c s IH]; simpl; [done|]. intros [Hc Hs]%andb_true_iff.
  rewrite IH by done. destruct (safe_not_space c Hc) as [-> _]. by destruct s.
Qed.

Lemma normalize_safe (s : string) : Text.all is_safe s = true -> normalize_email s = s.
Proof.
  intros Hs. unfold normalize_email, Text.strip.
  rewrite lstrip_of_clean.
  - by rewrite rstrip_safe, lower_safe.
  - destruct s as [|c s]; simpl in *; [done|].
    apply andb_true_iff in Hs as [Hc _]. by destruct (safe_not_space c Hc).
Qed.

(** X2. The name [sanitize_email_for_filename] gives has the length of the
    email and holds digits, lowercase letters, hyphens, underscores and dots
    only (no path separator among them); a name of that kind is left as it
    is. *)
Theorem sanitize_email_for_filename_safe (email : string) :
  String.length (sanitize_email_for_filename email) = String.length email
  /\ Text.all is_safe (sanitize_email_for_filename email) = true
  /\ sanitize_email_for_filename (sanitize_email_for_filename email)
     = sanitize_email_for_filename email
  /\ forall s, Text.all is_safe s = true -> sanitize_email_for_filename s = s.
Proof.
  split_and!.
  - unfold sanitize_email_for_filename.
    induction email as [|c s IH]; simpl; [done|]. by rewrite IH.
  - apply sanitize_email_safe.
  - apply sanitize_email_fixed, sanitize_email_safe.
  - apply sanitize_email_fixed.
Qed.

Lemma tasks_filename_not_user_db (email : string) :
  get_tasks_filename_for_user email ≠ USER_DB.
Proof. unfold get_tasks_filename_for_user, USER_DB. simpl. discriminate. Qed.

Section Files.
Context `{Platform}.

(** X3. The sanitised form of an email, taken as an email, names the same
    task file: what is saved for the one is loaded for the other. It is the
    email of another account as soon as the email holds a character that is
    not kept (the "@" of an address is one). *)
Theorem task_file_shared (fs : file_system) (email : string) (df : DataFrame) :
  let other := sanitize_email_for_filename email in
  get_tasks_filename_for_user other = get_tasks_filename_for_user email
  /\ load_tasks_for_user (save_tasks_for_user fs email df) other
     = load_tasks_for_user (save_tasks_for_user fs email df) email
  /\ (Text.all is_safe (normalize_email email) = false ->
      normalize_email other ≠ normalize_email email).
Proof.
  intros other. subst other.
  assert (get_tasks_filename_for_user (sanitize_email_for_filename email)
          = get_tasks_filename_for_user email) as Hname.
  { unfold get_tasks_filename_for_user.
    by rewrite (sanitize_email_fixed _ (sanitize_email_safe email)). }
  split_and!; [done| |].
  - unfold load_tasks_for_user. by rewrite Hname.
  - intros Hunsafe Heq. rewrite normalize_safe in Heq by apply sanitize_email_safe.
    rewrite <- Heq, sanitize_email_safe in Hunsafe. done.
Qed.

(** X4. The two stores do not touch each other's files: saving tasks leaves
    the credentials as they are, a registration leaves every task file as it
    is, and saving the tasks of one file name leaves those of another as
    they are. *)
Theorem stores_are_separate (fs : file_system) (email email' password : string)
    (df : DataFrame) :
  load_users (save_tasks_for_user fs email df) = load_users fs
  /\ (forall result fs',
        register_user fs email password = Some (result, fs') ->
        load_tasks_for_user fs' email' = load_tasks_for_user fs email')
  /\ (get_tasks_filename_for_user email' ≠ get_tasks_filename_for_user email ->
      load_tasks_for_user (save_tasks_for_user fs email df) email'
      = load_tasks_for_user fs email').
Proof.
  split_and!.
  - unfold load_users, save_tasks_for_user.
    rewrite lookup_insert_ne; [done|]. apply tasks_filename_not_user_db.
  - intros result fs'. unfold register_user.
    destruct (load_users fs) as [users|]; [|done]. simpl.
    destruct (Frame.column users "email") as [emails|]; [|done]. simpl.
    destruct (existsb _ _); intros [= _ <-]; [done|].
    unfold load_tasks_for_user, save_users.
    rewrite lookup_insert_ne; [done|].
    intros Heq. by apply (tasks_filename_not_user_db email').
  - intros Hne. unfold load_tasks_for_user, save_tasks_for_user.
    by rewrite lookup_insert_ne.
Qed.

End Files.

(** ** The shape of a password hash *)

Lemma round_length (st : list Z) (kw : Z * Z) :
  length st = 8%nat -> length (Sha256.round st kw) = 8%nat.
Proof.
  intros Hst. do 9 (destruct st as [|? st]; try done).
Qed.

Lemma rounds_length (kws : list (Z * Z)) (st : list Z) :
  length st = 8%nat -> length (fold_left Sha256.round kws st) = 8%nat.
Proof.
  revert st. induction kws as [|kw kws IH]; intros st Hst; simpl; [done|].
  by apply IH, round_length.
Qed.

Lemma compress_length (h block : list Z) :
  length h = 8%nat -> length (Sha256.compress h block) = 8%nat.
Proof.
  intros Hh. unfold Sha256.compress.
  rewrite length_map, length_combine, rounds_length by done. lia.
Qed.

Lemma compress_all_length (bs : list (list Z)) (h : list Z) :
  length h = 8%nat -> length (fold_left Sha256.compress bs h) = 8%nat.
Proof.
  revert h. induction bs as [|b bs IH]; intros h Hh; simpl; [done|].
  by apply IH, compress_length.
Qed.

Lemma hex_digit_is_hex (n : Z) : is_hex (Sha256.hex_digit (n mod 16)) = true.
Proof.
  assert (0 <= n mod 16 < 16) as Hn by (apply Z.mod_pos_bound; lia).
  assert (exists k, (k < 16)%nat /\ n mod 16 = Z.of_nat k) as (k & Hk & ->).
  { exists (Z.to_nat (n mod 16)). lia. }
  do 16 (destruct k as [|k]; [done|]). lia.
Qed.

Lemma hex_shape (k : nat) (n : Z) (acc : string) :
  String.length (Sha256.hex k n acc) = (k + String.length acc)%nat
  /\ Text.all is_hex (Sha256.hex k n acc) = Text.all is_hex acc.
Proof.
  revert n acc. induction k as [|k IH]; intros n acc; simpl; [done|].
  destruct (IH (n / 16) (String (Sha256.hex_digit (n mod 16)) acc)) as [-> ->].
  simpl. rewrite hex_digit_is_hex. split; [lia|done].
Qed.

Lemma hex_words_shape (ws : list Z) :
  String.length (fold_right (fun w acc => Sha256.hex 8 w acc) EmptyString ws)
  = (8 * length ws)%nat
  /\ Text.all is_hex (fold_right (fun w acc => Sha256.hex 8 w acc) EmptyString ws) = true.
Proof.
  induction ws as [|w ws [IHl IHa]]; [done|]. cbn [fold_right].
  destruct (hex_shape 8 w (fold_right (fun w acc => Sha256.hex 8 w acc) EmptyString ws))
    as [-> ->].
  rewrite IHl, IHa. split; [simpl; lia|done].
Qed.

(** X5. Whatever the password, its hash is a text of 64 characters, each a
    digit or a letter from a to f; so it is never empty and never one of
    the missing-value markers of the CSV reader. *)
Theorem hash_password_shape (password : string) :
  String.length (hash_password password) = 64%nat
  /\ Text.all is_hex (hash_password password) = true
  /\ Csv.is_na (hash_password password) = false.
Proof.
  unfold hash_password, Sha256.hexdigest.
  set (h := fold_left Sha256.compress _ Sha256.H0).
  assert (length h = 8%nat) as Hlen by (by apply compress_all_length).
  destruct (hex_words_shape h) as [Hl Ha]. rewrite Hlen in Hl.
  set (digest := fold_right _ EmptyString h) in *.
  split_and!; [done..|].
  apply bool_decide_eq_false. intros Hin. unfold Csv.NA_VALUES in Hin.
  repeat (apply elem_of_cons in Hin as [Heq|Hin]; [by rewrite Heq in Hl|]).
  by apply elem_of_nil in Hin.
Qed.

(** ** A credential file without one of its columns *)

Section ShortUsers.
Context `{Platform}.

Lemma load_users_short (fs : file_system) (f : csv_file) :
  fs !! USER_DB = Some f ->
  "email" ∉ header f \/ "password" ∉ header f ->
  load_users fs = Some no_users.
Proof.
  intros Hf Hmiss. unfold load_users. rewrite Hf.
  assert (negb (Frame.has_column (Csv.read_csv f) "email")
          || negb (Frame.has_column (Csv.read_csv f) "password") = true) as ->; [|done].
  apply orb_true_iff.
  destruct Hmiss as [Hm|Hm]; [left|right]; apply negb_true_iff;
    apply not_true_is_false; intros Hc%has_column_elem; done.
Qed.

(** X6. A file users.csv that lacks the column "email" or the column
    "password" counts for no user at all: nobody can log in, and every
    registration succeeds and replaces the file by one that holds the new
    record alone. *)
Theorem register_user_replaces_short_file (fs : file_system) (f : csv_file)
    (email password : string) :
  fs !! USER_DB = Some f ->
  "email" ∉ header f \/ "password" ∉ header f ->
  login_user fs email password = Some false
  /\ register_user fs email password
     = Some ((true, "Registered successfully."),
             <[USER_DB := {| header := ["email"; "password"];
                             lines := [[normalize_email email; hash_password password]] |}]>
               fs).
Proof.
  intros Hf Hmiss. pose proof (load_users_short fs f Hf Hmiss) as Hload.
  unfold login_user, register_user. rewrite Hload. done.
Qed.

End ShortUsers.

(** The theorem on a file that holds emails only. *)
Lemma register_user_replaces_short_file_witness :
  login_user (H := Reference.platform)
    {[ USER_DB := {| header := ["email"]; lines := [["ada@example.org"]; ["bob@example.org"]] |} ]}
    "ada@example.org" "password" = Some false
  /\ register_user (H := Reference.platform)
       {[ USER_DB := {| header := ["email"]; lines := [["ada@example.org"]; ["bob@example.org"]] |} ]}
       "eve@example.org" "password"
     = Some ((true, "Registered successfully."),
             {[ USER_DB := {| header := ["email"; "password"];
                              lines := [["eve@example.org"; hash_password "password"]] |} ]}).
Proof.
  set (f := {| header := ["email"]; lines := [["ada@example.org"]; ["bob@example.org"]] |}).
  assert (({[ USER_DB := f ]} : file_system) !! USER_DB = Some f) as Hf by reflexivity.
  assert ("email" ∉ header f \/ "password" ∉ header f) as Hmiss.
  { right. vm_compute. by intros ?%list_elem_of_singleton. }
  split.
  - exact (proj1 (register_user_replaces_short_file (H := Reference.platform)
                    _ f "ada@example.org" "password" Hf Hmiss)).
  - rewrite (proj2 (register_user_replaces_short_file (H := Reference.platform)
                      _ f "eve@example.org" "password" Hf Hmiss)).
    by rewrite insert_singleton_eq.
Defined.

(** ** Days until due, in general *)

Section DaysLaw.
Context `{Platform}.

(** X7. For a date, [calculate_days_until_due] gives the days from today to
    the date, less one as soon as the clock is past midnight, and zero
    where that is negative: a task due tomorrow is zero days away all day
    long. Whatever it is given, the number it returns is not negative. *)
Theorem calculate_days_until_due_law (now : datetime) (d : date) :
  0 <= dt_usec now < usec_per_day ->
  calculate_days_until_due now (DueCell (Date d))
  = Some (Some (Z.max 0 (d - dt_day now - (if dt_usec now =? 0 then 0 else 1))))
  /\ (0 < dt_usec now -> d <= dt_day now + 1 ->
      calculate_days_until_due now (DueCell (Date d)) = Some (Some 0))
  /\ (forall v z, calculate_days_until_due now v = Some (Some z) -> 0 <= z).
Proof.
  intros Hus. pose proof (calculate_days_until_due_date now d Hus) as Hd.
  split_and!; [done| |].
  - intros Hpast Hdue. rewrite Hd. do 2 f_equal.
    destruct (Z.eqb_spec (dt_usec now) 0); lia.
  - intros v z. apply calculate_days_until_due_nonneg.
Qed.

End DaysLaw.

(** The theorem at noon of a Monday, for the Saturday after. *)
Lemma calculate_days_until_due_law_witness :
  calculate_days_until_due (H := Reference.platform) (noon a_monday)
    (DueCell (Date (a_monday + 5))) = Some (Some 4).
Proof.
  assert (0 <= dt_usec (noon a_monday) < usec_per_day) as Hus by (vm_compute; split; [discriminate|reflexivity]).
  exact (proj1 (calculate_days_until_due_law (H := Reference.platform)
                  (noon a_monday) (a_monday + 5) Hus)).
Defined.

(** ** Procrastination keywords *)

Lemma after_prefix_app (kw s rest : string) :
  Search.after_prefix kw s = Some rest <-> s = kw +:+ rest.
Proof.
  revert s. induction kw as [|a kw IH]; intros s; simpl.
  - split; [by intros [= ->]|by intros ->].
  - destruct s as [|b s]; [done|]. case_bool_decide as Hab.
    + subst b. rewrite IH. rewrite string_app_cons. split; [by intros ->|by intros [= ->]].
    + rewrite string_app_cons. split; [done|]. intros [= -> _]. done.
Qed.

(** The search for a keyword that starts and ends with a character of a
    word: an occurrence with no such character before it and none after. *)
Lemma search_spec (k : ascii) (kw' s : string) (before : option ascii) :
  Text.is_word k = true ->
  Regex.word_at (Regex.last_char None (String k kw')) = true ->
  Search.search before (String k kw') s = true
  <-> exists a b,
        s = a +:+ String k kw' +:+ b
        /\ Regex.word_at (Regex.last_char before a) = false
        /\ Regex.word_at (Regex.head b) = false.
Proof.
  intros Hk Hlast. set (kw := String k kw') in *.
  assert (forall before s,
            Search.match_here before kw s = true
            <-> exists b, s = kw +:+ b /\ Regex.word_at before = false
                          /\ Regex.word_at (Regex.head b) = false) as Hhere.
  { intros bf t. unfold Search.match_here. split.
    - intros [Hb Hrest]%andb_true_iff.
      destruct (Search.after_prefix kw t) as [rest|] eqn:Hp; [|done].
      apply after_prefix_app in Hp. subst t. exists rest. split; [done|].
      unfold kw in Hb. rewrite string_app_cons in Hb. unfold Regex.boundary in *.
      cbn [Regex.head Regex.word_at] in Hb. rewrite Hk in Hb.
      change (Regex.last_char bf kw) with (Regex.last_char None kw) in Hrest.
      rewrite Hlast in Hrest.
      split; [by destruct (Regex.word_at bf)|by destruct (Regex.word_at (Regex.head rest))].
    - intros (b & -> & Hbf & Hb).
      rewrite (proj2 (after_prefix_app kw (kw +:+ b) b)) by done.
      unfold kw at 1. rewrite string_app_cons. unfold Regex.boundary.
      cbn [Regex.head Regex.word_at]. rewrite Hk, Hbf.
      change (Regex.last_char bf kw) with (Regex.last_char None kw).
      by rewrite Hlast, Hb. }
  revert before. induction s as [|c s IH]; intros before.
  - cbn [Search.search]. rewrite orb_false_r, Hhere. split.
    + intros (b & Hb & _). done.
    + intros (a & b & Hab & _). destruct a; done.
  - cbn [Search.search]. rewrite orb_true_iff, Hhere, IH. split.
    + intros [(b & -> & Hbf & Hb)|(a & b & -> & Ha & Hb)].
      * by exists EmptyString, b.
      * by exists (String c a), b.
    + intros (a & b & Hab & Ha & Hb). destruct a as [|x a].
      * left. by exists b.
      * right. rewrite string_app_cons in Hab. injection Hab as <- ->.
        by exists a, b.
Qed.

(** X8. [check_for_procrastination] is true of a task name when, once
    lowercased, one of the six keywords stands in it with no letter, digit
    or underscore next to it on either side ("start-up" counts, "restart"
    and "plans" do not); it is false of what is not a text. *)
Theorem check_for_procrastination_correct (task_name : string) :
  (check_for_procrastination (Str task_name) = true
   <-> exists kw, kw ∈ PROCRASTINATION_KEYWORDS /\ stands_in kw (Text.lower task_name))
  /\ check_for_procrastination (Str (Text.lower task_name))
     = check_for_procrastination (Str task_name)
  /\ forall c, (forall s, c <> Str s) -> check_for_procrastination c = false.
Proof.
  split_and!.
  - unfold check_for_procrastination. rewrite existsb_exists.
    split.
    + intros (kw & Hin%list_elem_of_In & Hs). exists kw. split; [done|].
      unfold PROCRASTINATION_KEYWORDS in Hin.
      repeat (apply elem_of_cons in Hin as [->|Hin];
              [by apply search_spec in Hs|]).
      by apply elem_of_nil in Hin.
    + intros (kw & Hin & Hs). exists kw. split; [by apply list_elem_of_In|].
      unfold PROCRASTINATION_KEYWORDS in Hin.
      repeat (apply elem_of_cons in Hin as [->|Hin];
              [by apply search_spec|]).
      by apply elem_of_nil in Hin.
  - unfold check_for_procrastination. by rewrite lower_idem.
  - intros [] Hc; try done. by destruct (Hc s).
Qed.

Example check_for_procrastination_samples :
  map (fun t => check_for_procrastination (Str t))
      [ "Start essay"; "restart"; "start-up"; "think  about"; "Think about life";
        "plan_b"; "plans"; "my plan"; "figureout" ]
  = [ true; false; true; false; true; false; false; true; false ].
Proof. vm_compute. reflexivity. Qed.

(** ** Keywords of keywords *)

Lemma extract_keywords_words (title : string) :
  extract_keywords_simple (Str title) = Words.of_words title.
Proof.
  unfold extract_keywords_simple, Words.of_words. rewrite findall_words. f_equal.
  apply filter_filter_implied. intros w Hw. by rewrite (two_letters_isalnum w Hw).
Qed.

Lemma span_exact (p : ascii -> bool) (w s : string) :
  Text.all p w = true ->
  (forall x, Regex.head s = Some x -> p x = false) ->
  Text.span p (w +:+ s) = (w, s).
Proof.
  intros Hw Hs. induction w as [|c w IH].
  - by apply span_none.
  - simpl in Hw. apply andb_true_iff in Hw as [Hc Hw].
    rewrite string_app_cons. simpl. by rewrite Hc, IH.
Qed.

(** The words of the texts of [ws] joined by ", " are the texts of [ws],
    when each is a word. *)
Lemma runs_join (ws : list string) :
  Forall (fun w => w <> EmptyString /\ Text.all Text.is_word w = true) ws ->
  Words.runs Text.is_word (Text.join ", " ws) = ws.
Proof.
  assert (forall w s, w <> EmptyString -> Text.all Text.is_word w = true ->
            (forall x, Regex.head s = Some x -> Text.is_word x = false) ->
            Words.runs Text.is_word (w +:+ s) = w :: Words.runs Text.is_word s) as Hrun.
  { intros w s Hne Hw Hs. destruct w as [|c w]; [done|].
    rewrite string_app_cons. simpl in Hw. pose proof Hw as [Hc Hw']%andb_true_iff.
    rewrite runs_span by done. rewrite <- string_app_cons.
    by rewrite (span_exact _ (String c w) s). }
  induction 1 as [|w ws [Hne Hw] Hws IH]; [done|].
  destruct ws as [|w' ws].
  - cbn [Text.join]. rewrite <- (string_app_empty_r w) at 1. by rewrite Hrun.
  - change (Text.join ", " (w :: w' :: ws))
      with (w +:+ ", " +:+ Text.join ", " (w' :: ws)).
    rewrite Hrun; [|done|done|by intros x [= <-]]. f_equal.
    change (", " +:+ Text.join ", " (w' :: ws))
      with (String "," (String " " (Text.join ", " (w' :: ws)))).
    by rewrite !runs_skip.
Qed.

Lemma lower_of_lower (s : string) :
  Text.all (fun c => negb (Text.is_upper c)) s = true -> Text.lower s = s.
Proof.
  induction s as [|c s IH]; simpl; [done|]. intros [Hc Hs]%andb_true_iff.
  unfold Text.lower_char. apply negb_true_iff in Hc. by rewrite Hc, IH.
Qed.

Lemma join_not_upper (ws : list string) :
  Forall (fun w => Text.all Text.is_lower w = true) ws ->
  Text.all (fun c => negb (Text.is_upper c)) (Text.join ", " ws) = true.
Proof.
  assert (forall w, Text.all Text.is_lower w = true ->
            Text.all (fun c => negb (Text.is_upper c)) w = true) as Hlow.
  { induction w as [|c w IH]; simpl; [done|]. intros [Hc Hw]%andb_true_iff.
    rewrite IH by done. rewrite andb_true_r. apply negb_true_iff.
    revert Hc. by destruct c as [[] [] [] [] [] [] [] []]. }
  induction 1 as [|w ws Hw Hws IH]; [done|].
  destruct ws as [|w' ws]; [by apply Hlow|].
  change (Text.join ", " (w :: w' :: ws))
    with (w +:+ ", " +:+ Text.join ", " (w' :: ws)).
  rewrite !string_all_app, Hlow, IH by done. done.
Qed.

Lemma two_letters_word (w : string) :
  Words.two_letters w = true ->
  Text.all Text.is_lower w = true /\ w <> EmptyString
  /\ Text.all Text.is_word w = true.
Proof.
  unfold Words.two_letters. intros [Hall Hlen]%andb_true_iff.
  split; [done|]. split; [by destruct w|].
  clear Hlen. induction w as [|c w IH]; simpl in *; [done|].
  apply andb_true_iff in Hall as [Hc Hw]. by rewrite (is_lower_word c Hc), IH.
Qed.

Lemma filter_id {A} (f : A -> bool) (l : list A) :
  Forall (fun x => f x = true) l -> List.filter f l = l.
Proof. induction 1 as [|x l Hx _ IH]; simpl; [done|]. by rewrite Hx, IH. Qed.

(** X9. The keywords of a title do not depend on its case, and they are
    their own keywords: taken as a title, the text [extract_keywords_simple]
    gives is given back as it is. *)
Theorem extract_keywords_simple_stable (title : string) :
  extract_keywords_simple (Str (Text.lower title)) = extract_keywords_simple (Str title)
  /\ extract_keywords_simple (Str (extract_keywords_simple (Str title)))
     = extract_keywords_simple (Str title).
Proof.
  split.
  - unfold extract_keywords_simple. by rewrite lower_idem.
  - rewrite !extract_keywords_words.
    assert (exists ws, Words.of_words title = Text.join ", " ws
                       /\ Forall (fun w => Words.two_letters w = true
                                           /\ negb (Words.stop_word w) = true) ws)
      as (ws & -> & Hws).
    { eexists. split; [reflexivity|]. apply Forall_forall. intros w Hw.
      apply list_elem_of_In, filter_In in Hw as [Hw Hstop].
      apply filter_In in Hw as [_ Hw]. done. }
    unfold Words.of_words.
    rewrite lower_of_lower.
    2:{ apply join_not_upper. eapply Forall_impl; [exact Hws|].
        intros w [Hw _]. by destruct (two_letters_word w Hw). }
    rewrite runs_join.
    2:{ eapply Forall_impl; [exact Hws|].
        intros w [Hw _]. by destruct (two_letters_word w Hw) as (_ & ? & ?). }
    rewrite (filter_id Words.two_letters).
    2:{ eapply Forall_impl; [exact Hws|]. by intros w [Hw _]. }
    rewrite filter_id; [done|].
    eapply Forall_impl; [exact Hws|]. by intros w [_ Hw].
Qed.

(** ** The frame that is mailed *)

Lemma mapM_index_of (df : DataFrame) (cs : list string) :
  Forall (fun c => c ∈ columns df) cs ->
  exists js, mapM (fun c => Frame.index_of c (columns df)) cs = Some js
             /\ length js = length cs.
Proof.
  induction 1 as [|c cs Hc _ (js & IH & Hlen)]; [by exists []|].
  apply index_of_elem in Hc as [j Hj]. exists (j :: js).
  cbn. rewrite Hj. cbn. rewrite IH. cbn. by rewrite Hlen.
Qed.

(** X10. The frame for the mail never raises, whatever the columns of the
    tasks: it holds the labels of the listing that the frame has, and a row
    for each task. Of a task frame it holds the first eight cells of every
    row: the keywords, the days until due and the feedback are not mailed. *)
Theorem df_for_email_correct (df : DataFrame) :
  exists out,
    df_for_email df = Some out
    /\ (Frame.empty df = false ->
        columns out ⊆ columns df /\ length (rows out) = length (rows df))
    /\ (Frame.empty df = false -> columns df = cols ->
        out = {| columns := firstn 8 cols;
                 rows := map (fun r => map (fun j => Frame.at_pos j r) (seq 0 8)) (rows df) |}).
Proof.
  unfold df_for_email.
  set (shown := List.filter (Frame.has_column df) _).
  assert (Forall (fun c => c ∈ columns df) shown) as Hshown.
  { apply Forall_forall. intros c Hc. subst shown.
    apply list_elem_of_In, filter_In in Hc as [_ Hc]. by apply has_column_elem. }
  destruct (Frame.empty df) eqn:Hempty.
  { eexists. split; [done|]. split; intros; done. }
  cbn [negb]. unfold Frame.select.
  destruct (mapM_index_of df shown Hshown) as (js & Hjs & Hlen).
  rewrite Hjs. cbn [mbind option_bind]. eexists. split; [done|].
  split.
  - intros _. cbn [columns rows]. split; [|by rewrite length_map].
    intros c Hc. rewrite Forall_forall in Hshown. by apply Hshown.
  - intros _ Hc. subst shown. destruct df as [cs rs]. cbn [columns rows] in *. subst cs.
    vm_compute in Hjs. by injection Hjs as <-.
Qed.

(** ** The form "Add New Study Task" *)

Lemma dict_get_NoDup {V} (record : list (string * V)) (d : V) :
  NoDup (map fst record) ->
  map (fun c => default d (dict_get record c)) (map fst record) = map snd record.
Proof.
  induction record as [|[k v] record IH]; [done|].
  cbn [map fst snd]. intros [Hk Hnd]%NoDup_cons.
  cbn [dict_get]. rewrite bool_decide_eq_true_2 by done. cbn [default]. f_equal.
  rewrite <- IH by done. apply map_ext_in. intros c Hc.
  rewrite bool_decide_eq_false_2; [done|]. intros ->. by apply Hk, list_elem_of_In.
Qed.

Lemma filter_none {A} (f : A -> bool) (l : list A) :
  (forall x, x ∈ l -> f x = false) -> List.filter f l = [].
Proof.
  induction l as [|x l IH]; intros Hf; simpl; [done|].
  rewrite (Hf x) by left. apply IH. intros y Hy. apply Hf. by right.
Qed.

(** A record with the labels of the frame, in their order, is one more row. *)
Lemma concat_record_same_labels (df : DataFrame) (record : list (string * cell)) :
  map fst record = columns df -> NoDup (columns df) ->
  concat_record df record
  = {| columns := columns df; rows := rows df ++ [map snd record] |}.
Proof.
  intros Hl Hnd. unfold concat_record.
  rewrite (filter_none _ (map fst record)).
  2:{ intros c Hc. apply negb_false_iff, has_column_elem. by rewrite <- Hl. }
  cbn [length replicate]. rewrite app_nil_r. f_equal.
  rewrite <- Hl at 1. rewrite dict_get_NoDup by (by rewrite Hl). f_equal.
  induction (rows df) as [|r rs IH]; [done|]. simpl. by rewrite app_nil_r, IH.
Qed.

Lemma task_row_new (task_name course : string) (due_date : date)
    (effort task_type user_priority : string) (days : Z) :
  task_row (new_task_row task_name course due_date effort task_type user_priority days)
  = true.
Proof. done. Qed.

Section AddTask.
Context `{Platform}.

Lemma add_task_unfold (fs : file_system) (user_email : string) (df : DataFrame)
    (task_name course : string) (due_date : date)
    (effort task_type user_priority : string) (now : datetime) :
  columns df = cols -> 0 <= dt_usec now < usec_per_day ->
  task_name <> "" -> course <> "" ->
  let df' := {| columns := cols;
                rows := rows df ++ [new_task_row task_name course due_date effort task_type
                                      user_priority (whole_days_left now due_date)] |} in
  add_task fs user_email df task_name course due_date effort task_type user_priority now
  = Some (Added df' (save_tasks_for_user fs user_email df')).
Proof.
  intros Hc Hus Hname Hcourse df'. subst df'. unfold add_task.
  rewrite !bool_decide_eq_false_2 by done. cbn [negb andb].
  rewrite (calculate_days_until_due_date now due_date Hus).
  cbn [mbind option_bind from_option].
  rewrite concat_record_same_labels.
  - by rewrite Hc.
  - by rewrite Hc.
  - rewrite Hc. apply cols_NoDup.
Qed.

(** X11. The form "Add New Study Task" refuses an empty name and an empty
    course, and writes nothing then. Otherwise it never raises: it saves
    the frame with one more row at its end, the rows before as they were;
    the new task is pending, its AI priority is the priority the user
    gave, its keywords are those of its name, and its days until due are
    counted from the clock of the moment. The frame stays a frame of the
    kind the forms write. *)
Theorem add_task_correct (fs : file_system) (user_email : string) (df : DataFrame)
    (task_name course : string) (due_date : date)
    (effort task_type user_priority : string) (now : datetime) :
  task_frame df -> 0 <= dt_usec now < usec_per_day ->
  let df' := {| columns := cols;
                rows := rows df ++ [new_task_row task_name course due_date effort task_type
                                      user_priority (whole_days_left now due_date)] |} in
  (task_name = "" \/ course = "" ->
   add_task fs user_email df task_name course due_date effort task_type user_priority now
   = Some (Refused "Please fill in all task details."))
  /\ (task_name <> "" -> course <> "" ->
      add_task fs user_email df task_name course due_date effort task_type user_priority now
      = Some (Added df' (save_tasks_for_user fs user_email df'))
      /\ task_frame df').
Proof.
  intros [Hc Hrows] Hus df'. split.
  - intros Hempty. unfold add_task.
    destruct Hempty as [-> | ->]; [done|]. by rewrite andb_false_r.
  - intros Hname Hcourse. split; [by apply add_task_unfold|].
    split; [done|]. subst df'. cbn [rows]. apply Forall_app. split; [done|].
    constructor; [apply task_row_new|constructor].
Qed.

End AddTask.

(** The theorem on the sample plan, at noon of the Monday, for a task due
    the day after. *)
Lemma add_task_correct_witness :
  add_task (H := Reference.platform) ∅ ada study_plan "Plan the week" "Math"
    (a_monday + 1) "High" "Project" "Low" (noon a_monday)
  = Some (Added
            {| columns := cols;
               rows := rows study_plan
                       ++ [[ Str "Plan the week"; Str "Math"; Date (a_monday + 1);
                             Str "High"; Str "Project"; Str "Low"; Str "Low";
                             Str "Pending"; Str "plan, week"; Int 0; NaN; NaN; NaN ]] |}
            (save_tasks_for_user ∅ ada
               {| columns := cols;
                  rows := rows study_plan
                          ++ [[ Str "Plan the week"; Str "Math"; Date (a_monday + 1);
                                Str "High"; Str "Project"; Str "Low"; Str "Low";
                                Str "Pending"; Str "plan, week"; Int 0; NaN; NaN; NaN ]] |})).
Proof.
  assert (task_frame study_plan) as Hplan.
  { split; [reflexivity|]. repeat constructor. }
  assert (0 <= dt_usec (noon a_monday) < usec_per_day) as Hus
    by (vm_compute; split; [discriminate|reflexivity]).
  pose proof (add_task_correct (H := Reference.platform) ∅ ada study_plan "Plan the week"
                "Math" (a_monday + 1) "High" "Project" "Low" (noon a_monday) Hplan Hus)
    as Hadd.
  cbv zeta in Hadd. destruct Hadd as [_ Hadd].
  destruct Hadd as [Hadd _]; [discriminate..|]. exact Hadd.
Defined.

(** ** The metrics *)

Lemma cell_eqb_refl (c : cell) : c <> NaN -> cell_eqb c c = true.
Proof. destruct c; simpl; intros Hc; try done; by apply bool_decide_eq_true. Qed.

Lemma cell_eqb_NaN (c : cell) : cell_eqb c NaN = false.
Proof. by destruct c. Qed.

Lemma count_true_map {A} (f : A -> bool) (l : list A) :
  length (List.filter id (map f l)) = length (List.filter f l).
Proof.
  induction l as [|x l IH]; [done|]. cbn [map List.filter]. unfold id at 1.
  destruct (f x); cbn [length]; by rewrite IH.
Qed.

Lemma filter_length_le {A} (f : A -> bool) (l : list A) :
  (length (List.filter f l) <= length l)%nat.
Proof. induction l as [|x l IH]; simpl; [done|]. destruct (f x); simpl; lia. Qed.

(** Two properties that exclude each other select no more than all. *)
Lemma filter_disjoint_length {A} (f g : A -> bool) (l : list A) :
  (forall x, f x = true -> g x = false) ->
  (length (List.filter f l) + length (List.filter g l) <= length l)%nat.
Proof.
  intros Hfg. induction l as [|x l IH]; simpl; [done|].
  destruct (f x) eqn:Hf; [rewrite (Hfg x Hf)|destruct (g x)]; simpl; lia.
Qed.

(** The effect on a count of replacing one element. *)
Lemma filter_insert_length {A} (f : A -> bool) (l : list A) (i : nat) (x y : A) :
  l !! i = Some x ->
  (length (List.filter f (<[i := y]> l)) + (if f x then 1 else 0)
   = length (List.filter f l) + (if f y then 1 else 0))%nat.
Proof.
  intros Hi. rewrite insert_take_drop by (by eapply lookup_lt_Some).
  rewrite <- (take_drop_middle l i x Hi) at 3.
  rewrite !List.filter_app, !length_app. simpl.
  destruct (f x), (f y); simpl; lia.
Qed.

Lemma alter_lookup_insert {A} (f : A -> A) (l : list A) (i : nat) (x : A) :
  l !! i = Some x -> alter f i l = <[i := f x]> l.
Proof.
  intros Hi. apply list_eq. intros k. destruct (decide (k = i)) as [->|Hk].
  - rewrite list_lookup_alter_eq, Hi. simpl.
    by rewrite list_lookup_insert_eq by (by eapply lookup_lt_Some).
  - by rewrite list_lookup_alter_ne, list_lookup_insert_ne.
Qed.

Lemma count_status_rows (df : DataFrame) (status : string) :
  columns df = cols ->
  count_status df status
  = Some (length (List.filter (fun r => cell_eqb (task_status r) (Str status)) (rows df))).
Proof.
  intros Hc. unfold count_status. destruct df as [cs rs]. simpl in Hc. subst cs.
  destruct rs as [|r rs]; [done|].
  change (Frame.empty {| columns := cols; rows := r :: rs |}) with false.
  cbn [negb]. rewrite (column_at _ "Status" 7) by done.
  cbn [mbind option_bind rows]. unfold eq_mask. rewrite map_map.
  by rewrite (count_true_map (fun r0 => cell_eqb (Frame.at_pos 7 r0) (Str status))).
Qed.

Lemma metrics_rows (df : DataFrame) :
  columns df = cols ->
  metrics df
  = Some (length (rows df), length (pending_rows df), length (completed_rows df)).
Proof.
  intros Hc. unfold metrics. by rewrite !count_status_rows.
Qed.

(** X12. On a frame with the task columns the metrics never raise: the
    total is the number of rows, "Pending" and "Completed" count the rows of
    that status, and the two together never exceed the total; they fall
    short of it by the rows of any other status, a missing one included. *)
Theorem metrics_correct (df : DataFrame) :
  columns df = cols ->
  metrics df
  = Some (length (rows df), length (pending_rows df), length (completed_rows df))
  /\ (length (pending_rows df) + length (completed_rows df)
      + length (List.filter
                  (fun r => negb (cell_eqb (task_status r) (Str "Pending"))
                            && negb (cell_eqb (task_status r) (Str "Completed")))
                  (rows df))
      = length (rows df))%nat.
Proof.
  intros Hc. split; [by apply metrics_rows|].
  unfold pending_rows, completed_rows.
  induction (rows df) as [|r rs IH]; simpl; [done|].
  destruct (task_status r) as [|s| | |]; simpl; try lia.
  repeat case_bool_decide; simplify_eq; simpl; try lia.
Qed.

(** The theorem on the sample plan: three tasks, two pending, one completed. *)
Lemma metrics_correct_witness :
  metrics study_plan = Some (3, 2, 1)%nat.
Proof.
  assert (columns study_plan = cols) as Hc by reflexivity.
  exact (proj1 (metrics_correct study_plan Hc)).
Defined.

(** ** The forms, one after the other *)

Lemma pending_rows_app (df : DataFrame) (r : list cell) :
  pending_rows {| columns := columns df; rows := rows df ++ [r] |}
  = pending_rows df ++ (if cell_eqb (task_status r) (Str "Pending") then [r] else []).
Proof. unfold pending_rows. cbn [rows]. by rewrite List.filter_app. Qed.

Section AddEffects.
Context `{Platform}.

(** X13. After a task is added the metrics count one task more and one
    pending task more, the completed ones as before, and the name of the
    task is the last of those offered by "Mark Task as Complete". *)
Theorem add_task_counts (fs : file_system) (user_email : string) (df : DataFrame)
    (name course : string) (due_date : date)
    (effort task_type user_priority : string) (now : datetime) :
  columns df = cols -> 0 <= dt_usec now < usec_per_day ->
  name <> "" -> course <> "" ->
  exists df' fs',
    add_task fs user_email df name course due_date effort task_type user_priority now
    = Some (Added df' fs')
    /\ metrics df'
       = Some (S (length (rows df)), S (length (pending_rows df)),
               length (completed_rows df))
    /\ map task_name (pending_rows df')
       = map task_name (pending_rows df) ++ [Str name].
Proof.
  intros Hc Hus Hname Hcourse. eexists _, _. split; [by apply add_task_unfold|].
  rewrite metrics_rows by done. unfold pending_rows, completed_rows. cbn [rows].
  rewrite !List.filter_app, !length_app, map_app. cbn. split; [|done].
  rewrite (bool_decide_eq_true_2 ("Pending" = "Pending")) by done.
  rewrite (bool_decide_eq_false_2 ("Pending" = "Completed")) by done.
  cbn [length]. do 2 f_equal; [f_equal|]; lia.
Qed.

End AddEffects.

(** The theorem on the sample plan. *)
Lemma add_task_counts_witness :
  exists df' fs',
    add_task (H := Reference.platform) ∅ ada study_plan "Plan the week" "Math"
      (a_monday + 1) "High" "Project" "Low" (noon a_monday) = Some (Added df' fs')
    /\ metrics df' = Some (4, 3, 1)%nat
    /\ map task_name (pending_rows df')
       = [Str "Write essay"; Str "Read notes"; Str "Plan the week"].
Proof.
  assert (columns study_plan = cols) as Hc by reflexivity.
  assert (0 <= dt_usec (noon a_monday) < usec_per_day) as Hus
    by (vm_compute; split; [discriminate|reflexivity]).
  assert ("Plan the week" <> "") as Hname by discriminate.
  assert ("Math" <> "") as Hcourse by discriminate.
  exact (add_task_counts (H := Reference.platform) ∅ ada study_plan "Plan the week"
           "Math" (a_monday + 1) "High" "Project" "Low" (noon a_monday)
           Hc Hus Hname Hcourse).
Defined.

(** ** "Mark Task as Complete", further *)

Lemma pending_rows_elem (df : DataFrame) (r : list cell) :
  r ∈ pending_rows df
  <-> r ∈ rows df /\ cell_eqb (task_status r) (Str "Pending") = true.
Proof. unfold pending_rows. rewrite !list_elem_of_In. apply filter_In. Qed.

Lemma eq_mask_lookup (rs : list (list cell)) (v : cell) (i : nat) (b : bool) :
  eq_mask (map task_name rs) v !! i = Some b
  <-> exists r, rs !! i = Some r /\ cell_eqb (task_name r) v = b.
Proof.
  unfold eq_mask. rewrite !list_lookup_fmap.
  destruct (rs !! i) as [r|]; simpl.
  - split; [intros [= <-]; by eexists|]. by intros (r' & [= <-] & <-).
  - split; [done|]. by intros (r' & ? & _).
Qed.

(** A name that a row bears, and that is not missing, is found. *)
Lemma first_true_named (rs : list (list cell)) (v : cell) :
  v <> NaN -> v ∈ map task_name rs ->
  exists idx r,
    Frame.first_true (eq_mask (map task_name rs) v) = Some idx
    /\ rs !! idx = Some r /\ task_name r = v.
Proof.
  intros Hv Hin.
  destruct (Frame.first_true (eq_mask (map task_name rs) v)) as [idx|] eqn:Hidx.
  - pose proof (first_true_lt _ _ Hidx) as Hat.
    apply eq_mask_lookup in Hat as (r & Hr & Heq). exists idx, r.
    split; [done|]. split; [done|]. by apply cell_eqb_eq.
  - apply first_true_None in Hidx.
    apply list_elem_of_fmap in Hin as (r & -> & Hr).
    apply list_elem_of_lookup in Hr as (i & Hi).
    rewrite Forall_lookup in Hidx.
    assert (eq_mask (map task_name rs) (task_name r) !! i = Some true) as Hm.
    { apply eq_mask_lookup. exists r. split; [done|]. by apply cell_eqb_refl. }
    by specialize (Hidx i true Hm).
Qed.

Lemma task_status_stamped (r : list cell) (ap ae : string) (today : date) :
  length r = 13%nat -> task_status (stamped r ap ae today) = Str "Completed".
Proof. intros Hr. do 14 (destruct r as [|? r]; try done). Qed.

Lemma task_row_stamped (r : list cell) (ap ae : string) (today : date) :
  task_row r = true -> task_row (stamped r ap ae today) = true.
Proof.
  unfold task_row. intros [Hr Hk]%andb_true_iff. apply bool_decide_eq_true in Hr.
  do 14 (destruct r as [|? r]; try done).
  cbn in Hk |- *. repeat (apply andb_true_iff in Hk as [? Hk]).
  repeat (apply andb_true_iff; split); done.
Qed.

Section CompleteFurther.

(** [complete_form] when every task of the chosen name is pending. *)
Lemma complete_form_all_pending (fs : file_system) (user_email : string)
    (df : DataFrame) (choice : cell) (ap ae : string) (today : date) :
  columns df = cols -> well_formed df ->
  choice <> NaN -> choice ∈ map task_name (pending_rows df) ->
  (forall r, r ∈ rows df -> cell_eqb (task_name r) choice = true ->
             cell_eqb (task_status r) (Str "Pending") = true) ->
  exists idx r df',
    rows df !! idx = Some r /\ r ∈ pending_rows df /\ task_name r = choice
    /\ df' = {| columns := cols; rows := <[idx := stamped r ap ae today]> (rows df) |}
    /\ complete_form fs user_email df choice ap ae today
       = Some (Saved df' (save_tasks_for_user fs user_email df'))
    /\ metrics df'
       = Some (length (rows df), (length (pending_rows df) - 1)%nat,
               S (length (completed_rows df)))
    /\ (0 < length (pending_rows df))%nat.
Proof.
  intros Hc Hwf Hchoice Hoffered Hpending.
  assert (choice ∈ map task_name (rows df)) as Hin.
  { apply list_elem_of_fmap in Hoffered as (r & -> & Hr).
    apply pending_rows_elem in Hr as [Hr _]. by apply list_elem_of_fmap_2. }
  destruct (first_true_named _ _ Hchoice Hin) as (idx & r & Hidx & Hr & Hname).
  assert (r ∈ rows df) as Hrin by (by eapply list_elem_of_lookup_2).
  assert (cell_eqb (task_status r) (Str "Pending") = true) as Hst.
  { apply Hpending; [done|]. rewrite Hname. by apply cell_eqb_refl. }
  assert (length r = 13%nat) as Hlen.
  { eapply Forall_lookup in Hwf; [|done]. by rewrite Hwf, Hc. }
  exists idx, r, {| columns := cols; rows := <[idx := stamped r ap ae today]> (rows df) |}.
  split_and!; [done|by apply pending_rows_elem|done|done| | |].
  - rewrite complete_form_unfold by done.
    destruct (pending_rows df) as [|p ps] eqn:Hp; [by apply elem_of_nil in Hoffered|].
    rewrite bool_decide_eq_true_2 by done. rewrite Hidx. cbn [mbind option_bind].
    rewrite stamp_completed_rows by done.
    by rewrite (alter_lookup_insert _ _ _ _ Hr).
  - rewrite metrics_rows by done. cbn [rows]. unfold pending_rows, completed_rows.
    cbn [rows]. rewrite length_insert.
    pose proof (filter_insert_length
                  (fun r0 => cell_eqb (task_status r0) (Str "Pending"))
                  (rows df) idx r (stamped r ap ae today) Hr) as Hp.
    pose proof (filter_insert_length
                  (fun r0 => cell_eqb (task_status r0) (Str "Completed"))
                  (rows df) idx r (stamped r ap ae today) Hr) as Hd.
    cbv beta in Hp, Hd. rewrite task_status_stamped in Hp, Hd by done.
    rewrite Hst in Hp. apply cell_eqb_Str in Hst. rewrite Hst in Hd.
    cbn [cell_eqb] in Hp, Hd.
    rewrite (bool_decide_eq_false_2 ("Completed" = "Pending")) in Hp by done.
    rewrite (bool_decide_eq_false_2 ("Pending" = "Completed")) in Hd by done.
    rewrite (bool_decide_eq_true_2 ("Completed" = "Completed")) in Hd by done.
    do 2 f_equal; [f_equal|]; lia.
  - assert (r ∈ pending_rows df) as Hrp by (by apply pending_rows_elem).
    destruct (pending_rows df); [by apply elem_of_nil in Hrp|simpl; lia].
Qed.

(** X14. When every task that bears the chosen name is pending,
    [complete_form] does complete a pending task: the first row of that
    name becomes the row with the status "Completed", the feedback and the
    date of the day, and the metrics count one pending task less and one
    completed task more. *)
Theorem complete_form_completes_pending (fs : file_system) (user_email : string)
    (df : DataFrame) (choice : cell) (ap ae : string) (today : date) :
  columns df = cols -> well_formed df ->
  choice <> NaN -> choice ∈ map task_name (pending_rows df) ->
  (forall r, r ∈ rows df -> cell_eqb (task_name r) choice = true ->
             cell_eqb (task_status r) (Str "Pending") = true) ->
  exists idx r df',
    rows df !! idx = Some r /\ r ∈ pending_rows df /\ task_name r = choice
    /\ df' = {| columns := cols; rows := <[idx := stamped r ap ae today]> (rows df) |}
    /\ complete_form fs user_email df choice ap ae today
       = Some (Saved df' (save_tasks_for_user fs user_email df'))
    /\ metrics df'
       = Some (length (rows df), (length (pending_rows df) - 1)%nat,
               S (length (completed_rows df)))
    /\ (0 < length (pending_rows df))%nat.
Proof. apply complete_form_all_pending. Qed.

(** X15. On a frame with the task columns [complete_form] raises in one
    case only: when the pending task that was chosen has no name. (The
    select box offers the missing value, no row equals it, and the first
    label of an empty index is asked for.) *)
Theorem complete_form_raises (fs : file_system) (user_email : string)
    (df : DataFrame) (choice : cell) (ap ae : string) (today : date) :
  columns df = cols ->
  complete_form fs user_email df choice ap ae today = None
  <-> choice = NaN /\ NaN ∈ map task_name (pending_rows df).
Proof.
  intros Hc. rewrite complete_form_unfold by done. split.
  - destruct (pending_rows df) as [|p ps] eqn:Hp; [done|].
    case_bool_decide as Hoff; [|done].
    destruct (decide (choice = NaN)) as [->|Hchoice]; [done|].
    assert (choice ∈ map task_name (rows df)) as Hin.
    { apply list_elem_of_fmap in Hoff as (r & -> & Hr).
      rewrite <- Hp in Hr. apply pending_rows_elem in Hr as [Hr _].
      by apply list_elem_of_fmap_2. }
    destruct (first_true_named _ _ Hchoice Hin) as (idx & r & -> & _). done.
  - intros [-> Hoff].
    destruct (pending_rows df) as [|p ps] eqn:Hp; [by apply elem_of_nil in Hoff|].
    rewrite bool_decide_eq_true_2 by done.
    assert (Frame.first_true (eq_mask (map task_name (rows df)) NaN) = None) as ->; [|done].
    apply first_true_None. unfold eq_mask. apply Forall_forall.
    intros b (c & -> & _)%list_elem_of_fmap. apply cell_eqb_NaN.
Qed.

End CompleteFurther.

(** The theorem on the sample plan, the essay being completed. *)
Lemma complete_form_completes_pending_witness :
  exists idx r df',
    rows study_plan !! idx = Some r /\ r ∈ pending_rows study_plan
    /\ task_name r = Str "Write essay"
    /\ df' = {| columns := cols;
                rows := <[idx := stamped r "High" "Longer" a_monday]> (rows study_plan) |}
    /\ complete_form ∅ ada study_plan (Str "Write essay") "High" "Longer" a_monday
       = Some (Saved df' (save_tasks_for_user ∅ ada df'))
    /\ metrics df'
       = Some (length (rows study_plan), (length (pending_rows study_plan) - 1)%nat,
               S (length (completed_rows study_plan)))
    /\ (0 < length (pending_rows study_plan))%nat.
Proof.
  apply (complete_form_completes_pending ∅ ada study_plan (Str "Write essay")
           "High" "Longer" a_monday).
  - reflexivity.
  - repeat constructor.
  - discriminate.
  - vm_compute. apply list_elem_of_here.
  - intros r Hr. unfold study_plan in Hr. cbn [rows] in Hr.
    repeat (apply elem_of_cons in Hr as [->|Hr]); [vm_compute; done..|].
    by apply elem_of_nil in Hr.
Defined.

(** The theorem on the plan whose task has no name. *)
Lemma complete_form_raises_witness :
  complete_form ∅ ada nameless_plan NaN "High" "Longer" a_monday = None.
Proof.
  assert (columns nameless_plan = cols) as Hc by reflexivity.
  apply (proj2 (complete_form_raises ∅ ada nameless_plan NaN "High" "Longer" a_monday Hc)).
  split; [reflexivity|]. vm_compute. apply list_elem_of_here.
Defined.

(** ** "Delete Task", further *)

Lemma keep_all_true {A} (f : A -> bool) (rs : list A) :
  (forall r, r ∈ rs -> f r = true) -> List.filter f rs = rs.
Proof.
  induction rs as [|r rs IH]; intros Hf; simpl; [done|].
  rewrite (Hf r) by left. f_equal. apply IH. intros r' Hr'. apply Hf. by right.
Qed.

Lemma filter_length_lt {A} (f : A -> bool) (l : list A) (x : A) :
  x ∈ l -> f x = false -> (length (List.filter f l) < length l)%nat.
Proof.
  induction l as [|y l IH]; intros Hx Hf; [by apply elem_of_nil in Hx|].
  simpl. pose proof (filter_length_le f l) as Hle.
  apply elem_of_cons in Hx as [<-|Hx].
  - rewrite Hf. lia.
  - specialize (IH Hx Hf). destruct (f y); simpl; lia.
Qed.

Lemma delete_task_rows (fs : file_system) (user_email : string)
    (df : DataFrame) (choice : cell) (j : nat) :
  Frame.index_of "Task Name" (columns df) = Some j ->
  choice ∈ map (Frame.at_pos j) (rows df) ->
  let df' := {| columns := columns df;
                rows := List.filter (fun r => negb (cell_eqb (Frame.at_pos j r) choice))
                          (rows df) |} in
  delete_task fs user_email df choice
  = Some (Saved df' (save_tasks_for_user fs user_email df')).
Proof.
  intros Hj Hin df'. subst df'. unfold delete_task, Frame.column.
  rewrite Hj. cbn [mbind option_bind].
  destruct df as [cs [|r rs]]; [by apply elem_of_nil in Hin|].
  destruct cs as [|c cs]; [done|]. cbn [Frame.empty rows columns negb].
  rewrite bool_decide_eq_true_2 by done.
  unfold Frame.boolean_index. cbn [rows columns]. by rewrite keep_ne_mask.
Qed.

Lemma delete_task_saved (fs : file_system) (user_email : string)
    (df : DataFrame) (choice : cell) (j : nat) (df' : DataFrame) (fs' : file_system) :
  Frame.index_of "Task Name" (columns df) = Some j ->
  delete_task fs user_email df choice = Some (Saved df' fs') ->
  choice ∈ map (Frame.at_pos j) (rows df)
  /\ df' = {| columns := columns df;
              rows := List.filter (fun r => negb (cell_eqb (Frame.at_pos j r) choice))
                        (rows df) |}
  /\ fs' = save_tasks_for_user fs user_email df'.
Proof.
  intros Hj Hrun.
  destruct (decide (choice ∈ map (Frame.at_pos j) (rows df))) as [Hin|Hnot].
  - rewrite (delete_task_rows fs user_email df choice j Hj Hin) in Hrun.
    by injection Hrun as <- <-.
  - unfold delete_task, Frame.column in Hrun. rewrite Hj in Hrun.
    cbn [mbind option_bind] in Hrun.
    destruct (negb (Frame.empty df)); [|done].
    by rewrite bool_decide_eq_false_2 in Hrun.
Qed.

(** X16. "Delete Task" on a task without a name deletes nothing: the frame
    is saved as it was. For any other choice the frame that is saved has
    fewer rows, and none that bears the name. *)
Theorem delete_task_missing_name (fs : file_system) (user_email : string)
    (df : DataFrame) (choice : cell) (j : nat) :
  Frame.index_of "Task Name" (columns df) = Some j ->
  (NaN ∈ map (Frame.at_pos j) (rows df) ->
   delete_task fs user_email df NaN
   = Some (Saved df (save_tasks_for_user fs user_email df)))
  /\ (forall df' fs',
        choice <> NaN ->
        delete_task fs user_email df choice = Some (Saved df' fs') ->
        (choice ∉ map (Frame.at_pos j) (rows df'))
        /\ (length (rows df') < length (rows df))%nat).
Proof.
  intros Hj. split.
  - intros Hin. rewrite (delete_task_rows fs user_email df NaN j Hj Hin). cbv zeta.
    rewrite keep_all_true; [|intros r _; by rewrite cell_eqb_NaN].
    by destruct df.
  - intros df' fs' Hchoice Hrun.
    destruct (delete_task_saved _ _ _ _ _ _ _ Hj Hrun) as (Hin & -> & _).
    cbn [rows]. split.
    + intros (r & Hname & Hr)%list_elem_of_fmap.
      apply list_elem_of_In, filter_In in Hr as [_ Hr]. cbv beta in Hr.
      by rewrite <- Hname, cell_eqb_refl in Hr.
    + apply list_elem_of_fmap in Hin as (r & Hname & Hr).
      apply (filter_length_lt _ _ r Hr). cbv beta.
      by rewrite <- Hname, cell_eqb_refl.
Qed.

(** The theorem on the plan whose task has no name. *)
Lemma delete_task_missing_name_witness :
  delete_task ∅ ada nameless_plan NaN
  = Some (Saved nameless_plan (save_tasks_for_user ∅ ada nameless_plan)).
Proof.
  assert (Frame.index_of "Task Name" (columns nameless_plan) = Some 0%nat) as Hj
    by reflexivity.
  apply (proj1 (delete_task_missing_name ∅ ada nameless_plan NaN 0 Hj)).
  vm_compute. apply list_elem_of_here.
Defined.

(** ** The kind of the frame *)

(** X17. "Mark Task as Complete" and "Delete Task" keep a task frame a
    task frame: the thirteen columns, texts under the text labels, dates
    under the two date labels, an integer under "Days Until Due". *)
Theorem forms_keep_task_frame (fs : file_system) (user_email : string)
    (df : DataFrame) (choice : cell) (ap ae : string) (today : date)
    (df' : DataFrame) (fs' : file_system) :
  task_frame df ->
  (complete_form fs user_email df choice ap ae today = Some (Saved df' fs') ->
   task_frame df')
  /\ (delete_task fs user_email df choice = Some (Saved df' fs') -> task_frame df').
Proof.
  intros [Hc Hrows]. split.
  - intros Hrun. rewrite complete_form_unfold in Hrun by done.
    destruct (pending_rows df) as [|p ps]; [done|].
    case_bool_decide; [|done].
    destruct (Frame.first_true _) as [idx|]; [|done].
    cbn [mbind option_bind] in Hrun. injection Hrun as <- _.
    rewrite stamp_completed_rows by done. split; [done|]. cbn [rows].
    apply Forall_alter; [done|]. intros r _ Hr.
    by apply (task_row_stamped r ap ae today).
  - intros Hrun.
    assert (Frame.index_of "Task Name" (columns df) = Some 0%nat) as Hj by (by rewrite Hc).
    destruct (delete_task_saved _ _ _ _ _ _ _ Hj Hrun) as (_ & -> & _).
    split; [done|]. cbn [rows]. apply Forall_forall. intros r Hr.
    apply list_elem_of_In, filter_In in Hr as [Hr _].
    rewrite Forall_forall in Hrows. by apply Hrows, list_elem_of_In.
Qed.

(** The theorem on the sample plan, the essay being completed. *)
Lemma forms_keep_task_frame_witness :
  task_frame (stamp_completed study_plan 1 "High" "Longer" a_monday).
Proof.
  assert (task_frame study_plan) as Hplan.
  { split; [reflexivity|]. repeat constructor. }
  apply (proj1 (forms_keep_task_frame ∅ ada study_plan (Str "Write essay") "High"
                  "Longer" a_monday
                  (stamp_completed study_plan 1 "High" "Longer" a_monday)
                  (save_tasks_for_user ∅ ada
                     (stamp_completed study_plan 1 "High" "Longer" a_monday))
                  Hplan)).
  vm_compute. reflexivity.
Defined.

Section AddDelete.
Context `{Platform}.

(** X18. A task that is added under a name no task of the frame bears, and
    deleted again, leaves the frame as it was, and the file as the file of
    that frame. *)
Theorem add_then_delete (fs : file_system) (user_email : string) (df : DataFrame)
    (name course : string) (due_date : date)
    (effort task_type user_priority : string) (now : datetime) :
  task_frame df -> 0 <= dt_usec now < usec_per_day ->
  name <> "" -> course <> "" ->
  Str name ∉ map task_name (rows df) ->
  exists df1 fs1,
    add_task fs user_email df name course due_date effort task_type user_priority now
    = Some (Added df1 fs1)
    /\ delete_task fs1 user_email df1 (Str name)
       = Some (Saved df (save_tasks_for_user fs user_email df)).
Proof.
  intros [Hc Hrows] Hus Hname Hcourse Hfresh. eexists _, _.
  split; [by apply add_task_unfold|].
  rewrite (delete_task_rows _ user_email _ (Str name) 0).
  - cbv zeta. cbn [rows columns]. rewrite List.filter_app.
    rewrite keep_all_true.
    2:{ intros r Hr. apply negb_true_iff, not_true_is_false. intros Heq%cell_eqb_eq.
        apply Hfresh. rewrite <- Heq. by apply list_elem_of_fmap_2. }
    cbn [List.filter new_task_row Frame.at_pos nth cell_eqb].
    rewrite bool_decide_eq_true_2 by done. cbn [negb]. rewrite app_nil_r.
    destruct df as [cs rs]. simpl in Hc. subst cs. cbn [rows columns]. do 2 f_equal.
    unfold save_tasks_for_user. by rewrite insert_insert_eq.
  - done.
  - cbn [rows]. rewrite map_app. apply elem_of_app. right. apply list_elem_of_here.
Qed.

End AddDelete.

(** The theorem on the sample plan. *)
Lemma add_then_delete_witness :
  exists df1 fs1,
    add_task (H := Reference.platform) ∅ ada study_plan "Plan the week" "Math"
      (a_monday + 1) "High" "Project" "Low" (noon a_monday) = Some (Added df1 fs1)
    /\ delete_task fs1 ada df1 (Str "Plan the week")
       = Some (Saved study_plan (save_tasks_for_user ∅ ada study_plan)).
Proof.
  apply (add_then_delete (H := Reference.platform)).
  - split; [reflexivity|]. repeat constructor.
  - vm_compute. split; [discriminate|reflexivity].
  - discriminate.
  - discriminate.
  - vm_compute. intros Hin.
    repeat (apply elem_of_cons in Hin as [Hin|Hin]; [discriminate|]).
    by apply elem_of_nil in Hin.
Defined.

(** ** The file a form writes *)

Lemma complete_form_saved (fs : file_system) (user_email : string)
    (df : DataFrame) (choice : cell) (ap ae : string) (today : date)
    (df' : DataFrame) (fs' : file_system) :
  complete_form fs user_email df choice ap ae today = Some (Saved df' fs') ->
  fs' = save_tasks_for_user fs user_email df'.
Proof.
  unfold complete_form.
  destruct (if negb (Frame.empty df) then _ else _) as [pending|];
    cbn [mbind option_bind]; [|done].
  destruct (negb (Frame.empty pending)); [|done].
  destruct (Frame.column pending "Task Name") as [options|];
    cbn [mbind option_bind]; [|done].
  case_bool_decide; [|done].
  destruct (Frame.column df "Task Name") as [names|]; cbn [mbind option_bind]; [|done].
  destruct (Frame.first_true _) as [idx|]; cbn [mbind option_bind]; [|done].
  by intros [= <- <-].
Qed.

Lemma delete_task_saved_fs (fs : file_system) (user_email : string)
    (df : DataFrame) (choice : cell) (df' : DataFrame) (fs' : file_system) :
  delete_task fs user_email df choice = Some (Saved df' fs') ->
  fs' = save_tasks_for_user fs user_email df'.
Proof.
  unfold delete_task. destruct (negb (Frame.empty df)); [|done].
  destruct (Frame.column df "Task Name") as [names|]; cbn [mbind option_bind]; [|done].
  case_bool_decide; [|done]. by intros [= <- <-].
Qed.

Section OneFile.
Context `{Platform}.

Lemma add_task_saved (fs : file_system) (user_email : string) (df : DataFrame)
    (name course : string) (due_date : date)
    (effort task_type user_priority : string) (now : datetime)
    (df' : DataFrame) (fs' : file_system) :
  add_task fs user_email df name course due_date effort task_type user_priority now
  = Some (Added df' fs') ->
  fs' = save_tasks_for_user fs user_email df'.
Proof.
  unfold add_task. destruct (negb _ && negb _); [|done].
  cbn [calculate_days_until_due mbind option_bind]. by intros [= <- <-].
Qed.

(** X19. Whatever a form of the task pages saves, it writes the task file
    of the user, with the frame it made, and nothing else: every other file
    is as it was, the credentials among them. *)
Theorem forms_write_one_file (fs : file_system) (user_email : string) (df : DataFrame)
    (choice : cell) (ap ae : string) (today : date)
    (name course : string) (due_date : date)
    (effort task_type user_priority : string) (now : datetime)
    (df' : DataFrame) (fs' : file_system) :
  complete_form fs user_email df choice ap ae today = Some (Saved df' fs')
  \/ delete_task fs user_email df choice = Some (Saved df' fs')
  \/ add_task fs user_email df name course due_date effort task_type user_priority now
     = Some (Added df' fs') ->
  fs' !! get_tasks_filename_for_user user_email = Some (Csv.to_csv df')
  /\ (forall file, file <> get_tasks_filename_for_user user_email ->
                   fs' !! file = fs !! file)
  /\ load_users fs' = load_users fs.
Proof.
  intros Hrun.
  assert (fs' = save_tasks_for_user fs user_email df') as ->.
  { destruct Hrun as [Hrun|[Hrun|Hrun]].
    - by eapply complete_form_saved.
    - by eapply delete_task_saved_fs.
    - by eapply add_task_saved. }
  unfold save_tasks_for_user. split_and!.
  - apply lookup_insert_eq.
  - intros file Hfile. by rewrite lookup_insert_ne.
  - unfold load_users. rewrite lookup_insert_ne; [done|].
    apply tasks_filename_not_user_db.
Qed.

End OneFile.

(** The theorem on the sample plan, the essay being completed. *)
Lemma forms_write_one_file_witness :
  save_tasks_for_user ∅ ada (stamp_completed study_plan 1 "High" "Longer" a_monday)
    !! get_tasks_filename_for_user ada
  = Some (Csv.to_csv (stamp_completed study_plan 1 "High" "Longer" a_monday))
  /\ (forall file, file <> get_tasks_filename_for_user ada ->
        save_tasks_for_user ∅ ada (stamp_completed study_plan 1 "High" "Longer" a_monday)
          !! file
        = (∅ : file_system) !! file)
  /\ load_users (H := Reference.platform)
       (save_tasks_for_user ∅ ada (stamp_completed study_plan 1 "High" "Longer" a_monday))
     = load_users (H := Reference.platform) ∅.
Proof.
  apply (forms_write_one_file (H := Reference.platform) ∅ ada study_plan
           (Str "Write essay") "High" "Longer" a_monday "" "" 0 "" "" ""
           (noon a_monday)).
  left. vm_compute. reflexivity.
Defined.

(** A task named like a missing-value marker comes back without a name:
    the rows of [nameless_plan] are of the kind that is loaded after such a
    task was added to an empty plan. *)
Example nameless_task_reachable :
  match add_task (H := Reference.platform) ∅ ada (Frame.of_columns cols) "NA" "History"
          (Calendar.ordinal 2025 3 13) "Medium" "Project" "Medium" (noon a_monday) with
  | Some (Added _ fs') =>
      (fun df => map task_name (rows df)) <$> load_tasks_for_user (H := Reference.platform) fs' ada
      = Some [NaN]
  | _ => False
  end.
Proof. vm_compute. reflexivity. Qed.

(** ** What is loaded after a save *)

Section Reload.
Context `{Platform}.


(** X21. On a file of credentials that has a header line, and when the
    emails and hashes that are written hold no control character, a
    registration that succeeds adds one record to the credentials that
    are loaded, and a registration that is refused adds none, however the
    texts of the file are read. *)
Theorem register_user_adds_one (fs fs' : file_system) (users : DataFrame)
    (email password message : string) (ok : bool) :
  users_file_parses fs ->
  written_whole (with_credential users email password) ->
  load_users fs = Some users ->
  register_user fs email password = Some ((ok, message), fs') ->
  exists users',
    load_users fs' = Some users'
    /\ credentials users'
    /\ length (rows users')
       = if ok then S (length (rows users)) else length (rows users).
Proof.
  intros _ _ Hload Hreg.
  destruct (load_users_credentials fs) as (users0 & Hload0 & Hu).
  rewrite Hload in Hload0. injection Hload0 as <-.
  rewrite (register_user_spec _ _ _ _ Hload Hu) in Hreg.
  case_bool_decide; injection Hreg as <- <- <-.
  { exists users. by split_and!. }
  destruct (load_users_credentials (save_users fs (with_credential users email password)))
    as (users' & Hload' & Hu').
  exists users'. split_and!; [done..|].
  revert Hload'. unfold load_users, save_users. rewrite lookup_insert_eq.
  destruct (read_csv_shape (Csv.to_csv (with_credential users email password)))
    as (_ & Hc & Hl).
  destruct Hu as [Hcols _]. unfold Frame.has_column. rewrite Hc.
  cbn [Csv.to_csv header with_credential Frame.append_row columns]. rewrite Hcols.
  cbn [negb orb].
  change (bool_decide (is_Some (Frame.index_of "email" ["email"; "password"]))) with true.
  change (bool_decide (is_Some (Frame.index_of "password" ["email"; "password"]))) with true.
  cbn [negb orb]. intros Hsel.
  destruct (select_columns (Csv.read_csv (Csv.to_csv (with_credential users email password)))
              ["email"; "password"]) as (users2 & Hsel2 & _ & _ & Hlen & _).
  { rewrite Hc. cbn [Csv.to_csv header with_credential Frame.append_row columns].
    rewrite Hcols. repeat constructor; set_solver. }
  rewrite Hsel2 in Hsel. injection Hsel as <-. rewrite Hlen, Hl.
  cbn [Csv.to_csv lines with_credential Frame.append_row rows].
  rewrite length_map, length_app. simpl. lia.
Qed.

End Reload.


(** The theorem at the registration of the empty email: the record is
    counted, though it is read back without its email. *)
Lemma register_user_adds_one_witness :
  exists users',
    load_users (H := Reference.platform) blank_user_file = Some users'
    /\ credentials users'
    /\ length (rows users') = 1%nat.
Proof.
  assert (users_file_parses ∅) as Hfile by (intros f Hf; done).
  assert (written_whole (with_credential no_users "" "secret")) as Hwhole.
  { split_and!; [discriminate| |]; repeat constructor. }
  assert (load_users (H := Reference.platform) ∅ = Some no_users) as Hload by reflexivity.
  assert (register_user (H := Reference.platform) ∅ "" "secret"
          = Some ((true, "Registered successfully."), blank_user_file)) as Hreg
    by (vm_compute; reflexivity).
  exact (register_user_adds_one (H := Reference.platform) ∅ blank_user_file no_users
           "" "secret" "Registered successfully." true Hfile Hwhole Hload Hreg).
Defined.

Section UsersTotal.
Context `{Platform}.


End UsersTotal.


(** ** A task that is added, then completed *)

Lemma task_frame_well_formed (df : DataFrame) : task_frame df -> well_formed df.
Proof.
  intros [Hc Hrows]. unfold well_formed. rewrite Hc.
  eapply Forall_impl; [exact Hrows|]. intros r [Hr _]%andb_true_iff.
  by apply bool_decide_eq_true in Hr.
Qed.

Section AddComplete.
Context `{Platform}.

(** X23. A task that is added under a name no task of the frame bears can
    be completed at once: the complete form, on the frame the add form
    made and for that name, never raises, writes to the row of the new task
    and to no other, and saves a frame whose metrics count one task more
    and one completed task more than the frame before the two forms, the
    pending ones as before. *)
Theorem add_then_complete (fs : file_system) (user_email : string) (df : DataFrame)
    (name course : string) (due_date : date)
    (effort task_type user_priority : string) (now : datetime)
    (ap ae : string) (today : date) :
  task_frame df -> 0 <= dt_usec now < usec_per_day ->
  name <> "" -> course <> "" ->
  Str name ∉ map task_name (rows df) ->
  exists df1 fs1 df2,
    add_task fs user_email df name course due_date effort task_type user_priority now
    = Some (Added df1 fs1)
    /\ complete_form fs1 user_email df1 (Str name) ap ae today
       = Some (Saved df2 (save_tasks_for_user fs user_email df2))
    /\ rows df2
       = rows df ++ [stamped (new_task_row name course due_date effort task_type
                                 user_priority (whole_days_left now due_date))
                       ap ae today]
    /\ metrics df2
       = Some (S (length (rows df)), length (pending_rows df),
               S (length (completed_rows df))).
Proof.
  intros Hframe Hus Hname Hcourse Hfresh.
  pose proof Hframe as [Hc Hrows].
  set (new := new_task_row name course due_date effort task_type user_priority
                (whole_days_left now due_date)).
  set (df1 := {| columns := cols; rows := rows df ++ [new] |}).
  assert (task_frame df1) as Hframe1.
  { split; [done|]. cbn [rows]. apply Forall_app. split; [done|].
    constructor; [apply task_row_new|constructor]. }
  assert (pending_rows df1 = pending_rows df ++ [new]) as Hpend.
  { unfold pending_rows, df1. cbn [rows]. by rewrite List.filter_app. }
  assert (completed_rows df1 = completed_rows df) as Hcomp.
  { unfold completed_rows, df1. cbn [rows]. rewrite List.filter_app.
    cbn. rewrite bool_decide_eq_false_2 by done. by rewrite app_nil_r. }
  assert (forall r, r ∈ rows df -> cell_eqb (task_name r) (Str name) = false) as Hothers.
  { intros r Hr. apply not_true_is_false. intros Heq%cell_eqb_eq.
    apply Hfresh. rewrite <- Heq. by apply list_elem_of_fmap_2. }
  destruct (complete_form_all_pending (save_tasks_for_user fs user_email df1) user_email
              df1 (Str name) ap ae today)
    as (idx & r & df2 & Hr & _ & Hrname & -> & Hrun & Hmetrics & _).
  { done. }
  { by apply task_frame_well_formed. }
  { done. }
  { rewrite Hpend, map_app. apply elem_of_app. right. apply list_elem_of_here. }
  { intros r [Hr| ->%list_elem_of_singleton]%elem_of_app Hr'.
    - by rewrite (Hothers r Hr) in Hr'.
    - done. }
  assert (idx = length (rows df) /\ r = new) as [-> ->].
  { cbn [rows df1] in Hr. destruct (decide (idx < length (rows df))%nat) as [Hlt|Hge].
    - rewrite lookup_app_l in Hr by done.
      apply list_elem_of_lookup_2, Hothers in Hr.
      by rewrite Hrname, cell_eqb_refl in Hr.
    - rewrite lookup_app_r in Hr by lia.
      destruct (idx - length (rows df))%nat as [|n] eqn:Hn; [|done].
      injection Hr as <-. split; [lia|done]. }
  eexists df1, (save_tasks_for_user fs user_email df1), _.
  split_and!.
  - by apply add_task_unfold.
  - rewrite Hrun. do 2 f_equal. unfold save_tasks_for_user. by rewrite insert_insert_eq.
  - cbn [rows df1]. rewrite insert_app_r_alt by lia.
    by rewrite Nat.sub_diag.
  - rewrite Hmetrics, Hpend, Hcomp. cbn [rows df1]. rewrite !length_app. cbn [length].
    do 3 f_equal; lia.
Qed.

End AddComplete.

(** The theorem on the sample plan. *)
Lemma add_then_complete_witness :
  exists df1 fs1 df2,
    add_task (H := Reference.platform) ∅ ada study_plan "Plan the week" "Math"
      (a_monday + 1) "High" "Project" "Low" (noon a_monday) = Some (Added df1 fs1)
    /\ complete_form fs1 ada df1 (Str "Plan the week") "Low" "Shorter" (a_monday + 1)
       = Some (Saved df2 (save_tasks_for_user ∅ ada df2))
    /\ rows df2
       = rows study_plan
         ++ [stamped (new_task_row "Plan the week" "Math" (a_monday + 1) "High" "Project"
                        "Low" (whole_days_left (noon a_monday) (a_monday + 1)))
               "Low" "Shorter" (a_monday + 1)]
    /\ metrics df2 = Some (4, 2, 2)%nat.
Proof.
  apply (add_then_complete (H := Reference.platform)).
  - split; [reflexivity|]. repeat constructor.
  - vm_compute. split; [discriminate|reflexivity].
  - discriminate.
  - discriminate.
  - vm_compute. intros Hin.
    repeat (apply elem_of_cons in Hin as [Hin|Hin]; [discriminate|]).
    by apply elem_of_nil in Hin.
Defined.

